(** * Bosch device converters: a shallow embedding

    This development embeds the Bosch converters of
    [src/devices/bosch.ts] and [src/lib/bosch.ts]: the lookup tables, the
    toZigbee (encode) converters, the fromZigbee (decode) converters, the
    Universal Switch II button-press decoder with its long-press registry,
    and the exposed-property function of the BMCT-SLZ profile.

    Asynchronous converter bodies are sequences of awaited operations; they
    are modelled in a state-and-exception monad over a [World] that records
    every operation handed to the transport, the log, the global store and
    the per-device metadata. *)

From Stdlib Require Import ZArith String Ascii List Bool Lia.
From stdpp Require Import base option list gmap strings pretty.
Import ListNotations.

Local Open Scope string_scope.
Local Open Scope Z_scope.

(** ** JavaScript values *)

(** Numbers that the modelled code computes with are integers (ZCL unsigned
    and enumeration attributes, lookup codes).  [VQuot n d] stands for the
    number [n / d] produced by a division of a wire integer by a constant;
    it is kept symbolic. *)
Inductive value : Type :=
| VUndefined
| VBool (b : bool)
| VNum (n : Z)
| VQuot (n d : Z)
| VStr (s : string)
| VBuffer (bytes : list Z).

#[export] Instance value_eq_dec : EqDecision value.
Proof. solve_decision. Defined.

(** A JavaScript object with string keys, in insertion order (the order
    [Object.keys] enumerates). *)
Definition KeyValue : Type := list (string * value).

(** A lookup table [{symbol: code, ...}]. *)
Definition Lookup : Type := list (string * Z).

Fixpoint assoc {A : Type} (k : string) (o : list (string * A)) : option A :=
  match o with
  | [] => None
  | (k', v) :: o' => if String.eqb k k' then Some v else assoc k o'
  end.

Definition hasOwnProperty {A : Type} (o : list (string * A)) (k : string) : bool :=
  match assoc k o with Some _ => true | None => false end.

Definition Object_keys {A : Type} (o : list (string * A)) : list string :=
  map fst o.

Definition Object_values {A : Type} (o : list (string * A)) : list A :=
  map snd o.

(** [o[k]] on an object read as a property map. *)
Definition prop (o : KeyValue) (k : string) : value :=
  match assoc k o with Some v => v | None => VUndefined end.

(** [arr[i]] for an array of strings indexed by a number: [undefined]
    outside [0 .. length-1]. *)
Definition index_keys (arr : list string) (i : Z) : value :=
  if i <? 0 then VUndefined
  else match nth_error arr (Z.to_nat i) with
       | Some k => VStr k
       | None => VUndefined
       end.

(** [Object.keys(t).find((key) => t[key] === code)]. *)
Definition find_key (t : Lookup) (code : Z) : value :=
  match List.find (fun k => match assoc k t with
                            | Some c => c =? code
                            | None => false
                            end) (Object_keys t) with
  | Some k => VStr k
  | None => VUndefined
  end.

(** Truthiness of a value, as tested by [if (value)]. *)
Definition truthy (v : value) : bool :=
  match v with
  | VUndefined => false
  | VBool b => b
  | VNum n => negb (n =? 0)
  | VQuot n d => negb (n =? 0)
  | VStr s => negb (String.eqb s "")
  | VBuffer _ => true
  end.

(** [value == true]: the boolean is converted to the number 1 and compared
    with the numeric value of the other side.  For strings only the literal
    ["1"] is recognised here. *)
Definition loose_eq_true (v : value) : bool :=
  match v with
  | VBool b => b
  | VNum n => n =? 1
  | VStr s => String.eqb s "1"
  | _ => false
  end.

(** ** Entities, operations and options *)

Inductive Entity : Type :=
| Endpoint (ieeeAddr : string) (ID : Z)
| Group (groupID : Z).

#[export] Instance Entity_eq_dec : EqDecision Entity.
Proof. solve_decision. Defined.

(** A cluster, attribute or command is named either by its string name or
    by its numeric identifier. *)
Inductive Key : Type :=
| KName (s : string)
| KId (n : Z).

#[export] Instance Key_eq_dec : EqDecision Key.
Proof. solve_decision. Defined.

(** [Zcl.ManufacturerCode.ROBERT_BOSCH_GMBH] is a constant of the ZCL
    library; only its identity matters. *)
Inductive ManufacturerCode : Type := ROBERT_BOSCH_GMBH.

#[export] Instance ManufacturerCode_eq_dec : EqDecision ManufacturerCode.
Proof. solve_decision. Defined.

Record Options : Type := mkOptions {
  manufacturerCode : option ManufacturerCode;
  sendPolicy : option string;
  direction : option Z
}.

#[export] Instance Options_eq_dec : EqDecision Options.
Proof. solve_decision. Defined.

Definition noOptions : Options := mkOptions None None None.
Definition manufacturerOptions : Options := mkOptions (Some ROBERT_BOSCH_GMBH) None None.
Definition manufacturerOpts : Options := manufacturerOptions.

(** The value written for one attribute: either [{value: v, type: t}] or a
    plain value. *)
Inductive AttrPayload : Type :=
| Typed (v : value) (type : Z)
| Plain (v : value).

#[export] Instance AttrPayload_eq_dec : EqDecision AttrPayload.
Proof. solve_decision. Defined.

(** One attribute record of a read response. *)
Record ReadResponseRecord : Type := mkRecord {
  rr_attribute : Z;
  rr_status : Z;
  rr_value : Z
}.

#[export] Instance ReadResponseRecord_eq_dec : EqDecision ReadResponseRecord.
Proof. solve_decision. Defined.

(** The operations a converter hands to the transport. *)
Inductive Op : Type :=
| Write (target : Entity) (cluster : Key) (attrs : list (Key * AttrPayload)) (opts : Options)
| Read (target : Entity) (cluster : Key) (attrs : list Key) (opts : Options)
| Command (target : Entity) (cluster : Key) (command : Key) (payload : KeyValue) (opts : Options)
| CommandResponse (target : Entity) (cluster : Key) (command : Key) (payload : KeyValue) (opts : Options)
| ReadResponse (target : Entity) (cluster : Key) (tsn : Z) (payload : list (string * ReadResponseRecord))
| ZclCommandBroadcast (target : Entity) (endpoint : Z) (destination : string)
    (cluster : Key) (command : Key) (payload : KeyValue) (opts : Options).

#[export] Instance Op_eq_dec : EqDecision Op.
Proof. solve_decision. Defined.

(** ** Errors and log entries *)

Inductive Error : Type :=
| Thrown (message : string)
| NotInLookup (v : value) (keys : list string)
| Rejected (o : Op)
| OutOfRange (offset : nat)
| TypeError
| NotAnEndpoint.

Inductive LogEntry : Type :=
| LogError (message : string) (namespace : string).

Definition NS : string := "zhc:bosch".

(** ** The world and the converter monad *)

Record World : Type := mkWorld {
  (** the transport collaborator: whether an awaited operation resolves *)
  accepts : Op -> bool;
  (** every operation handed to the transport, oldest first *)
  trace : list Op;
  log : list LogEntry;
  (** [globalStore]: per endpoint and key *)
  store : gmap (string * Z * string) Z;
  (** sequence numbers already processed, per endpoint *)
  processed : gmap (string * Z) (list Z);
  (** [device.meta.deviceMode], per device *)
  deviceMode : gmap string Z;
  (** number of [deviceExposesChanged] signals raised *)
  exposesChanged : nat
}.

Inductive Result (A : Type) : Type :=
| Ok (a : A)
| Throw (e : Error).
Arguments Ok {A} a.
Arguments Throw {A} e.

Definition M (A : Type) : Type := World -> Result A * World.

Definition ret {A : Type} (a : A) : M A := fun w => (Ok a, w).

Definition throw {A : Type} (e : Error) : M A := fun w => (Throw e, w).

Definition bind {A B : Type} (m : M A) (k : A -> M B) : M B :=
  fun w => match m w with
           | (Ok a, w') => k a w'
           | (Throw e, w') => (Throw e, w')
           end.

Declare Scope conv_scope.
Delimit Scope conv_scope with conv.
Notation "x <- m ;; k" := (bind m (fun x => k))
  (at level 100, m at next level, right associativity) : conv_scope.
Notation "m ;;; k" := (bind m (fun _ => k))
  (at level 100, right associativity) : conv_scope.
Local Open Scope conv_scope.

Definition with_trace (w : World) (t : list Op) : World :=
  mkWorld (accepts w) t (log w) (store w) (processed w) (deviceMode w) (exposesChanged w).

Definition with_log (w : World) (l : list LogEntry) : World :=
  mkWorld (accepts w) (trace w) l (store w) (processed w) (deviceMode w) (exposesChanged w).

Definition with_store (w : World) (s : gmap (string * Z * string) Z) : World :=
  mkWorld (accepts w) (trace w) (log w) s (processed w) (deviceMode w) (exposesChanged w).

Definition with_processed (w : World) (p : gmap (string * Z) (list Z)) : World :=
  mkWorld (accepts w) (trace w) (log w) (store w) p (deviceMode w) (exposesChanged w).

(** [await op]: the operation is handed to the transport; a rejection is
    thrown into the caller. *)
Definition await (o : Op) : M unit :=
  fun w => let w' := with_trace w (trace w ++ [o]) in
           if accepts w o then (Ok tt, w') else (Throw (Rejected o), w').

(** [op.catch((error) => {})] without [await]: the operation is handed to
    the transport and its outcome is dropped. *)
Definition fire_and_forget (o : Op) : M unit :=
  fun w => (Ok tt, with_trace w (trace w ++ [o])).

Definition logger_error (message : string) (namespace : string) : M unit :=
  fun w => (Ok tt, with_log w (log w ++ [LogError message namespace])).

(** ** Helpers imported from outside the two source files *)

(** Modelled from the spec: [utils.getFromLookup] lives in [lib/utils],
    which is not part of the sources at hand.  The spec (4.2, 4.3, 8) makes
    encoding a lookup of the symbolic string in the static table and makes a
    value outside the declared table fail with a descriptive error; the
    error names the offending value and the symbols of the table. *)
Definition getFromLookup (v : value) (t : Lookup) : M Z :=
  match v with
  | VStr s => match assoc s t with
              | Some code => ret code
              | None => throw (NotInLookup v (Object_keys t))
              end
  | _ => throw (NotInLookup v (Object_keys t))
  end.

(** A value is in a lookup table when it is one of its symbols. *)
Definition in_lookup (v : value) (t : Lookup) : bool :=
  match v with
  | VStr s => hasOwnProperty t s
  | _ => false
  end.

(** [utils.assertEndpoint]: throws unless the entity is an endpoint. *)
Definition assertEndpoint (entity : Entity) : M unit :=
  match entity with
  | Endpoint _ _ => ret tt
  | Group _ => throw NotAnEndpoint
  end.

(** [Buffer.from(s, 'hex')] of the Node.js runtime: pairs of hexadecimal
    digits are decoded until the first pair that is not one. *)
Definition hex_digit (c : ascii) : option Z :=
  let n := Z.of_nat (nat_of_ascii c) in
  if (48 <=? n) && (n <=? 57) then Some (n - 48)
  else if (97 <=? n) && (n <=? 102) then Some (n - 87)
  else if (65 <=? n) && (n <=? 70) then Some (n - 55)
  else None.

Fixpoint Buffer_from_hex (s : string) : list Z :=
  match s with
  | String a (String b rest) =>
      match hex_digit a, hex_digit b with
      | Some x, Some y => (16 * x + y) :: Buffer_from_hex rest
      | _, _ => []
      end
  | _ => []
  end.

(** [buf.readUInt8(offset)] and [buf.readUInt16LE(offset)]: a read outside
    the buffer throws. *)
Definition readUInt8 (buf : list Z) (offset : nat) : M Z :=
  match nth_error buf offset with
  | Some b => ret b
  | None => throw (OutOfRange offset)
  end.

Definition readUInt16LE (buf : list Z) (offset : nat) : M Z :=
  match nth_error buf offset, nth_error buf (S offset) with
  | Some lo, Some hi => ret (lo + 256 * hi)
  | _, _ => throw (OutOfRange offset)
  end.

(** The context handed to an encode converter: the device the entity
    belongs to and the last known state. *)
Record Meta : Type := mkMeta {
  meta_device : string;
  meta_state : KeyValue
}.

(** [meta.device.getEndpoint(n)]. *)
Definition getEndpoint (meta : Meta) (n : Z) : Entity :=
  Endpoint (meta_device meta) n.

(** ** [src/devices/bosch.ts]: lookup tables *)

Definition sirenVolume : Lookup :=
  [("low", 0x01); ("medium", 0x02); ("high", 0x03)].

Definition sirenLight : Lookup :=
  [("only_light", 0x00); ("only_siren", 0x01); ("siren_and_light", 0x02)].

Definition outdoorSirenState : Lookup :=
  [("ON", 0x07); ("OFF", 0x00)].

Definition sirenPowerSupply : Lookup :=
  [("solar_panel", 0x01); ("ac_power_supply", 0x02); ("dc_power_supply", 0x03)].

Definition buttonMap : Lookup :=
  [("config_led_top_left_press", 0x10);
   ("config_led_top_right_press", 0x11);
   ("config_led_bottom_left_press", 0x12);
   ("config_led_bottom_right_press", 0x13);
   ("config_led_top_left_longpress", 0x20);
   ("config_led_top_right_longpress", 0x21);
   ("config_led_bottom_left_longpress", 0x22);
   ("config_led_bottom_right_longpress", 0x23)].

(** ** [tzLocal.rbshoszbeu]: the outdoor-siren encode converter *)

Module rbshoszbeu.

Definition key : list string :=
  ["light_delay"; "siren_delay"; "light_duration"; "siren_duration";
   "siren_volume"; "alarm_state"; "power_source"; "siren_and_light"].

Definition convertSet (entity : Entity) (key : string) (v : value) (meta : Meta)
  : M (option KeyValue) :=
  if String.eqb key "light_delay" then
    let index := v in
    await (Write entity (KId 0x0502) [(KId 0xa004, Typed index 0x21)] manufacturerOptions);;;
    ret (Some [("light_delay", v)])
  else if String.eqb key "siren_delay" then
    let index := v in
    await (Write entity (KId 0x0502) [(KId 0xa003, Typed index 0x21)] manufacturerOptions);;;
    ret (Some [("siren_delay", v)])
  else if String.eqb key "light_duration" then
    let index := v in
    await (Write entity (KId 0x0502) [(KId 0xa005, Typed index 0x20)] manufacturerOptions);;;
    ret (Some [("light_duration", v)])
  else if String.eqb key "siren_duration" then
    let index := v in
    await (Write entity (KId 0x0502) [(KId 0xa000, Typed index 0x20)] manufacturerOptions);;;
    ret (Some [("siren_duration", v)])
  else if String.eqb key "siren_and_light" then
    index <- getFromLookup v sirenLight;;
    await (Write entity (KId 0x0502) [(KId 0xa001, Typed (VNum index) 0x20)] manufacturerOptions);;;
    ret (Some [("siren_and_light", v)])
  else if String.eqb key "siren_volume" then
    index <- getFromLookup v sirenVolume;;
    await (Write entity (KId 0x0502) [(KId 0xa002, Typed (VNum index) 0x20)] manufacturerOptions);;;
    ret (Some [("siren_volume", v)])
  else if String.eqb key "power_source" then
    index <- getFromLookup v sirenPowerSupply;;
    await (Write entity (KId 0x0001) [(KId 0xa002, Typed (VNum index) 0x20)] manufacturerOptions);;;
    ret (Some [("power_source", v)])
  else if String.eqb key "alarm_state" then
    let endpoint := getEndpoint meta 1 in
    index <- getFromLookup v outdoorSirenState;;
    if index =? 0 then
      await (Command endpoint (KId 0x0502) (KId 0xf0) [("data", VNum 0)] manufacturerOptions);;;
      ret (Some [("alarm_state", v)])
    else
      await (Command endpoint (KId 0x0502) (KId 0xf0) [("data", VNum 7)] manufacturerOptions);;;
      ret (Some [("alarm_state", v)])
  else ret None.

Definition convertGet (entity : Entity) (key : string) (meta : Meta) : M unit :=
  if String.eqb key "light_delay" then
    await (Read entity (KId 0x0502) [KId 0xa004] manufacturerOptions)
  else if String.eqb key "siren_delay" then
    await (Read entity (KId 0x0502) [KId 0xa003] manufacturerOptions)
  else if String.eqb key "light_duration" then
    await (Read entity (KId 0x0502) [KId 0xa005] manufacturerOptions)
  else if String.eqb key "siren_duration" then
    await (Read entity (KId 0x0502) [KId 0xa000] manufacturerOptions)
  else if String.eqb key "siren_and_light" then
    await (Read entity (KId 0x0502) [KId 0xa001] manufacturerOptions)
  else if String.eqb key "siren_volume" then
    await (Read entity (KId 0x0502) [KId 0xa002] manufacturerOptions)
  else if String.eqb key "alarm_state" then
    await (Read entity (KId 0x0502) [KId 0xf0] manufacturerOptions)
  else
    throw (Thrown ("Unhandled key toZigbee.rbshoszbeu.convertGet " +:+ key)).

End rbshoszbeu.

(** ** [tzLocal.bhius_config]: LED configuration of the Universal Switch II *)

Module bhius_config.

Definition key : list string := Object_keys buttonMap.

Definition convertGet (entity : Entity) (key : string) (meta : Meta) : M unit :=
  match assoc key buttonMap with
  | None => throw (Thrown ("Unknown key " +:+ key))
  | Some id => await (Read entity (KName "boschSpecific") [KId id] manufacturerOptions)
  end.

Definition convertSet (entity : Entity) (key : string) (v : value) (meta : Meta)
  : M (option KeyValue) :=
  match assoc key buttonMap with
  | None => ret None
  | Some id =>
      buffer <- match v with
                | VStr s => ret (Buffer_from_hex s)
                | VBuffer b => ret b
                | _ => throw TypeError
                end;;
      if negb (Nat.eqb (length buffer) 9) then
        throw (Thrown ("Invalid configuration length: " +:+ pretty (length buffer)
                       +:+ " (should be 9)"))
      else
        await (Write entity (KName "boschSpecific") [(KId id, Typed (VBuffer buffer) 65)]
                 manufacturerOptions);;;
        ret (Some [(key, v)])
  end.

End bhius_config.

(** ** The stores behind the button-press decoder *)

(** Modelled from the spec: [utils.hasAlreadyProcessedMessage] lives in
    [lib/utils], which is not part of the sources at hand.  The spec (4.1)
    describes an "already processed" check keyed by the sequence number
    carried in the payload, per endpoint: the check answers whether the
    number has been processed for that endpoint and records it otherwise. *)
Definition hasAlreadyProcessedMessage (endpoint : string * Z) (sequenceNumber : Z) : M bool :=
  fun w =>
    let seen := default [] (processed w !! endpoint) in
    if bool_decide (sequenceNumber ∈ seen) then (Ok true, w)
    else (Ok false, with_processed w (<[endpoint := sequenceNumber :: seen]> (processed w))).

(** Modelled from the spec: [globalStore] lives in [lib/store], which is
    not part of the sources at hand.  The spec (3) describes the pending
    long-press registry as a per-endpoint, per-button mapping from button
    identity to the in-progress duration; clearing an absent entry is a
    no-op, not an error (8). *)
Module globalStore.

Definition hasValue (endpoint : string * Z) (key : string) : M bool :=
  fun w => (Ok (bool_decide (is_Some (store w !! (endpoint, key)))), w).

Definition putValue (endpoint : string * Z) (key : string) (v : Z) : M unit :=
  fun w => (Ok tt, with_store w (<[(endpoint, key) := v]> (store w))).

Definition clearValue (endpoint : string * Z) (key : string) : M unit :=
  fun w => (Ok tt, with_store w (delete (endpoint, key) (store w))).

End globalStore.

(** [buf.toString('hex')]. *)
Definition hex_char (n : Z) : string :=
  match n with
  | 0 => "0" | 1 => "1" | 2 => "2" | 3 => "3" | 4 => "4" | 5 => "5" | 6 => "6" | 7 => "7"
  | 8 => "8" | 9 => "9" | 10 => "a" | 11 => "b" | 12 => "c" | 13 => "d" | 14 => "e"
  | _ => "f"
  end.

Fixpoint toString_hex (buf : list Z) : string :=
  match buf with
  | [] => ""
  | b :: rest => hex_char (b / 16) +:+ hex_char (b mod 16) +:+ toString_hex rest
  end.

(** ** [fzLocal.bhius_button_press]: the Universal Switch II decoder *)

(** A raw inbound message: the endpoint it arrived on and the frame. *)
Record RawMessage : Type := mkRaw {
  raw_device : string;
  raw_endpoint : Z;
  raw_data : list Z
}.

(** The user options the decoder reads ([led_response] is a text option). *)
Record ConverterOptions : Type := mkConverterOptions {
  led_response : option string
}.

Module bhius_button_press.

Definition cluster : string := "boschSpecific".
Definition type : list string := ["raw"].

Definition default_led_response : list Z := Buffer_from_hex "30ff00000102010001".

Definition buttons : list (Z * string) :=
  [(0, "top_left"); (1, "top_right"); (2, "bottom_left"); (3, "bottom_right")].

Fixpoint button_name (bs : list (Z * string)) (buttonId : Z) : option string :=
  match bs with
  | [] => None
  | (i, name) :: bs' => if i =? buttonId then Some name else button_name bs' buttonId
  end.

(** The confirmation buffer computed from the options, with the error that
    is logged for a configured value of the wrong length. *)
Definition confirmation_buffer (options : ConverterOptions) : M (list Z) :=
  match led_response options with
  | Some s =>
      let buffer := Buffer_from_hex s in
      if negb (Nat.eqb (length buffer) 9) then
        logger_error ("Invalid length of led_response: " +:+ pretty (length buffer)
                      +:+ " (should be 9)") NS;;;
        ret default_led_response
      else ret buffer
  | None => ret default_led_response
  end.

Definition convert (msg : RawMessage) (options : ConverterOptions) : M (option KeyValue) :=
  let endpoint := (raw_device msg, raw_endpoint msg) in
  sequenceNumber <- readUInt8 (raw_data msg) 3;;
  buttonId <- readUInt8 (raw_data msg) 4;;
  longPress <- readUInt8 (raw_data msg) 5;;
  duration <- readUInt16LE (raw_data msg) 6;;
  buffer <- confirmation_buffer options;;
  dup <- hasAlreadyProcessedMessage endpoint sequenceNumber;;
  if dup then ret None
  else
    match button_name buttons buttonId with
    | Some name =>
        if negb (longPress =? 0) && (0 <? duration) then
          pending <- globalStore.hasValue endpoint name;;
          if pending then ret None
          else
            globalStore.putValue endpoint name duration;;;
            ret (Some [("action", VStr ("button_" +:+ name +:+ "_" +:+ "longpress"))])
        else
          globalStore.clearValue endpoint name;;;
          let command := if negb (longPress =? 0) then "longpress_release" else "release" in
          fire_and_forget (Command (Endpoint (raw_device msg) (raw_endpoint msg))
                             (KName "boschSpecific") (KName "confirmButtonPressed")
                             [("data", VBuffer buffer)]
                             (mkOptions None (Some "immediate") None));;;
          ret (Some [("action", VStr ("button_" +:+ name +:+ "_" +:+ command))])
    | None =>
        logger_error ("Received message with unknown command ID " +:+ pretty buttonId
                      +:+ ". Data: 0x" +:+ toString_hex (raw_data msg)) NS;;;
        ret None
    end.

End bhius_button_press.

(** ** Inbound messages of the attribute-level decoders *)

(** An attribute report, read response or cluster command: the payload maps
    attribute (or parameter) names to the numeric wire value. *)
Record Message : Type := mkMessage {
  msg_device : string;
  msg_endpoint : Z;
  msg_cluster : string;
  msg_type : string;
  msg_data : list (string * Z)
}.

(** A read request received from the device: the payload is the list of
    requested attribute names. *)
Record ReadRequest : Type := mkReadRequest {
  rq_device : string;
  rq_endpoint : Z;
  rq_cluster : string;
  rq_attributes : list string;
  rq_zclTransactionSequenceNumber : Z
}.

(** [result[k] = v] on an object. *)
Fixpoint assign (o : KeyValue) (k : string) (v : value) : KeyValue :=
  match o with
  | [] => [(k, v)]
  | (k', v') :: o' =>
      if String.eqb k k' then (k', v) :: o' else (k', v') :: assign o' k v
  end.

(** [n === t.k] for a number and the code of symbol [k] in table [t]. *)
Definition is_code (n : Z) (t : Lookup) (k : string) : bool :=
  match assoc k t with
  | Some c => n =? c
  | None => false
  end.

(** [utils.toNumber] on a numeric payload is that number. *)
Definition toNumber (n : Z) : Z := n.

(** [utils.isInRange(min, max, n / d)] for a positive divisor [d]. *)
Definition isInRange_quot (min max : Z) (n d : Z) : bool :=
  (min * d <=? n) && (n <=? max * d).

(** ** [src/lib/bosch.ts]: [boschModernExtend.valveAdaptProcess] *)

Module valveAdaptProcess.

Definition adaptationStatus : Lookup :=
  [("none", 0x00); ("ready_to_calibrate", 0x01); ("calibration_in_progress", 0x02);
   ("error", 0x03); ("success", 0x04)].

Definition fromZigbee_convert (msg : Message) : KeyValue :=
  let result : KeyValue := [] in
  match assoc "valveAdaptStatus" (msg_data msg) with
  | Some status =>
      if is_code status adaptationStatus "calibration_in_progress"
      then assign result "valve_adapt_process" (VBool true)
      else assign result "valve_adapt_process" (VBool false)
  | None => result
  end.

Definition key : list string := ["valve_adapt_process"].

Definition convertSet (entity : Entity) (key : string) (v : value) (meta : Meta)
  : M (option KeyValue) :=
  (if loose_eq_true v then
     adaptStatus <- getFromLookup (prop (meta_state meta) "valve_adapt_status") adaptationStatus;;
     if is_code adaptStatus adaptationStatus "ready_to_calibrate"
        || is_code adaptStatus adaptationStatus "error"
     then await (Command entity (KName "hvacThermostat") (KName "calibrateValve") [] manufacturerOpts)
     else throw (Thrown "Valve adaptation process not possible right now.")
   else ret tt);;;
  ret (Some [("valve_adapt_process", v)]).

Definition convertGet (entity : Entity) (key : string) (meta : Meta) : M unit :=
  await (Read entity (KName "hvacThermostat") [KName "valveAdaptStatus"] manufacturerOpts).

End valveAdaptProcess.

(** ** [boschModernExtend.ignoreDst] *)

Module ignoreDst.

(** [Zcl.Status.SUCCESS], a constant of the ZCL library. *)
Definition Zcl_Status_SUCCESS : Z := 0.

(** [msg.data.includes('dstStart', 'dstEnd', 'dstShift')]: the second
    argument of [includes] is the start index, which a string turns into 0,
    and the third is ignored; the test is membership of ['dstStart']. *)
Definition convert (msg : ReadRequest) : M unit :=
  if existsb (String.eqb "dstStart") (rq_attributes msg) then
    let response :=
      [("dstStart", mkRecord 0x0003 Zcl_Status_SUCCESS 0x00);
       ("dstEnd", mkRecord 0x0004 Zcl_Status_SUCCESS 0x00);
       ("dstShift", mkRecord 0x0005 Zcl_Status_SUCCESS 0x00)] in
    await (ReadResponse (Endpoint (rq_device msg) (rq_endpoint msg))
             (KName (rq_cluster msg)) (rq_zclTransactionSequenceNumber msg) response)
  else ret tt.

End ignoreDst.

(** ** [boschModernExtend.smokeAlarm] and [boschModernExtend.broadcastAlarm] *)

Module smokeAlarm.

Definition smokeAlarm : Lookup := [("OFF", 0x0000); ("ON", 0x3c00)].
Definition burglarAlarm : Lookup := [("OFF", 0x0001); ("ON", 0xb401)].

Definition key : list string := ["alarm_smoke"; "alarm_burglar"].

Definition convertSet (entity : Entity) (key : string) (v : value) (meta : Meta)
  : M (option KeyValue) :=
  if String.eqb key "alarm_smoke" then
    index <- getFromLookup v smokeAlarm;;
    await (Command entity (KName "ssIasZone") (KName "boschSmokeAlarmSiren")
             [("data", VNum index)] manufacturerOpts);;;
    ret (Some [("alarm_smoke", v)])
  else if String.eqb key "alarm_burglar" then
    index <- getFromLookup v burglarAlarm;;
    await (Command entity (KName "ssIasZone") (KName "boschSmokeAlarmSiren")
             [("data", VNum index)] manufacturerOpts);;;
    ret (Some [("alarm_burglar", v)])
  else ret None.

Definition convertGet (entity : Entity) (key : string) (meta : Meta) : M unit :=
  if String.eqb key "alarm_smoke" || String.eqb key "alarm_burglar"
     || String.eqb key "zone_status"
  then await (Read entity (KName "ssIasZone") [KName "zoneStatus"] noOptions)
  else throw (Thrown ("Unhandled key boschExtend.smokeAlarm.toZigbee.convertGet " +:+ key)).

End smokeAlarm.

Module broadcastAlarm.

Definition sirenState : Lookup :=
  [("smoke_off", 0x0000); ("smoke_on", 0x3c00); ("burglar_off", 0x0001); ("burglar_on", 0xb401)].

Definition key : list string := ["broadcast_alarm"].

(** [ZSpec.BroadcastAddress.SLEEPY] and [Zcl.Clusters.ssIasZone.ID] are
    constants of the ZCL library; they are kept by name. *)
Definition convertSet (entity : Entity) (key : string) (v : value) (meta : Meta)
  : M (option KeyValue) :=
  if String.eqb key "broadcast_alarm" then
    index <- getFromLookup v sirenState;;
    assertEndpoint entity;;;
    await (ZclCommandBroadcast entity 255 "SLEEPY" (KName "ssIasZone")
             (KName "boschSmokeAlarmSiren") [("data", VNum index)] manufacturerOpts);;;
    ret None
  else ret None.

End broadcastAlarm.

(** ** [boschModernExtend.twinguard] *)

(** [lookup[code]] for an object keyed by numbers. *)
Fixpoint lookup_num (t : list (Z * string)) (code : Z) : value :=
  match t with
  | [] => VUndefined
  | (c, s) :: t' => if c =? code then VStr s else lookup_num t' code
  end.

Module twinguard.

Definition smokeSensitivity : Lookup :=
  [("low", 0x03); ("medium", 0x02); ("high", 0x01)].

Definition sirenState : Lookup :=
  [("stop", 0x00); ("pre_alarm", 0x01); ("fire", 0x02); ("burglar", 0x03)].

Definition stateOffOn : Lookup :=
  [("OFF", 0x00); ("ON", 0x01)].

(** fromZigbee, cluster [twinguardSmokeDetector]. *)
Definition smokeDetector_convert (msg : Message) : KeyValue :=
  let result : KeyValue := [] in
  match assoc "sensitivity" (msg_data msg) with
  | Some code => assign result "sensitivity" (index_keys (Object_keys smokeSensitivity) code)
  | None => result
  end.

(** The factors chosen for an air-purity reading. *)
Definition factors (iaq : Z) : Z * Z :=
  let factorVoc := 6 in
  let factorCo2 := 2 in
  if (51 <=? iaq) && (iaq <=? 100) then (10, 4)
  else if (101 <=? iaq) && (iaq <=? 150) then (20, 4)
  else if (151 <=? iaq) && (iaq <=? 200) then (50, 4)
  else if (201 <=? iaq) && (iaq <=? 250) then (100, 4)
  else if 251 <=? iaq then (100, 4)
  else (factorVoc, factorCo2).

(** fromZigbee, cluster [twinguardMeasurements].  [precisionRound(x / 2, 2)]
    of an integer [x] is [x / 2]. *)
Definition measurements_convert (msg : Message) : KeyValue :=
  let data := msg_data msg in
  let result : KeyValue := [] in
  let result :=
    match assoc "humidity" data with
    | Some h =>
        let h := toNumber h in
        if isInRange_quot 0 100 h 100 then assign result "humidity" (VQuot h 100) else result
    | None => result
    end in
  let result :=
    match assoc "airpurity" data with
    | Some a =>
        let iaq := toNumber a in
        let result := assign result "aqi" (VNum iaq) in
        let '(factorVoc, factorCo2) := factors iaq in
        let result := assign result "voc" (VNum (iaq * factorVoc)) in
        assign result "co2" (VNum ((iaq * factorCo2) + 400))
    | None => result
    end in
  let result :=
    match assoc "temperature" data with
    | Some t => assign result "temperature" (VQuot (toNumber t) 100)
    | None => result
    end in
  let result :=
    match assoc "illuminance_lux" data with
    | Some l => assign result "illuminance_lux" (VQuot l 2)
    | None => result
    end in
  match assoc "battery" data with
  | Some b => assign result "battery" (VQuot b 2)
  | None => result
  end.

(** fromZigbee, cluster [twinguardOptions]. *)
Definition options_convert (msg : Message) : KeyValue :=
  let result : KeyValue := [] in
  match assoc "pre_alarm" (msg_data msg) with
  | Some code => assign result "pre_alarm" (index_keys (Object_keys stateOffOn) code)
  | None => result
  end.

(** fromZigbee, cluster [twinguardSetup]. *)
Definition setup_convert (msg : Message) : KeyValue :=
  let result : KeyValue := [] in
  match assoc "heartbeat" (msg_data msg) with
  | Some code => assign result "heartbeat" (index_keys (Object_keys stateOffOn) code)
  | None => result
  end.

(** fromZigbee, cluster [twinguardAlarm]. *)
Definition alarm_convert (msg : Message) : KeyValue :=
  let result : KeyValue := [] in
  let lookup : list (Z * string) :=
    [(0x00200020, "clear"); (0x01200020, "self_test"); (0x02200020, "burglar");
     (0x00200082, "pre_alarm"); (0x00200081, "fire"); (0x00200040, "silenced")] in
  match assoc "alarm_status" (msg_data msg) with
  | Some status =>
      let result := assign result "self_test" (VBool (0 <? Z.land status (Z.shiftl 1 24))) in
      let result := assign result "smoke" (VBool (0 <? Z.land status (Z.shiftl 1 7))) in
      assign result "siren_state" (lookup_num lookup status)
  | None => result
  end.

(** fromZigbee, cluster [genAlarms]: the alarm acknowledgment is awaited. *)
Definition genAlarms_convert (msg : Message) : M KeyValue :=
  let result : KeyValue := [] in
  let lookup : list (Z * string) :=
    [(0x10, "fire"); (0x11, "pre_alarm"); (0x14, "clear"); (0x16, "silenced")] in
  let alarmcode := assoc "alarmcode" (msg_data msg) in
  let result :=
    assign result "siren_state"
      (match alarmcode with Some c => lookup_num lookup c | None => VUndefined end) in
  match alarmcode with
  | Some c =>
      if (c =? 0x10) || (c =? 0x11) then
        await (CommandResponse (Endpoint (msg_device msg) (msg_endpoint msg))
                 (KName "genAlarms") (KName "alarm")
                 [("alarmcode", VNum c); ("clusterid", VNum 0xe000)]
                 (mkOptions None None (Some 1)));;;
        ret result
      else ret result
  | None => ret result
  end.

Definition key : list string :=
  ["sensitivity"; "pre_alarm"; "self_test"; "alarm"; "heartbeat"].

Definition alarm_response (entity : Entity) (code : Z) : Op :=
  CommandResponse entity (KName "genAlarms") (KName "alarm")
    [("alarmcode", VNum code); ("clusterid", VNum 0xe000)] (mkOptions None None (Some 1)).

Definition convertSet (entity : Entity) (key : string) (v : value) (meta : Meta)
  : M (option KeyValue) :=
  if String.eqb key "sensitivity" then
    index <- getFromLookup v smokeSensitivity;;
    await (Write entity (KName "twinguardSmokeDetector")
             [(KName "sensitivity", Plain (VNum index))] noOptions);;;
    ret (Some [("sensitivity", v)])
  else if String.eqb key "pre_alarm" then
    index <- getFromLookup v stateOffOn;;
    await (Write entity (KName "twinguardOptions")
             [(KName "pre_alarm", Plain (VNum index))] noOptions);;;
    ret (Some [("pre_alarm", v)])
  else if String.eqb key "heartbeat" then
    let endpoint := getEndpoint meta 12 in
    index <- getFromLookup v stateOffOn;;
    await (Write endpoint (KName "twinguardSetup")
             [(KName "heartbeat", Plain (VNum index))] noOptions);;;
    ret (Some [("heartbeat", v)])
  else
    (if String.eqb key "self_test" then
       if truthy v then
         await (Command entity (KName "twinguardSmokeDetector") (KName "initiateTestMode")
                  [] noOptions)
       else ret tt
     else ret tt);;;
    if String.eqb key "alarm" then
      let endpoint := getEndpoint meta 12 in
      index <- getFromLookup v sirenState;;
      assertEndpoint entity;;;
      if index =? 0x00 then
        await (alarm_response entity 0x16);;;
        await (alarm_response entity 0x14);;;
        await (Command endpoint (KName "twinguardAlarm") (KName "burglarAlarm")
                 [("data", VNum 0x00)] noOptions);;;
        ret None
      else if index =? 0x01 then
        await (alarm_response entity 0x11);;;
        ret (Some [("siren_state", VStr "pre_alarm")])
      else if index =? 0x02 then
        await (alarm_response entity 0x10);;;
        ret (Some [("siren_state", VStr "fire")])
      else if index =? 0x03 then
        await (Command endpoint (KName "twinguardAlarm") (KName "burglarAlarm")
                 [("data", VNum 0x01)] noOptions);;;
        ret None
      else ret None
    else ret None.

Definition convertGet (entity : Entity) (key : string) (meta : Meta) : M unit :=
  if String.eqb key "sensitivity" then
    await (Read entity (KName "twinguardSmokeDetector") [KName "sensitivity"] noOptions)
  else if String.eqb key "pre_alarm" then
    await (Read entity (KName "twinguardOptions") [KName "pre_alarm"] noOptions)
  else if String.eqb key "heartbeat" then
    await (Read (getEndpoint meta 12) (KName "twinguardSetup") [KName "heartbeat"] noOptions)
  else if String.eqb key "alarm" || String.eqb key "self_test" then
    await (Read (getEndpoint meta 12) (KName "twinguardAlarm") [KName "alarm_status"] noOptions)
  else
    throw (Thrown ("Unhandled key boschExtend.twinguard.toZigbee.convertGet " +:+ key)).

End twinguard.

(** ** [boschModernExtend.bmct] *)

Module bmct.

Definition stateDeviceMode : Lookup :=
  [("light", 0x04); ("shutter", 0x01); ("disabled", 0x00)].

Definition stateMotor : Lookup :=
  [("stopped", 0x00); ("opening", 0x01); ("closing", 0x02)].

Definition stateSwitchType : Lookup :=
  [("button", 0x01); ("button_key_change", 0x02); ("rocker_switch", 0x03);
   ("rocker_switch_key_change", 0x04)].

Definition stateOffOn : Lookup :=
  [("OFF", 0x00); ("ON", 0x01)].

(** [if (deviceMode !== meta.device.meta.deviceMode) { ... }]: remember the
    reported mode on the device and raise the exposes-changed signal. *)
Definition remember_deviceMode (device : string) (mode : Z) : M unit :=
  fun w =>
    if bool_decide (deviceMode w !! device = Some mode) then (Ok tt, w)
    else (Ok tt, mkWorld (accepts w) (trace w) (log w) (store w) (processed w)
                   (<[device := mode]> (deviceMode w)) (S (exposesChanged w))).

Section Imported.

(** [utils.postfixWithEndpointName], [tz.cover_state.convertSet] and
    [tz.on_off.convertSet] are imported from modules outside the two
    source files; they are parameters here. *)
Variable postfixWithEndpointName : string -> Message -> string.
Variable cover_state_convertSet : Entity -> string -> value -> Meta -> M unit.
Variable on_off_convertSet : Entity -> string -> value -> Meta -> M unit.

Definition fromZigbee_convert (msg : Message) : M KeyValue :=
  let result : KeyValue := [] in
  let data := msg_data msg in
  result <- match assoc "deviceMode" data with
            | Some mode =>
                let result := assign result "device_mode" (find_key stateDeviceMode mode) in
                remember_deviceMode (msg_device msg) mode;;;
                ret result
            | None => ret result
            end;;
  let result :=
    match assoc "switchType" data with
    | Some t => assign result "switch_type" (find_key stateSwitchType t)
    | None => result
    end in
  let result :=
    match assoc "calibrationOpeningTime" data with
    | Some t => assign result "calibration_opening_time" (VQuot t 10)
    | None => result
    end in
  let result :=
    match assoc "calibrationClosingTime" data with
    | Some t => assign result "calibration_closing_time" (VQuot t 10)
    | None => result
    end in
  let result :=
    match assoc "calibrationButtonHoldTime" data with
    | Some t => assign result "calibration_button_hold_time" (VQuot t 10)
    | None => result
    end in
  let result :=
    match assoc "calibrationMotorStartDelay" data with
    | Some t => assign result "calibration_motor_start_delay" (VQuot t 10)
    | None => result
    end in
  let result :=
    match assoc "childLock" data with
    | Some l =>
        let property := postfixWithEndpointName "child_lock" msg in
        assign result property (VStr (if l =? 1 then "ON" else "OFF"))
    | None => result
    end in
  let result :=
    match assoc "motorState" data with
    | Some s => assign result "motor_state" (find_key stateMotor s)
    | None => result
    end in
  ret result.

Definition key : list string :=
  ["device_mode"; "switch_type"; "child_lock"; "state"; "on_time"; "off_wait_time"].

(** ['ID' in entity && entity.ID === 1] and ['ID' in entity && entity.ID !== 1]. *)
Definition has_ID_1 (entity : Entity) : bool :=
  match entity with Endpoint _ i => i =? 1 | Group _ => false end.

Definition has_ID_not_1 (entity : Entity) : bool :=
  match entity with Endpoint _ i => negb (i =? 1) | Group _ => false end.

Definition convertSet (entity : Entity) (key : string) (v : value) (meta : Meta)
  : M (option KeyValue) :=
  (if String.eqb key "state" then
     if has_ID_1 entity then cover_state_convertSet entity key v meta
     else on_off_convertSet entity key v meta
   else ret tt);;;
  (if String.eqb key "on_time" || String.eqb key "on_wait_time" then
     if has_ID_not_1 entity then on_off_convertSet entity key v meta else ret tt
   else ret tt);;;
  if String.eqb key "device_mode" then
    index <- getFromLookup v stateDeviceMode;;
    await (Write entity (KName "boschSpecific")
             [(KName "deviceMode", Plain (VNum index))] noOptions);;;
    await (Read entity (KName "boschSpecific") [KName "deviceMode"] noOptions);;;
    ret (Some [("device_mode", v)])
  else if String.eqb key "switch_type" then
    index <- getFromLookup v stateSwitchType;;
    await (Write entity (KName "boschSpecific")
             [(KName "switchType", Plain (VNum index))] noOptions);;;
    ret (Some [("switch_type", v)])
  else if String.eqb key "child_lock" then
    index <- getFromLookup v stateOffOn;;
    await (Write entity (KName "boschSpecific")
             [(KName "childLock", Plain (VNum index))] noOptions);;;
    ret (Some [("child_lock", v)])
  else ret None.

Definition convertGet (entity : Entity) (key : string) (meta : Meta) : M unit :=
  if String.eqb key "state" || String.eqb key "on_time" || String.eqb key "off_wait_time" then
    if has_ID_not_1 entity
    then await (Read entity (KName "genOnOff") [KName "onOff"] noOptions)
    else ret tt
  else if String.eqb key "device_mode" then
    await (Read entity (KName "boschSpecific") [KName "deviceMode"] noOptions)
  else if String.eqb key "switch_type" then
    await (Read entity (KName "boschSpecific") [KName "switchType"] noOptions)
  else if String.eqb key "child_lock" then
    await (Read entity (KName "boschSpecific") [KName "childLock"] noOptions)
  else
    throw (Thrown ("Unhandled key boschExtend.bmct.toZigbee.convertGet " +:+ key)).

End Imported.

End bmct.

(** ** Exposed-property descriptors *)

(** [exposes.access]: the access flags are kept by name. *)
Inductive Access : Type := STATE | SET | STATE_GET | ALL.

#[export] Instance Access_eq_dec : EqDecision Access.
Proof. solve_decision. Defined.

(** The descriptor builders of [lib/exposes] used by the BMCT-SLZ profile.
    The presets [switch], [power_on_behavior], [cover_position] and
    [linkquality] are defined outside the two source files and are kept as
    atoms. *)
Inductive ExposeBase : Type :=
| e_enum (name : string) (access : Access) (values : list string)
| e_binary (name : string) (access : Access) (value_on value_off : value)
| e_numeric (name : string) (access : Access)
| e_switch
| e_power_on_behavior
| e_cover_position
| e_linkquality.

#[export] Instance ExposeBase_eq_dec : EqDecision ExposeBase.
Proof. solve_decision. Defined.

(** A decimal literal [num / den] of a bound or step. *)
Definition Decimal : Type := (Z * Z)%type.

Record Expose : Type := mkExpose {
  base : ExposeBase;
  endpoint : option string;
  description : option string;
  unit_ : option string;
  value_min : option Decimal;
  value_max : option Decimal;
  value_step : option Decimal
}.

#[export] Instance Expose_eq_dec : EqDecision Expose.
Proof. solve_decision. Defined.

Definition e (b : ExposeBase) : Expose := mkExpose b None None None None None None.

Definition withEndpoint (ep : string) (x : Expose) : Expose :=
  mkExpose (base x) (Some ep) (description x) (unit_ x) (value_min x) (value_max x) (value_step x).
Definition withDescription (d : string) (x : Expose) : Expose :=
  mkExpose (base x) (endpoint x) (Some d) (unit_ x) (value_min x) (value_max x) (value_step x).
Definition withUnit (u : string) (x : Expose) : Expose :=
  mkExpose (base x) (endpoint x) (description x) (Some u) (value_min x) (value_max x) (value_step x).
Definition withValueMin (d : Decimal) (x : Expose) : Expose :=
  mkExpose (base x) (endpoint x) (description x) (unit_ x) (Some d) (value_max x) (value_step x).
Definition withValueMax (d : Decimal) (x : Expose) : Expose :=
  mkExpose (base x) (endpoint x) (description x) (unit_ x) (value_min x) (Some d) (value_step x).
Definition withValueStep (d : Decimal) (x : Expose) : Expose :=
  mkExpose (base x) (endpoint x) (description x) (unit_ x) (value_min x) (value_max x) (Some d).

Notation "x |> f" := (f x) (at level 45, left associativity, only parsing).

(** The name under which a descriptor is exposed, and the endpoint it is
    bound to. *)
Definition base_name (b : ExposeBase) : string :=
  match b with
  | e_enum n _ _ => n
  | e_binary n _ _ _ => n
  | e_numeric n _ => n
  | e_switch => "switch"
  | e_power_on_behavior => "power_on_behavior"
  | e_cover_position => "cover_position"
  | e_linkquality => "linkquality"
  end.

Definition expose_id (x : Expose) : string * option string :=
  (base_name (base x), endpoint x).

(** ** The BMCT-SLZ profile: [exposes] *)

(** What [exposes] reads from the device: the stored value of attribute
    [deviceMode] of cluster [boschSpecific] on endpoint 1. *)
Record Device : Type := mkDevice {
  stored_deviceMode : option Z
}.

Module BMCT_SLZ.

Definition stateDeviceMode : Lookup :=
  [("light", 0x04); ("shutter", 0x01); ("disabled", 0x00)].

Definition stateMotor : Lookup :=
  [("stopped", 0x00); ("opening", 0x01); ("closing", 0x02)].

Definition stateSwitchType : Lookup :=
  [("button", 0x01); ("button_key_change", 0x02); ("rocker_switch", 0x03);
   ("rocker_switch_key_change", 0x04)].

Definition commonExposes : list Expose :=
  [ e (e_enum "switch_type" ALL (Object_keys stateSwitchType))
      |> withDescription "Module controlled by a rocker switch or a button";
    e e_linkquality ].

Definition lightExposes : list Expose :=
  [ e e_switch |> withEndpoint "left";
    e e_switch |> withEndpoint "right";
    e e_power_on_behavior |> withEndpoint "left";
    e e_power_on_behavior |> withEndpoint "right";
    e (e_binary "child_lock" ALL (VStr "ON") (VStr "OFF")) |> withEndpoint "left"
      |> withDescription "Enable/Disable child lock";
    e (e_binary "child_lock" ALL (VStr "ON") (VStr "OFF")) |> withEndpoint "right"
      |> withDescription "Enable/Disable child lock" ].

Definition coverExposes : list Expose :=
  [ e e_cover_position;
    e (e_enum "motor_state" STATE (Object_keys stateMotor))
      |> withDescription "Current shutter motor state";
    e (e_binary "child_lock" ALL (VStr "ON") (VStr "OFF"))
      |> withDescription "Enable/Disable child lock";
    e (e_numeric "calibration_closing_time" ALL) |> withUnit "s"
      |> withDescription "Calibrate shutter closing time"
      |> withValueMin (1, 1) |> withValueMax (90, 1) |> withValueStep (1, 10);
    e (e_numeric "calibration_opening_time" ALL) |> withUnit "s"
      |> withDescription "Calibrate shutter opening time"
      |> withValueMin (1, 1) |> withValueMax (90, 1) |> withValueStep (1, 10);
    e (e_numeric "calibration_button_hold_time" ALL) |> withUnit "s"
      |> withDescription "Time to hold for long press"
      |> withValueMin (1, 10) |> withValueMax (2, 1) |> withValueStep (1, 10);
    e (e_numeric "calibration_motor_start_delay" ALL) |> withUnit "s"
      |> withDescription "Delay between command and motor start"
      |> withValueMin (0, 1) |> withValueMax (20, 1) |> withValueStep (1, 10) ].

Definition exposes (device : option Device) : list Expose :=
  let fallback :=
    [ e (e_enum "device_mode" ALL (Object_keys stateDeviceMode))
        |> withDescription "Device mode";
      e e_linkquality ] in
  match device with
  | Some d =>
      let deviceMode :=
        match stored_deviceMode d with
        | Some deviceModeKey => find_key stateDeviceMode deviceModeKey
        | None => VUndefined
        end in
      if bool_decide (deviceMode = VStr "light") then commonExposes ++ lightExposes
      else if bool_decide (deviceMode = VStr "shutter") then commonExposes ++ coverExposes
      else fallback
  | None => fallback
  end.

End BMCT_SLZ.

(** * Further converters and configure sequences *)

(** ** Bitwise operators on numbers *)

(** [ToInt32]: the bitwise operators work on the signed 32-bit value of
    their operands. *)
Definition ToInt32 (z : Z) : Z := (z + 2 ^ 31) mod 2 ^ 32 - 2 ^ 31.

(** [a & b], [a >> n] and [1 << n] for [0 <= n < 32]. *)
Definition js_and (a b : Z) : Z := Z.land (ToInt32 a) (ToInt32 b).
Definition js_shr (a n : Z) : Z := Z.shiftr (ToInt32 a) n.
Definition js_shl (a n : Z) : Z := ToInt32 (Z.shiftl (ToInt32 a) n).

(** [delete o[k]]. *)
Fixpoint delete_key (o : KeyValue) (k : string) : KeyValue :=
  match o with
  | [] => []
  | (k', v) :: o' => if String.eqb k k' then o' else (k', v) :: delete_key o' k
  end.

(** The zone status read by the IAS zone decoders: the notification command
    carries it as [zonestatus], reports and read responses as [zoneStatus];
    a missing field is [undefined], which the bitwise operators read as 0. *)
Definition zoneStatus_of (msg : Message) : Z :=
  let field :=
    if String.eqb (msg_type msg) "commandStatusChangeNotification"
    then assoc "zonestatus" (msg_data msg)
    else assoc "zoneStatus" (msg_data msg) in
  match field with
  | Some z => z
  | None => 0
  end.

(** ** [fzLocal.bhius_config]: decoding the LED configuration *)

(** A report of the Universal Switch II configuration: the payload maps
    attribute identifiers to buffers. *)
Record BufferMessage : Type := mkBufferMessage {
  bm_device : string;
  bm_endpoint : Z;
  bm_data : list (Z * list Z)
}.

Fixpoint data_buffer (id : Z) (data : list (Z * list Z)) : option (list Z) :=
  match data with
  | [] => None
  | (i, buf) :: data' => if i =? id then Some buf else data_buffer id data'
  end.

Module fz_bhius_config.

Definition cluster : string := "boschSpecific".
Definition type : list string := ["attributeReport"; "readResponse"].

(** The property named by [Object.keys(buttonMap).find(...)]; a search
    without result names the property ["undefined"]. *)
Definition property_of (id : Z) : string :=
  match find_key buttonMap id with
  | VStr k => k
  | _ => "undefined"
  end.

Definition convert (msg : BufferMessage) : KeyValue :=
  fold_left
    (fun (result : KeyValue) (id : Z) =>
       match data_buffer id (bm_data msg) with
       | Some buf => assign result (property_of id) (VStr (toString_hex buf))
       | None => result
       end)
    (Object_values buttonMap) [].

End fz_bhius_config.

(** ** [boschModernExtend.doorWindowContact]: fromZigbee *)

Module doorWindowContact.

Definition convert (msg : Message) : option KeyValue :=
  if hasOwnProperty (msg_data msg) "zoneStatus" || hasOwnProperty (msg_data msg) "zonestatus"
  then
    let zoneStatus := zoneStatus_of msg in
    let lookup : list (Z * string) := [(0x00, "none"); (0x01, "single"); (0x02, "long")] in
    let result : KeyValue :=
      [("contact", VBool (negb (0 <? js_and zoneStatus 1)));
       ("vibration", VBool (0 <? js_and zoneStatus (js_shl 1 1)));
       ("tamper", VBool (0 <? js_and zoneStatus (js_shl 1 2)));
       ("battery_low", VBool (0 <? js_and zoneStatus (js_shl 1 3)));
       ("supervision_reports", VBool (0 <? js_and zoneStatus (js_shl 1 4)));
       ("restore_reports", VBool (0 <? js_and zoneStatus (js_shl 1 5)));
       ("trouble", VBool (0 <? js_and zoneStatus (js_shl 1 6)));
       ("ac_status", VBool (0 <? js_and zoneStatus (js_shl 1 7)));
       ("test", VBool (0 <? js_and zoneStatus (js_shl 1 8)));
       ("battery_defect", VBool (0 <? js_and zoneStatus (js_shl 1 9)));
       ("action", lookup_num lookup (js_and (js_shr zoneStatus 11) 3))] in
    if bool_decide (prop result "action" = VStr "none")
    then Some (delete_key result "action")
    else Some result
  else None.

End doorWindowContact.

(** ** [boschModernExtend.smokeAlarm]: fromZigbee *)

Module smokeAlarm_fromZigbee.

Definition convert (msg : Message) : option KeyValue :=
  if hasOwnProperty (msg_data msg) "zoneStatus" || hasOwnProperty (msg_data msg) "zonestatus"
  then
    let zoneStatus := zoneStatus_of msg in
    Some [("smoke", VBool (0 <? js_and zoneStatus 1));
          ("alarm_smoke", VBool (0 <? js_and zoneStatus (js_shl 1 1)));
          ("battery_low", VBool (0 <? js_and zoneStatus (js_shl 1 3)));
          ("supervision_reports", VBool (0 <? js_and zoneStatus (js_shl 1 4)));
          ("restore_reports", VBool (0 <? js_and zoneStatus (js_shl 1 5)));
          ("alarm_burglar", VBool (0 <? js_and zoneStatus (js_shl 1 7)));
          ("test", VBool (0 <? js_and zoneStatus (js_shl 1 8)));
          ("alarm_silenced", VBool (0 <? js_and zoneStatus (js_shl 1 11)))]
  else None.

End smokeAlarm_fromZigbee.

(** ** Configure sequences *)

(** [await op.catch((error) => {})]: the operation is handed to the
    transport and the sequence continues whatever its outcome. *)
Definition await_catch (o : Op) : M unit :=
  fun w => (Ok tt, with_trace w (trace w ++ [o])).

Module configure.

(** BWA-1, smart water alarm. *)
Definition BWA_1 (device : string) : M unit :=
  let endpoint := Endpoint device 1 in
  await (Read endpoint (KName "genPowerCfg") [KName "batteryPercentageRemaining"] noOptions);;;
  await (Read endpoint (KName "ssIasZone") [KName "zoneStatus"] noOptions);;;
  await (Read endpoint (KName "boschSpecific") [KName "alarmOnMotion"] manufacturerOptions).

(** BSD-2, smoke alarm II. *)
Definition BSD_2 (device : string) : M unit :=
  let endpoint := Endpoint device 1 in
  await (Read endpoint (KName "genPowerCfg") [KName "batteryPercentageRemaining"] noOptions);;;
  await (Read endpoint (KName "ssIasZone") [KName "zoneStatus"] noOptions);;;
  await (Read endpoint (KName "ssIasZone") [KName "currentZoneSensitivityLevel"] noOptions).

(** BSEN-C2 and BSEN-CV, door/window contacts. *)
Definition BSEN (device : string) : M unit :=
  let endpoint := Endpoint device 1 in
  await (Read endpoint (KName "genPowerCfg") [KName "batteryPercentageRemaining"] noOptions);;;
  await (Read endpoint (KName "ssIasZone") [KName "zoneStatus"] noOptions).

Section Reporting.

(** [reporting.bind], [reporting.batteryPercentageRemaining] and
    [reporting.batteryVoltage] are imported from [lib/reporting], outside
    the two source files; they are parameters here. *)
Variable reporting_bind : Entity -> list string -> M unit.
Variable reporting_batteryPercentageRemaining : Entity -> M unit.
Variable reporting_batteryVoltage : Entity -> M unit.

(** BHI-US, Universal Switch II. *)
Definition BHI_US (device : string) : M unit :=
  let endpoint := Endpoint device 1 in
  let immediate := mkOptions (Some ROBERT_BOSCH_GMBH) (Some "immediate") None in
  await_catch (Read endpoint (KName "boschSpecific")
                 [KId 0x0010; KId 0x0011; KId 0x0012; KId 0x0013] immediate);;;
  await_catch (Read endpoint (KName "boschSpecific")
                 [KId 0x0020; KId 0x0021; KId 0x0022; KId 0x0023] immediate);;;
  await (Read endpoint (KName "boschSpecific") [KId 0x0024] immediate);;;
  await (Command endpoint (KName "boschSpecific") (KName "pairingCompleted")
           [("data", VBuffer [0x00])] (mkOptions None (Some "immediate") None));;;
  reporting_bind endpoint ["genPowerCfg"; "genBasic"; "boschSpecific"];;;
  reporting_batteryPercentageRemaining endpoint;;;
  reporting_batteryVoltage endpoint.

End Reporting.

End configure.

(** * Vocabulary of the properties *)

(** ** Air purity *)

(** The factors tabulated by range of the air-purity value. *)
Definition factors_by_range (iaq : Z) : Z * Z :=
  if iaq <=? 50 then (6, 2)
  else if iaq <=? 100 then (10, 4)
  else if iaq <=? 150 then (20, 4)
  else if iaq <=? 200 then (50, 4)
  else (100, 4).

(** ** Encode converters *)

Definition Setter : Type := Entity -> string -> value -> Meta -> M (option KeyValue).

(** The enumeration properties set through a lookup table, with the
    converter that encodes them and their table. *)
Definition enum_setters (cover_state on_off : Entity -> string -> value -> Meta -> M unit)
  : list (Setter * string * Lookup) :=
  [ (rbshoszbeu.convertSet, "siren_and_light", sirenLight);
    (rbshoszbeu.convertSet, "siren_volume", sirenVolume);
    (rbshoszbeu.convertSet, "power_source", sirenPowerSupply);
    (rbshoszbeu.convertSet, "alarm_state", outdoorSirenState);
    (smokeAlarm.convertSet, "alarm_smoke", smokeAlarm.smokeAlarm);
    (smokeAlarm.convertSet, "alarm_burglar", smokeAlarm.burglarAlarm);
    (broadcastAlarm.convertSet, "broadcast_alarm", broadcastAlarm.sirenState);
    (twinguard.convertSet, "sensitivity", twinguard.smokeSensitivity);
    (twinguard.convertSet, "pre_alarm", twinguard.stateOffOn);
    (twinguard.convertSet, "heartbeat", twinguard.stateOffOn);
    (twinguard.convertSet, "alarm", twinguard.sirenState);
    (bmct.convertSet cover_state on_off, "device_mode", bmct.stateDeviceMode);
    (bmct.convertSet cover_state on_off, "switch_type", bmct.stateSwitchType);
    (bmct.convertSet cover_state on_off, "child_lock", bmct.stateOffOn) ].

Definition Getter : Type := Entity -> string -> Meta -> M unit.

(** A converter rejects unknown keys when every set and every get with a
    key outside the declared key list throws. *)
Definition rejects_unknown_keys (keys : list string) (set : Setter) (get : Getter) : Prop :=
  forall (entity : Entity) (key : string) (v : value) (meta : Meta) (w : World),
    ~ In key keys ->
    (exists err, fst (set entity key v meta w) = Throw err)
    /\ (exists err, fst (get entity key meta w) = Throw err).

(** The shared converters whose behaviour on undeclared keys is uniform,
    each with its key list and the message its [convertGet] throws. *)
Definition shared_converters : list (list string * Setter * Getter * string) :=
  [ (rbshoszbeu.key, rbshoszbeu.convertSet, rbshoszbeu.convertGet,
     "Unhandled key toZigbee.rbshoszbeu.convertGet ");
    (bhius_config.key, bhius_config.convertSet, bhius_config.convertGet,
     "Unknown key ");
    (twinguard.key, twinguard.convertSet, twinguard.convertGet,
     "Unhandled key boschExtend.twinguard.toZigbee.convertGet ") ].

(** ** Transport verdicts *)

(** The same world under other verdicts of the transport. *)
Definition with_accepts (w : World) (a : Op -> bool) : World :=
  mkWorld a (trace w) (log w) (store w) (processed w) (deviceMode w) (exposesChanged w).

(** A computation is transport-blind when the verdicts of the transport
    change neither its result nor the rest of the world it leaves, and
    rejection-free when it never throws a rejected operation. *)
Definition transport_blind {A : Type} (m : M A) : Prop :=
  forall (w : World) (a : Op -> bool),
    m (with_accepts w a) = (fst (m w), with_accepts (snd (m w)) a).

Definition rejection_free {A : Type} (m : M A) : Prop :=
  forall (w : World) (o : Op), fst (m w) <> Throw (Rejected o).

(** ** Button-press frames *)

(** The fields of a frame of at least eight bytes. *)
Definition frame_sequenceNumber (msg : RawMessage) : Z := nth 3 (raw_data msg) 0.
Definition frame_buttonId (msg : RawMessage) : Z := nth 4 (raw_data msg) 0.
Definition frame_longPress (msg : RawMessage) : Z := nth 5 (raw_data msg) 0.
Definition frame_duration (msg : RawMessage) : Z :=
  nth 6 (raw_data msg) 0 + 256 * nth 7 (raw_data msg) 0.

Definition frame_endpoint (msg : RawMessage) : string * Z :=
  (raw_device msg, raw_endpoint msg).

Definition frame_button (msg : RawMessage) : option string :=
  bhius_button_press.button_name bhius_button_press.buttons (frame_buttonId msg).

(** A frame announces a long press in progress when the long-press flag is
    set and the duration is positive; every other frame of a known button
    is a release. *)
Definition is_long_press (msg : RawMessage) : bool :=
  negb (frame_longPress msg =? 0) && (0 <? frame_duration msg).

(** The sequence number has been processed for the endpoint. *)
Definition was_processed (w : World) (endpoint : string * Z) (n : Z) : Prop :=
  n ∈ default [] (processed w !! endpoint).

#[export] Instance was_processed_dec (w : World) (endpoint : string * Z) (n : Z) :
  Decision (was_processed w endpoint n).
Proof. unfold was_processed. apply _. Defined.

(** The confirmation buffer chosen from the options and the errors logged
    while choosing it. *)
Definition chosen_buffer (options : ConverterOptions) : list Z :=
  match led_response options with
  | Some s => if Nat.eqb (length (Buffer_from_hex s)) 9 then Buffer_from_hex s
              else bhius_button_press.default_led_response
  | None => bhius_button_press.default_led_response
  end.

Definition led_response_errors (options : ConverterOptions) : list LogEntry :=
  match led_response options with
  | Some s => if Nat.eqb (length (Buffer_from_hex s)) 9 then []
              else [LogError ("Invalid length of led_response: "
                              +:+ pretty (length (Buffer_from_hex s))
                              +:+ " (should be 9)") NS]
  | None => []
  end.

Definition confirmButtonPressed (msg : RawMessage) (options : ConverterOptions) : Op :=
  Command (Endpoint (raw_device msg) (raw_endpoint msg))
    (KName "boschSpecific") (KName "confirmButtonPressed")
    [("data", VBuffer (chosen_buffer options))] (mkOptions None (Some "immediate") None).

(** After the four reads and the choice of the confirmation buffer, the
    decoder runs the de-duplication check and continues on its answer. *)
Definition after_dedup (msg : RawMessage) (options : ConverterOptions) (dup : bool)
  : M (option KeyValue) :=
  let endpoint := frame_endpoint msg in
  if dup then ret None
  else
    match frame_button msg with
    | Some name =>
        if is_long_press msg then
          pending <- globalStore.hasValue endpoint name;;
          if pending then ret None
          else
            globalStore.putValue endpoint name (frame_duration msg);;;
            ret (Some [("action", VStr ("button_" +:+ name +:+ "_" +:+ "longpress"))])
        else
          globalStore.clearValue endpoint name;;;
          let command :=
            if negb (frame_longPress msg =? 0) then "longpress_release" else "release" in
          fire_and_forget (confirmButtonPressed msg options);;;
          ret (Some [("action", VStr ("button_" +:+ name +:+ "_" +:+ command))])
    | None =>
        logger_error ("Received message with unknown command ID "
                      +:+ pretty (frame_buttonId msg)
                      +:+ ". Data: 0x" +:+ toString_hex (raw_data msg)) NS;;;
        ret None
    end.

Definition after_parse (msg : RawMessage) (options : ConverterOptions) : M (option KeyValue) :=
  dup <- hasAlreadyProcessedMessage (frame_endpoint msg) (frame_sequenceNumber msg);;
  after_dedup msg options dup.

(** The world after a run of inbound frames, each decoded in turn. *)
Fixpoint deliver (frames : list (RawMessage * ConverterOptions)) (w : World) : World :=
  match frames with
  | [] => w
  | (msg, options) :: rest => deliver rest (snd (bhius_button_press.convert msg options w))
  end.

(** The world in which the continuation runs for a frame that passes the
    de-duplication check: the log and the processed numbers are updated,
    the registry and the trace are as before. *)
Definition admitted (msg : RawMessage) (options : ConverterOptions) (w : World) : World :=
  let w1 := with_log w (log w ++ led_response_errors options) in
  with_processed w1
    (<[frame_endpoint msg := frame_sequenceNumber msg
         :: default [] (processed w1 !! frame_endpoint msg)]> (processed w1)).

(** The second of two well-formed frames with the same sequence number and
    endpoint returns no patch and leaves the world as it found it. *)
Definition C4_as_stated : Prop :=
  forall (first second : RawMessage) (options1 options2 : ConverterOptions) (w : World),
    (8 <= length (raw_data first))%nat ->
    (8 <= length (raw_data second))%nat ->
    frame_endpoint first = frame_endpoint second ->
    frame_sequenceNumber first = frame_sequenceNumber second ->
    let before := snd (bhius_button_press.convert first options1 w) in
    bhius_button_press.convert second options2 before = (Ok None, before).

(** ** Siren volume on the BSIR-EZ profile *)

(** The write of the code of [medium] to attribute 0xa002 of cluster 0x0502. *)
Definition siren_volume_write (entity : Entity) : Op :=
  Write entity (KId 0x0502) [(KId 0xa002, Typed (VNum 0x02) 0x20)] manufacturerOptions.

(** The read of attribute 0xa002 of cluster 0x0502; its response is the
    message that carries the volume back. *)
Definition siren_volume_read (entity : Entity) : Op :=
  Read entity (KId 0x0502) [KId 0xa002] manufacturerOptions.

(** ** Hexadecimal buffers *)

(** A buffer holds bytes. *)
Definition is_byte (b : Z) : Prop := 0 <= b < 256.

(** ** LED configuration reports *)

(** One step of the decoder of the LED configuration: the attribute [id]
    is copied into the result when the report carries it. *)
Definition led_step (data : list (Z * list Z)) (result : KeyValue) (id : Z) : KeyValue :=
  match data_buffer id data with
  | Some buf => assign result (fz_bhius_config.property_of id) (VStr (toString_hex buf))
  | None => result
  end.

(** ** The settings of the outdoor siren *)

(** The six settings of the outdoor siren that are attributes of cluster
    0x0502, with the identifier of their attribute. *)
Definition siren_settings : Lookup :=
  [("light_delay", 0xa004); ("siren_delay", 0xa003); ("light_duration", 0xa005);
   ("siren_duration", 0xa000); ("siren_and_light", 0xa001); ("siren_volume", 0xa002)].

(** The values a setting of the outdoor siren accepts: a symbol of the
    table for the two enumerations, anything for the four numbers, which
    are written as they come. *)
Definition siren_admissible (key : string) (v : value) : bool :=
  if String.eqb key "siren_and_light" then in_lookup v sirenLight
  else if String.eqb key "siren_volume" then in_lookup v sirenVolume
  else true.

(** The outcome of one awaited operation that completes the converter with
    result [x]. *)
Definition one_operation {A : Type} (o : Op) (x : A) (w : World) : Result A * World :=
  (if accepts w o then Ok x else Throw (Rejected o), with_trace w (trace w ++ [o])).

(** An operation is a read. *)
Definition is_read (o : Op) : bool :=
  match o with
  | Read _ _ _ _ => true
  | _ => false
  end.

(** A [convertGet] serves a key when it answers with exactly one read. *)
Definition serves (get : Getter) (key : string) : Prop :=
  forall (entity : Entity) (meta : Meta) (w : World),
  exists o : Op, is_read o = true /\ get entity key meta w = one_operation o tt w.

(** ** Lookup tables of the encode converters *)

(** Every lookup table through which a [convertSet] of the two source files
    encodes a value. *)
Definition encode_tables : list Lookup :=
  [sirenVolume; sirenLight; outdoorSirenState; sirenPowerSupply; buttonMap;
   valveAdaptProcess.adaptationStatus; smokeAlarm.smokeAlarm; smokeAlarm.burglarAlarm;
   broadcastAlarm.sirenState; twinguard.smokeSensitivity; twinguard.sirenState;
   twinguard.stateOffOn; bmct.stateDeviceMode; bmct.stateMotor; bmct.stateSwitchType;
   bmct.stateOffOn].

(** ** Reports of the BMCT extend *)

(** A read response of cluster [boschSpecific] that carries one attribute. *)
Definition bmct_report (device : string) (ep : Z) (attribute : string) (code : Z) : Message :=
  mkMessage device ep "boschSpecific" "readResponse" [(attribute, code)].

(** The stored mode selects the light or the cover descriptors. *)
Definition mode_selected (device : option Device) : bool :=
  match device with
  | Some d => match stored_deviceMode d with
              | Some code => (code =? 0x04) || (code =? 0x01)
              | None => false
              end
  | None => false
  end.

Definition exposes_name (name : string) (xs : list Expose) : bool :=
  existsb (fun x => String.eqb (base_name (base x)) name) xs.

(** ** Sequences of awaited operations *)

(** The operations of a sequence that reach the transport: all up to and
    including the first one it rejects. *)
Fixpoint issued (accepts : Op -> bool) (ops : list Op) : list Op :=
  match ops with
  | [] => []
  | o :: rest => o :: (if accepts o then issued accepts rest else [])
  end.

Fixpoint first_rejected (accepts : Op -> bool) (ops : list Op) : option Op :=
  match ops with
  | [] => None
  | o :: rest => if accepts o then first_rejected accepts rest else Some o
  end.

(** The outcome of awaiting the operations in order and then returning
    [x]: the first rejection is thrown and ends the sequence. *)
Definition sequence_outcome {A : Type} (ops : list Op) (x : A) (w : World)
  : Result A * World :=
  (match first_rejected (accepts w) ops with
   | None => Ok x
   | Some o => Throw (Rejected o)
   end,
   with_trace w (trace w ++ issued (accepts w) ops)).

(** * Properties *)

(** ** Basic facts about the monad and the helpers *)

(** Decide every comparison of two literal keys in the goal. *)
Ltac eval_keys :=
  repeat match goal with
         | |- context [String.eqb ?a ?b] =>
             let r := eval vm_compute in (String.eqb a b) in
             match r with
             | true => change (String.eqb a b) with true
             | false => change (String.eqb a b) with false
             end
         end;
  cbv iota.

Lemma bind_ok {A B : Type} (m : M A) (k : A -> M B) (w w' : World) (a : A) :
  m w = (Ok a, w') -> bind m k w = k a w'.
Proof. intros H. unfold bind. now rewrite H. Qed.

Lemma bind_throw {A B : Type} (m : M A) (k : A -> M B) (w w' : World) (err : Error) :
  m w = (Throw err, w') -> bind m k w = (Throw err, w').
Proof. intros H. unfold bind. now rewrite H. Qed.

Lemma assoc_hasOwnProperty {A : Type} (t : list (string * A)) (k : string) :
  hasOwnProperty t k = false <-> assoc k t = None.
Proof. unfold hasOwnProperty. destruct (assoc k t); split; congruence. Qed.

Lemma getFromLookup_inside (s : string) (t : Lookup) (code : Z) (w : World) :
  assoc s t = Some code -> getFromLookup (VStr s) t w = (Ok code, w).
Proof. intros H. unfold getFromLookup. now rewrite H. Qed.

Lemma getFromLookup_outside (v : value) (t : Lookup) (w : World) :
  in_lookup v t = false ->
  getFromLookup v t w = (Throw (NotInLookup v (Object_keys t)), w).
Proof.
  destruct v as [| | | |s|]; simpl; intros H; try reflexivity.
  apply assoc_hasOwnProperty in H. now rewrite H.
Qed.

Lemma readUInt8_inside (buf : list Z) (offset : nat) (w : World) :
  (offset < length buf)%nat ->
  readUInt8 buf offset w = (Ok (nth offset buf 0), w).
Proof.
  intros H. unfold readUInt8.
  destruct (nth_error buf offset) as [b|] eqn:E.
  - now rewrite (nth_error_nth buf offset 0 E).
  - apply nth_error_None in E. lia.
Qed.

Lemma readUInt16LE_inside (buf : list Z) (offset : nat) (w : World) :
  (S offset < length buf)%nat ->
  readUInt16LE buf offset w = (Ok (nth offset buf 0 + 256 * nth (S offset) buf 0), w).
Proof.
  intros H. unfold readUInt16LE.
  destruct (nth_error buf offset) as [lo|] eqn:E1.
  - destruct (nth_error buf (S offset)) as [hi|] eqn:E2.
    + now rewrite (nth_error_nth buf offset 0 E1), (nth_error_nth buf (S offset) 0 E2).
    + apply nth_error_None in E2. lia.
  - apply nth_error_None in E1. lia.
Qed.

(** ** Lookup tables: when the search-based decoding inverts the encoding *)

Section FindKey.

Variable t : Lookup.
Hypothesis keys_distinct : NoDup (Object_keys t).
Hypothesis codes_distinct : NoDup (Object_values t).

Lemma assoc_In (s : string) (c : Z) : assoc s t = Some c -> In (s, c) t.
Proof.
  clear keys_distinct codes_distinct.
  induction t as [|[k v] t' IH]; simpl; [discriminate|].
  destruct (String.eqb s k) eqn:E.
  - apply String.eqb_eq in E. intros [= ->]. left. now subst.
  - intros H. right. now apply IH.
Qed.

Lemma In_assoc (s : string) (c : Z) : In (s, c) t -> assoc s t = Some c.
Proof.
  clear codes_distinct. revert keys_distinct.
  induction t as [|[k v] t' IH]; simpl; [tauto|].
  intros ND [H|H].
  - injection H as -> ->. now rewrite String.eqb_refl.
  - pose proof (NoDup_cons_1_1 _ _ ND) as HN. apply NoDup_cons_1_2 in ND.
    destruct (String.eqb s k) eqn:E.
    + apply String.eqb_eq in E. subst. exfalso. apply HN.
      apply list_elem_of_In. apply (in_map fst) in H. exact H.
    + now apply IH.
Qed.

Lemma code_determines_key (k s : string) (c : Z) :
  In (k, c) t -> In (s, c) t -> k = s.
Proof.
  clear keys_distinct. revert codes_distinct.
  induction t as [|[k' c'] t' IH]; simpl; [tauto|].
  intros ND. pose proof (NoDup_cons_1_1 _ _ ND) as HN. apply NoDup_cons_1_2 in ND.
  intros [H1|H1] [H2|H2].
  - congruence.
  - injection H1 as -> ->. exfalso. apply HN, list_elem_of_In.
    apply (in_map snd) in H2. exact H2.
  - injection H2 as -> ->. exfalso. apply HN, list_elem_of_In.
    apply (in_map snd) in H1. exact H1.
  - now apply IH.
Qed.

(** Decoding by search returns the symbol that was encoded. *)
Lemma find_key_encode (s : string) (c : Z) :
  assoc s t = Some c -> find_key t c = VStr s.
Proof.
  intros H. unfold find_key.
  destruct (find _ (Object_keys t)) as [k|] eqn:F.
  - apply find_some in F as [_ Hk].
    destruct (assoc k t) as [c'|] eqn:Ek; [|discriminate].
    apply Z.eqb_eq in Hk. subst c'.
    f_equal. apply (code_determines_key k s c); now apply assoc_In.
  - exfalso.
    assert (Hin : In s (Object_keys t)).
    { apply assoc_In in H. apply (in_map fst) in H. exact H. }
    pose proof (find_none _ _ F s Hin) as Hf. simpl in Hf.
    rewrite H, Z.eqb_refl in Hf. discriminate.
Qed.

(** Encoding the symbol found by search returns the code. *)
Lemma find_key_decode (s : string) (c : Z) :
  find_key t c = VStr s -> assoc s t = Some c.
Proof.
  unfold find_key.
  destruct (find _ (Object_keys t)) as [k|] eqn:F; [|discriminate].
  intros [= ->]. apply find_some in F as [_ Hk].
  destruct (assoc s t) as [c'|]; [|discriminate].
  apply Z.eqb_eq in Hk. now subst.
Qed.

End FindKey.

(** The tables decoded by search in the source satisfy the side conditions. *)
Lemma bmct_tables_distinct :
  Forall (fun t : Lookup => NoDup (Object_keys t) /\ NoDup (Object_values t))
    [bmct.stateDeviceMode; bmct.stateSwitchType; bmct.stateMotor].
Proof.
  repeat (apply List.Forall_cons;
          [split; apply (bool_decide_unpack _); vm_compute; exact I|]).
  apply List.Forall_nil.
Qed.

(** Indexing the key array by the code inverts the encoding of [stateOffOn],
    whose codes are the positions of its symbols. *)
Lemma stateOffOn_index_inverse (s : string) (c : Z) :
  assoc s twinguard.stateOffOn = Some c ->
  index_keys (Object_keys twinguard.stateOffOn) c = VStr s.
Proof.
  simpl. destruct (String.eqb s "OFF") eqn:E1.
  - apply String.eqb_eq in E1. intros [= <-]. now subst.
  - destruct (String.eqb s "ON") eqn:E2; [|discriminate].
    apply String.eqb_eq in E2. intros [= <-]. now subst.
Qed.

(** ** C10: the air-purity arithmetic of the Twinguard measurement decoder *)

Lemma factors_by_range_eq (iaq : Z) : twinguard.factors iaq = factors_by_range iaq.
Proof.
  unfold twinguard.factors, factors_by_range.
  repeat match goal with
         | |- context [?a <=? ?b] => destruct (Z.leb_spec a b); simpl
         end; try reflexivity; lia.
Qed.

Lemma assoc_assign_same (o : KeyValue) (k : string) (v : value) :
  assoc k (assign o k v) = Some v.
Proof.
  induction o as [|[k' v'] o IH]; simpl.
  - now rewrite String.eqb_refl.
  - destruct (String.eqb k k') eqn:E; simpl; rewrite E; [reflexivity|exact IH].
Qed.

Lemma assoc_assign_other (o : KeyValue) (k k' : string) (v : value) :
  k <> k' -> assoc k (assign o k' v) = assoc k o.
Proof.
  intros Hne. apply String.eqb_neq in Hne.
  induction o as [|[k0 v0] o IH]; simpl.
  - now rewrite Hne.
  - destruct (String.eqb k' k0) eqn:E; simpl.
    + apply String.eqb_eq in E. subst k0. now rewrite Hne.
    + destruct (String.eqb k k0); [reflexivity|exact IH].
Qed.

(** C10. For every Twinguard measurement report carrying an air-purity
    value [iaq], the decoded patch has [aqi = iaq], [voc = iaq * f_voc] and
    [co2 = iaq * f_co2 + 400], where [(f_voc, f_co2)] is [(6, 2)] for
    [iaq <= 50], [(10, 4)] for [51 <= iaq <= 100], [(20, 4)] for
    [101 <= iaq <= 150], [(50, 4)] for [151 <= iaq <= 200] and [(100, 4)]
    for [iaq >= 201], in exact integer arithmetic. *)
Theorem C10_airpurity_patch (msg : Message) (iaq : Z) :
  assoc "airpurity" (msg_data msg) = Some iaq ->
  exists f_voc f_co2 : Z,
    let patch := twinguard.measurements_convert msg in
    assoc "aqi" patch = Some (VNum iaq)
    /\ assoc "voc" patch = Some (VNum (iaq * f_voc))
    /\ assoc "co2" patch = Some (VNum (iaq * f_co2 + 400))
    /\ (iaq <= 50 -> (f_voc, f_co2) = (6, 2))
    /\ (51 <= iaq <= 100 -> (f_voc, f_co2) = (10, 4))
    /\ (101 <= iaq <= 150 -> (f_voc, f_co2) = (20, 4))
    /\ (151 <= iaq <= 200 -> (f_voc, f_co2) = (50, 4))
    /\ (201 <= iaq -> (f_voc, f_co2) = (100, 4)).
Proof.
  intros Hair.
  exists (fst (twinguard.factors iaq)), (snd (twinguard.factors iaq)).
  cbv zeta.
  assert (Hpatch :
    assoc "aqi" (twinguard.measurements_convert msg) = Some (VNum iaq)
    /\ assoc "voc" (twinguard.measurements_convert msg)
       = Some (VNum (iaq * fst (twinguard.factors iaq)))
    /\ assoc "co2" (twinguard.measurements_convert msg)
       = Some (VNum (iaq * snd (twinguard.factors iaq) + 400))).
  { unfold twinguard.measurements_convert, toNumber. rewrite Hair.
    destruct (twinguard.factors iaq) as [fv fc].
    destruct (assoc "humidity" (msg_data msg)) as [h|];
      [destruct (isInRange_quot 0 100 h 100)|];
      destruct (assoc "temperature" (msg_data msg));
      destruct (assoc "illuminance_lux" (msg_data msg));
      destruct (assoc "battery" (msg_data msg));
      repeat split; reflexivity. }
  destruct Hpatch as (Haqi & Hvoc & Hco2).
  repeat split; try assumption;
    intros Hrange; rewrite <- surjective_pairing, factors_by_range_eq;
    unfold factors_by_range;
    repeat match goal with
           | |- context [?a <=? ?b] => destruct (Z.leb_spec a b); simpl
           end; try reflexivity; lia.
Qed.

(** An air-purity reading of 120 lies in the third range: VOC 2400, CO2 880. *)
Lemma C10_airpurity_patch_witness :
  assoc "airpurity" [("airpurity", 120)] = Some 120 /\
  exists f_voc f_co2 : Z,
    let patch := twinguard.measurements_convert
                   (mkMessage "0x000d6f0000000001" 3 "twinguardMeasurements"
                      "attributeReport" [("airpurity", 120)]) in
    assoc "aqi" patch = Some (VNum 120)
    /\ assoc "voc" patch = Some (VNum (120 * f_voc))
    /\ assoc "co2" patch = Some (VNum (120 * f_co2 + 400))
    /\ (120 <= 50 -> (f_voc, f_co2) = (6, 2))
    /\ (51 <= 120 <= 100 -> (f_voc, f_co2) = (10, 4))
    /\ (101 <= 120 <= 150 -> (f_voc, f_co2) = (20, 4))
    /\ (151 <= 120 <= 200 -> (f_voc, f_co2) = (50, 4))
    /\ (201 <= 120 -> (f_voc, f_co2) = (100, 4)).
Proof.
  split; [reflexivity|].
  apply (C10_airpurity_patch
           (mkMessage "0x000d6f0000000001" 3 "twinguardMeasurements"
              "attributeReport" [("airpurity", 120)]) 120).
  reflexivity.
Defined.

(** ** C9: the exposed-property set of the BMCT-SLZ profile *)

Lemma light_not_in_cover :
  Forall (fun x => ~ In x BMCT_SLZ.coverExposes /\ ~ In x BMCT_SLZ.commonExposes)
    BMCT_SLZ.lightExposes.
Proof.
  repeat (apply List.Forall_cons;
          [split; rewrite <- list_elem_of_In; apply (bool_decide_unpack _);
           vm_compute; exact I|]).
  apply List.Forall_nil.
Qed.

Lemma cover_not_in_light :
  Forall (fun x => ~ In x BMCT_SLZ.lightExposes /\ ~ In x BMCT_SLZ.commonExposes)
    BMCT_SLZ.coverExposes.
Proof.
  repeat (apply List.Forall_cons;
          [split; rewrite <- list_elem_of_In; apply (bool_decide_unpack _);
           vm_compute; exact I|]).
  apply List.Forall_nil.
Qed.

(** No descriptor of the light set shares its name and endpoint with a
    descriptor of the cover set: [child_lock] is bound to the endpoints
    [left] and [right] in the one and to no endpoint in the other. *)
Lemma light_cover_ids_disjoint :
  Forall (fun x => ~ In (expose_id x) (map expose_id BMCT_SLZ.coverExposes))
    BMCT_SLZ.lightExposes.
Proof.
  repeat (apply List.Forall_cons;
          [rewrite <- list_elem_of_In; apply (bool_decide_unpack _);
           vm_compute; exact I|]).
  apply List.Forall_nil.
Qed.

(** C9. For the multi-mode BMCT-SLZ profile the exposed set is determined
    by the stored device mode: with mode [shutter] it is the common
    descriptors followed by the cover descriptors (cover position,
    motor_state, child_lock, the four calibration times) and holds none of
    the light descriptors; with mode [light] it is the common descriptors
    followed by the switch descriptors (per-endpoint switch, power-on
    behavior and child_lock) and holds none of the cover descriptors; the
    descriptors present in both sets are exactly the common ones,
    switch_type and linkquality. *)
Theorem C9_exposes_by_mode :
  let shutter := BMCT_SLZ.exposes (Some (mkDevice (assoc "shutter" BMCT_SLZ.stateDeviceMode))) in
  let light := BMCT_SLZ.exposes (Some (mkDevice (assoc "light" BMCT_SLZ.stateDeviceMode))) in
  shutter = (BMCT_SLZ.commonExposes ++ BMCT_SLZ.coverExposes)%list
  /\ light = (BMCT_SLZ.commonExposes ++ BMCT_SLZ.lightExposes)%list
  /\ map expose_id BMCT_SLZ.coverExposes
     = [("cover_position", None); ("motor_state", None); ("child_lock", None);
        ("calibration_closing_time", None); ("calibration_opening_time", None);
        ("calibration_button_hold_time", None); ("calibration_motor_start_delay", None)]
  /\ map expose_id BMCT_SLZ.lightExposes
     = [("switch", Some "left"); ("switch", Some "right");
        ("power_on_behavior", Some "left"); ("power_on_behavior", Some "right");
        ("child_lock", Some "left"); ("child_lock", Some "right")]
  /\ map expose_id BMCT_SLZ.commonExposes = [("switch_type", None); ("linkquality", None)]
  /\ (forall x, In x BMCT_SLZ.lightExposes -> ~ In x shutter)
  /\ (forall x, In x BMCT_SLZ.coverExposes -> ~ In x light)
  /\ (forall x, In x shutter /\ In x light <-> In x BMCT_SLZ.commonExposes).
Proof.
  cbv zeta.
  assert (Hs : BMCT_SLZ.exposes (Some (mkDevice (assoc "shutter" BMCT_SLZ.stateDeviceMode)))
               = (BMCT_SLZ.commonExposes ++ BMCT_SLZ.coverExposes)%list) by reflexivity.
  assert (Hl : BMCT_SLZ.exposes (Some (mkDevice (assoc "light" BMCT_SLZ.stateDeviceMode)))
               = (BMCT_SLZ.commonExposes ++ BMCT_SLZ.lightExposes)%list) by reflexivity.
  rewrite Hs, Hl.
  pose proof light_not_in_cover as HL. rewrite List.Forall_forall in HL.
  pose proof cover_not_in_light as HC. rewrite List.Forall_forall in HC.
  do 5 (split; [reflexivity|]).
  split; [|split].
  - intros x Hx Hin. apply in_app_or in Hin. destruct (HL x Hx) as [H1 H2]. tauto.
  - intros x Hx Hin. apply in_app_or in Hin. destruct (HC x Hx) as [H1 H2]. tauto.
  - intros x. split.
    + intros [H1 H2]. apply in_app_or in H1. apply in_app_or in H2.
      destruct H1 as [H1|H1]; [exact H1|].
      destruct H2 as [H2|H2]; [exact H2|].
      destruct (HC x H1) as [H3 _]. contradiction.
    + intros H. split; apply in_or_app; now left.
Qed.


(** ** C1: the sensitivity table of the Twinguard is not decoded by its inverse *)

Lemma await_trace (o : Op) (w : World) :
  snd (await o w) = with_trace w (trace w ++ [o]).
Proof. unfold await. now destruct (accepts w o). Qed.

Lemma await_then_ret {A : Type} (o : Op) (x : A) (w : World) :
  bind (await o) (fun _ => ret x) w
  = (if accepts w o then Ok x else Throw (Rejected o), with_trace w (trace w ++ [o])).
Proof. unfold bind, await, ret. now destruct (accepts w o). Qed.

(** C1. Encoding each symbol of the Twinguard [sensitivity] table
    [{low: 0x03, medium: 0x02, high: 0x01}] and decoding the written code
    does not give the symbol back: the decoder indexes the array of symbols
    by the code, so [low] (code 3) decodes to [undefined], [medium]
    (code 2) to [high] and [high] (code 1) to [medium]. *)
Theorem C1_twinguard_sensitivity_round_trip
  (entity : Entity) (meta : Meta) (w : World) (device : string) (ep : Z) :
  let written code :=
    Write entity (KName "twinguardSmokeDetector")
      [(KName "sensitivity", Plain (VNum code))] noOptions in
  let report code :=
    mkMessage device ep "twinguardSmokeDetector" "readResponse" [("sensitivity", code)] in
  trace (snd (twinguard.convertSet entity "sensitivity" (VStr "low") meta w))
    = (trace w ++ [written 0x03])%list
  /\ twinguard.smokeDetector_convert (report 0x03) = [("sensitivity", VUndefined)]
  /\ trace (snd (twinguard.convertSet entity "sensitivity" (VStr "medium") meta w))
    = (trace w ++ [written 0x02])%list
  /\ twinguard.smokeDetector_convert (report 0x02) = [("sensitivity", VStr "high")]
  /\ trace (snd (twinguard.convertSet entity "sensitivity" (VStr "high") meta w))
    = (trace w ++ [written 0x01])%list
  /\ twinguard.smokeDetector_convert (report 0x01) = [("sensitivity", VStr "medium")].
Proof.
  cbv zeta. unfold twinguard.convertSet. eval_keys.
  repeat split; try reflexivity;
    (erewrite bind_ok by (apply getFromLookup_inside; reflexivity));
    rewrite await_then_ret; reflexivity.
Qed.

(** ** C2: a value outside the lookup table of an enumeration property *)

(** C2. For every encode converter over an enumeration property
    (siren_volume, siren_and_light, power_source, sensitivity and the other
    table-encoded properties) and every requested value that is not a
    symbol of the property's lookup table, [convertSet] fails with an error
    that names the value and the symbols of the table, and the world is
    unchanged: no write or command reaches the entity. *)
Theorem C2_value_outside_lookup_fails
  (cover_state on_off : Entity -> string -> value -> Meta -> M unit)
  (setter : Setter) (key : string) (table : Lookup) :
  In (setter, key, table) (enum_setters cover_state on_off) ->
  forall (entity : Entity) (v : value) (meta : Meta) (w : World),
    in_lookup v table = false ->
    setter entity key v meta w = (Throw (NotInLookup v (Object_keys table)), w).
Proof.
  intros Hin entity v meta w Hout.
  unfold enum_setters in Hin. simpl in Hin.
  repeat (destruct Hin as [Hin|Hin];
          [injection Hin as <- <- <-;
           unfold rbshoszbeu.convertSet, smokeAlarm.convertSet, broadcastAlarm.convertSet,
             twinguard.convertSet, bmct.convertSet;
           eval_keys; simpl orb; cbv iota;
           repeat (unfold bind at 1; unfold ret at 1);
           unfold bind; now rewrite (getFromLookup_outside _ _ _ Hout)|]).
  contradiction.
Qed.

Lemma C2_value_outside_lookup_fails_witness :
  In (rbshoszbeu.convertSet, "siren_volume", sirenVolume)
     (enum_setters (fun _ _ _ _ => ret tt) (fun _ _ _ _ => ret tt))
  /\ in_lookup (VStr "deafening") sirenVolume = false
  /\ rbshoszbeu.convertSet (Endpoint "0x000d6f0000000001" 1) "siren_volume"
       (VStr "deafening") (mkMeta "0x000d6f0000000001" [])
       (mkWorld (fun _ => true) [] [] ∅ ∅ ∅ 0%nat)
     = (Throw (NotInLookup (VStr "deafening") ["low"; "medium"; "high"]),
        mkWorld (fun _ => true) [] [] ∅ ∅ ∅ 0%nat).
Proof.
  assert (Hin : In (rbshoszbeu.convertSet, "siren_volume", sirenVolume)
                  (enum_setters (fun _ _ _ _ => ret tt) (fun _ _ _ _ => ret tt))).
  { right. left. reflexivity. }
  split; [exact Hin|]. split; [reflexivity|].
  exact (C2_value_outside_lookup_fails _ _ _ _ _ Hin
           (Endpoint "0x000d6f0000000001" 1) (VStr "deafening")
           (mkMeta "0x000d6f0000000001" []) _ eq_refl).
Defined.

(** ** C7: the valve adaptation trigger *)

(** Case analysis on a key compared with literals. *)
Ltac key_cases s :=
  repeat match goal with
         | |- context [String.eqb s ?lit] =>
             destruct (String.eqb_spec s lit) as [->|?]
         end.

Lemma valve_adapt_refused (entity : Entity) (key : string) (meta : Meta) (w : World) :
  prop (meta_state meta) "valve_adapt_status" <> VStr "ready_to_calibrate" ->
  prop (meta_state meta) "valve_adapt_status" <> VStr "error" ->
  exists err,
    valveAdaptProcess.convertSet entity key (VBool true) meta w = (Throw err, w).
Proof.
  intros Hready Herror. unfold valveAdaptProcess.convertSet.
  simpl loose_eq_true. cbv iota.
  destruct (prop (meta_state meta) "valve_adapt_status") as [| | | |s|] eqn:Es;
    try (eexists; reflexivity).
  unfold bind, getFromLookup, valveAdaptProcess.adaptationStatus, assoc.
  key_cases s; try congruence; eexists; reflexivity.
Qed.

Lemma valve_adapt_triggered (entity : Entity) (key : string) (meta : Meta) (w : World) :
  prop (meta_state meta) "valve_adapt_status" = VStr "ready_to_calibrate"
  \/ prop (meta_state meta) "valve_adapt_status" = VStr "error" ->
  let calibrate :=
    Command entity (KName "hvacThermostat") (KName "calibrateValve") [] manufacturerOpts in
  valveAdaptProcess.convertSet entity key (VBool true) meta w
  = (if accepts w calibrate then Ok (Some [("valve_adapt_process", VBool true)])
     else Throw (Rejected calibrate),
     with_trace w (trace w ++ [calibrate])).
Proof.
  intros [Hs|Hs]; cbv zeta; unfold valveAdaptProcess.convertSet;
    simpl loose_eq_true; cbv iota; rewrite Hs;
    unfold bind, getFromLookup, await, ret; simpl;
    match goal with |- context [accepts w ?o] => destruct (accepts w o) end; reflexivity.
Qed.

(** C7. Setting [valve_adapt_process] to [true] when the known
    [valve_adapt_status] is neither [ready_to_calibrate] nor [error] throws
    and hands no command to the device; when the status is
    [ready_to_calibrate] or [error] exactly one [calibrateValve] command is
    issued and, the command being accepted, the optimistic patch
    [{valve_adapt_process: true}] is returned. *)
Theorem C7_valve_adapt_process (entity : Entity) (key : string) (meta : Meta) (w : World) :
  let status := prop (meta_state meta) "valve_adapt_status" in
  let calibrate :=
    Command entity (KName "hvacThermostat") (KName "calibrateValve") [] manufacturerOpts in
  let outcome := valveAdaptProcess.convertSet entity key (VBool true) meta w in
  (status <> VStr "ready_to_calibrate" -> status <> VStr "error" ->
   (exists err, fst outcome = Throw err) /\ snd outcome = w)
  /\ (status = VStr "ready_to_calibrate" \/ status = VStr "error" ->
      trace (snd outcome) = (trace w ++ [calibrate])%list
      /\ (accepts w calibrate = true ->
          fst outcome = Ok (Some [("valve_adapt_process", VBool true)]))).
Proof.
  cbv zeta. split.
  - intros Hready Herror.
    destruct (valve_adapt_refused entity key meta w Hready Herror) as [err ->].
    split; [now exists err|reflexivity].
  - intros Hs. rewrite (valve_adapt_triggered entity key meta w Hs). simpl.
    split; [reflexivity|]. now intros ->.
Qed.

Lemma C7_valve_adapt_process_witness :
  let w := mkWorld (fun _ => true) [] [] ∅ ∅ ∅ 0%nat in
  let entity := Endpoint "0x18fc260000000001" 1 in
  let calibrate :=
    Command entity (KName "hvacThermostat") (KName "calibrateValve") [] manufacturerOpts in
  let busy := mkMeta "0x18fc260000000001" [("valve_adapt_status", VStr "calibration_in_progress")] in
  let ready := mkMeta "0x18fc260000000001" [("valve_adapt_status", VStr "ready_to_calibrate")] in
  ((exists err, fst (valveAdaptProcess.convertSet entity "valve_adapt_process" (VBool true) busy w)
                = Throw err)
   /\ snd (valveAdaptProcess.convertSet entity "valve_adapt_process" (VBool true) busy w) = w)
  /\ (trace (snd (valveAdaptProcess.convertSet entity "valve_adapt_process" (VBool true) ready w))
      = [calibrate]
      /\ fst (valveAdaptProcess.convertSet entity "valve_adapt_process" (VBool true) ready w)
         = Ok (Some [("valve_adapt_process", VBool true)])).
Proof.
  cbv zeta. split.
  - apply (C7_valve_adapt_process (Endpoint "0x18fc260000000001" 1) "valve_adapt_process"
             (mkMeta "0x18fc260000000001"
                [("valve_adapt_status", VStr "calibration_in_progress")])
             (mkWorld (fun _ => true) [] [] ∅ ∅ ∅ 0%nat)); simpl; discriminate.
  - destruct (C7_valve_adapt_process (Endpoint "0x18fc260000000001" 1) "valve_adapt_process"
                (mkMeta "0x18fc260000000001"
                   [("valve_adapt_status", VStr "ready_to_calibrate")])
                (mkWorld (fun _ => true) [] [] ∅ ∅ ∅ 0%nat)) as [_ H].
    destruct (H (or_introl eq_refl)) as [Ht Hr].
    split; [exact Ht|exact (Hr eq_refl)].
Defined.

(** ** C6: keys outside the declared key list of a shared converter *)

(** A set of the undeclared key [led_brightness] on the Universal Switch II
    converter, and of the undeclared key [siren_pitch] on the outdoor-siren
    converter, returns nothing and throws nothing. *)
Lemma C6_unknown_key_set_is_silent :
  ~ rejects_unknown_keys bhius_config.key bhius_config.convertSet bhius_config.convertGet
  /\ ~ rejects_unknown_keys rbshoszbeu.key rbshoszbeu.convertSet rbshoszbeu.convertGet.
Proof.
  split; intros H.
  - destruct (H (Endpoint "0x000d6f0000000002" 1) "led_brightness" (VStr "ff")
                (mkMeta "0x000d6f0000000002" [])
                (mkWorld (fun _ => true) [] [] ∅ ∅ ∅ 0%nat)) as [[err Hset] _].
    + rewrite <- list_elem_of_In. apply (bool_decide_unpack _). vm_compute. exact I.
    + vm_compute in Hset. discriminate.
  - destruct (H (Endpoint "0x000d6f0000000001" 1) "siren_pitch" (VNum 3)
                (mkMeta "0x000d6f0000000001" [])
                (mkWorld (fun _ => true) [] [] ∅ ∅ ∅ 0%nat)) as [[err Hset] _].
    + rewrite <- list_elem_of_In. apply (bool_decide_unpack _). vm_compute. exact I.
    + vm_compute in Hset. discriminate.
Qed.

(** A key outside a literal list differs from each of its members. *)
Ltac undeclared key Hnot :=
  repeat match goal with
         | |- context [String.eqb key ?lit] =>
             destruct (String.eqb_spec key lit) as [->|?];
             [exfalso; apply Hnot; simpl; tauto|]
         end.

(** C6 (amended). For the outdoor-siren converter, the Universal Switch II
    LED-config converter and the Twinguard converter, and every key outside
    the declared key list: [convertGet] throws an error whose message names
    the key, and hands no read to the entity; [convertSet] returns nothing,
    without an error and without handing any write or command to the
    entity. *)
Theorem C6_undeclared_key
  (keys : list string) (set : Setter) (get : Getter) (prefix : string) :
  In (keys, set, get, prefix) shared_converters ->
  forall (entity : Entity) (key : string) (v : value) (meta : Meta) (w : World),
    ~ In key keys ->
    get entity key meta w = (Throw (Thrown (prefix +:+ key)), w)
    /\ set entity key v meta w = (Ok None, w).
Proof.
  intros Hin entity key v meta w Hnot.
  unfold shared_converters in Hin. simpl in Hin.
  destruct Hin as [Hin|[Hin|[Hin|[]]]]; injection Hin as <- <- <- <-.
  - unfold rbshoszbeu.convertGet, rbshoszbeu.convertSet, rbshoszbeu.key in *.
    undeclared key Hnot. split; reflexivity.
  - unfold bhius_config.convertGet, bhius_config.convertSet, bhius_config.key,
      buttonMap, Object_keys, assoc in *. simpl map in Hnot.
    undeclared key Hnot. split; reflexivity.
  - unfold twinguard.convertGet, twinguard.convertSet, twinguard.key in *.
    undeclared key Hnot. split; reflexivity.
Qed.

Lemma C6_undeclared_key_witness :
  In (bhius_config.key, bhius_config.convertSet, bhius_config.convertGet, "Unknown key ")
     shared_converters
  /\ ~ In "led_brightness" bhius_config.key
  /\ bhius_config.convertGet (Endpoint "0x000d6f0000000002" 1) "led_brightness"
       (mkMeta "0x000d6f0000000002" []) (mkWorld (fun _ => true) [] [] ∅ ∅ ∅ 0%nat)
     = (Throw (Thrown "Unknown key led_brightness"),
        mkWorld (fun _ => true) [] [] ∅ ∅ ∅ 0%nat)
  /\ bhius_config.convertSet (Endpoint "0x000d6f0000000002" 1) "led_brightness" (VStr "ff")
       (mkMeta "0x000d6f0000000002" []) (mkWorld (fun _ => true) [] [] ∅ ∅ ∅ 0%nat)
     = (Ok None, mkWorld (fun _ => true) [] [] ∅ ∅ ∅ 0%nat).
Proof.
  assert (Hin : In (bhius_config.key, bhius_config.convertSet, bhius_config.convertGet,
                    "Unknown key ") shared_converters).
  { right. left. reflexivity. }
  assert (Hnot : ~ In "led_brightness" bhius_config.key).
  { rewrite <- list_elem_of_In. apply (bool_decide_unpack _). vm_compute. exact I. }
  split; [exact Hin|]. split; [exact Hnot|].
  exact (C6_undeclared_key _ _ _ _ Hin (Endpoint "0x000d6f0000000002" 1) "led_brightness"
           (VStr "ff") (mkMeta "0x000d6f0000000002" [])
           (mkWorld (fun _ => true) [] [] ∅ ∅ ∅ 0%nat) Hnot).
Defined.

(** Outside these three, two converters act on a key they do not declare:
    the smoke-alarm [convertGet] reads the zone status for [zone_status],
    and the BMCT [convertSet] forwards [on_wait_time] to the on/off
    converter. *)
Lemma smokeAlarm_zone_status_undeclared (entity : Entity) (meta : Meta) (w : World) :
  ~ In "zone_status" smokeAlarm.key
  /\ snd (smokeAlarm.convertGet entity "zone_status" meta w)
     = with_trace w (trace w ++ [Read entity (KName "ssIasZone") [KName "zoneStatus"] noOptions]).
Proof.
  split.
  - rewrite <- list_elem_of_In. apply (bool_decide_unpack _). vm_compute. exact I.
  - unfold smokeAlarm.convertGet. eval_keys. simpl orb. cbv iota. apply await_trace.
Qed.

Lemma bmct_on_wait_time_undeclared
  (cover_state on_off : Entity -> string -> value -> Meta -> M unit)
  (device : string) (v : value) (meta : Meta) (w : World) :
  ~ In "on_wait_time" bmct.key
  /\ bmct.convertSet cover_state on_off (Endpoint device 2) "on_wait_time" v meta w
     = bind (on_off (Endpoint device 2) "on_wait_time" v meta) (fun _ => ret None) w.
Proof.
  split.
  - rewrite <- list_elem_of_In. apply (bool_decide_unpack _). vm_compute. exact I.
  - unfold bmct.convertSet. eval_keys. simpl. unfold bind, ret.
    now destruct (on_off (Endpoint device 2) "on_wait_time" v meta w) as [[[]|err] w'].
Qed.

(** ** C8: failures of the commands issued while decoding *)

(** Unfold the button-press decoder down to the primitive state
    transformers. *)
Ltac unfold_button_press :=
  unfold bhius_button_press.convert, bhius_button_press.confirmation_buffer,
    hasAlreadyProcessedMessage, globalStore.hasValue, globalStore.putValue,
    globalStore.clearValue, readUInt8, readUInt16LE, fire_and_forget, logger_error,
    bind, ret, throw.

(** The Twinguard alarm acknowledgment is awaited: with a transport that
    rejects it, decoding a fire alarm throws the rejection and returns no
    patch. *)
Lemma C8_twinguard_ack_failure_propagates :
  let w := mkWorld (fun _ => false) [] [] ∅ ∅ ∅ 0%nat in
  let msg := mkMessage "0x000d6f0000000003" 1 "genAlarms" "commandAlarm"
               [("alarmcode", 0x10); ("clusterid", 0xe000)] in
  fst (twinguard.genAlarms_convert msg w)
  = Throw (Rejected (CommandResponse (Endpoint "0x000d6f0000000003" 1)
                       (KName "genAlarms") (KName "alarm")
                       [("alarmcode", VNum 0x10); ("clusterid", VNum 0xe000)]
                       (mkOptions None None (Some 1)))).
Proof. reflexivity. Qed.

Section Blind.

Context {A B : Type}.

Lemma blind_ret (x : A) : transport_blind (ret x).
Proof. intros w a. reflexivity. Qed.

Lemma blind_throw (err : Error) : transport_blind (@throw A err).
Proof. intros w a. reflexivity. Qed.

Lemma blind_bind (m : M A) (k : A -> M B) :
  transport_blind m -> (forall x, transport_blind (k x)) -> transport_blind (bind m k).
Proof.
  intros Hm Hk w a. unfold bind. rewrite Hm.
  destruct (m w) as [[x|err] w']; simpl; [apply Hk|reflexivity].
Qed.

Lemma free_ret (x : A) : rejection_free (ret x).
Proof. intros w o. discriminate. Qed.

Lemma free_bind (m : M A) (k : A -> M B) :
  rejection_free m -> (forall x, rejection_free (k x)) -> rejection_free (bind m k).
Proof.
  intros Hm Hk w o. unfold bind. specialize (Hm w o).
  destruct (m w) as [[x|err] w']; simpl in *; [apply Hk|congruence].
Qed.

End Blind.

Lemma blind_readUInt8 (buf : list Z) (i : nat) : transport_blind (readUInt8 buf i).
Proof. intros w a. unfold readUInt8. now destruct (nth_error buf i). Qed.

Lemma blind_readUInt16LE (buf : list Z) (i : nat) : transport_blind (readUInt16LE buf i).
Proof.
  intros w a. unfold readUInt16LE.
  now destruct (nth_error buf i), (nth_error buf (S i)).
Qed.

Lemma blind_logger_error (m ns : string) : transport_blind (logger_error m ns).
Proof. intros w a. reflexivity. Qed.

Lemma blind_fire_and_forget (o : Op) : transport_blind (fire_and_forget o).
Proof. intros w a. reflexivity. Qed.

Lemma blind_hasAlreadyProcessedMessage (ep : string * Z) (n : Z) :
  transport_blind (hasAlreadyProcessedMessage ep n).
Proof.
  intros w a. unfold hasAlreadyProcessedMessage. simpl.
  now destruct (bool_decide _).
Qed.

Lemma blind_hasValue (ep : string * Z) (k : string) : transport_blind (globalStore.hasValue ep k).
Proof. intros w a. reflexivity. Qed.

Lemma blind_putValue (ep : string * Z) (k : string) (v : Z) :
  transport_blind (globalStore.putValue ep k v).
Proof. intros w a. reflexivity. Qed.

Lemma blind_clearValue (ep : string * Z) (k : string) :
  transport_blind (globalStore.clearValue ep k).
Proof. intros w a. reflexivity. Qed.

Lemma free_readUInt8 (buf : list Z) (i : nat) : rejection_free (readUInt8 buf i).
Proof. intros w o. unfold readUInt8. now destruct (nth_error buf i). Qed.

Lemma free_readUInt16LE (buf : list Z) (i : nat) : rejection_free (readUInt16LE buf i).
Proof.
  intros w o. unfold readUInt16LE.
  now destruct (nth_error buf i), (nth_error buf (S i)).
Qed.

Lemma free_state {A : Type} (m : M A) :
  (forall w, exists x, fst (m w) = Ok x) -> rejection_free m.
Proof. intros H w o. destruct (H w) as [x ->]. discriminate. Qed.

Lemma free_hasAlreadyProcessedMessage (ep : string * Z) (n : Z) :
  rejection_free (hasAlreadyProcessedMessage ep n).
Proof.
  apply free_state. intros w. unfold hasAlreadyProcessedMessage.
  destruct (bool_decide _); eexists; reflexivity.
Qed.

Create HintDb blind.
#[local] Hint Resolve blind_readUInt8 blind_readUInt16LE blind_logger_error
  blind_fire_and_forget blind_hasAlreadyProcessedMessage blind_hasValue blind_putValue
  blind_clearValue : blind.

Ltac blind_step :=
  match goal with
  | |- transport_blind (bind _ _) => apply blind_bind; [|intros ?]
  | |- transport_blind (ret _) => apply blind_ret
  | |- transport_blind (throw _) => apply blind_throw
  | |- transport_blind (if ?c then _ else _) => destruct c
  | |- transport_blind (match ?x with _ => _ end) => destruct x
  | |- transport_blind _ => solve [auto with blind]
  end.

Ltac free_step :=
  match goal with
  | |- rejection_free (bind _ _) => apply free_bind; [|intros ?]
  | |- rejection_free (ret _) => apply free_ret
  | |- rejection_free (if ?c then _ else _) => destruct c
  | |- rejection_free (match ?x with _ => _ end) => destruct x
  | |- rejection_free (readUInt8 _ _) => apply free_readUInt8
  | |- rejection_free (readUInt16LE _ _) => apply free_readUInt16LE
  | |- rejection_free (hasAlreadyProcessedMessage _ _) => apply free_hasAlreadyProcessedMessage
  | |- rejection_free _ => solve [apply free_state; intros ?; eexists; reflexivity]
  end.

Lemma button_press_blind (msg : RawMessage) (options : ConverterOptions) :
  transport_blind (bhius_button_press.convert msg options).
Proof.
  unfold bhius_button_press.convert, bhius_button_press.confirmation_buffer.
  repeat blind_step.
Qed.

Lemma button_press_free (msg : RawMessage) (options : ConverterOptions) :
  rejection_free (bhius_button_press.convert msg options).
Proof.
  unfold bhius_button_press.convert, bhius_button_press.confirmation_buffer.
  repeat free_step.
Qed.

(** C8 (amended). The button-press acknowledgment is fire-and-forget: the
    result of decoding a button press does not depend on the verdicts of
    the transport and is never a rejected command.  The Twinguard alarm
    acknowledgment (alarm codes 0x10 and 0x11) and the daylight-saving read
    response are awaited: the decode invocation returns its patch when the
    transport accepts the operation and throws the rejection, returning no
    patch, when the transport rejects it. *)
Theorem C8_decode_side_effects :
  (forall (msg : RawMessage) (options : ConverterOptions) (w : World) (a : Op -> bool),
      fst (bhius_button_press.convert msg options (with_accepts w a))
      = fst (bhius_button_press.convert msg options w))
  /\ (forall (msg : RawMessage) (options : ConverterOptions) (w : World) (o : Op),
         fst (bhius_button_press.convert msg options w) <> Throw (Rejected o))
  /\ (forall (msg : Message) (w : World) (c : Z),
         assoc "alarmcode" (msg_data msg) = Some c ->
         c = 0x10 \/ c = 0x11 ->
         let ack := CommandResponse (Endpoint (msg_device msg) (msg_endpoint msg))
                      (KName "genAlarms") (KName "alarm")
                      [("alarmcode", VNum c); ("clusterid", VNum 0xe000)]
                      (mkOptions None None (Some 1)) in
         twinguard.genAlarms_convert msg w
         = (if accepts w ack
            then Ok [("siren_state", VStr (if c =? 0x10 then "fire" else "pre_alarm"))]
            else Throw (Rejected ack),
            with_trace w (trace w ++ [ack])))
  /\ (forall (msg : ReadRequest) (w : World),
         In "dstStart" (rq_attributes msg) ->
         let response :=
           ReadResponse (Endpoint (rq_device msg) (rq_endpoint msg))
             (KName (rq_cluster msg)) (rq_zclTransactionSequenceNumber msg)
             [("dstStart", mkRecord 0x0003 0 0x00); ("dstEnd", mkRecord 0x0004 0 0x00);
              ("dstShift", mkRecord 0x0005 0 0x00)] in
         ignoreDst.convert msg w
         = (if accepts w response then Ok tt else Throw (Rejected response),
            with_trace w (trace w ++ [response]))).
Proof.
  split; [|split; [|split]].
  - intros msg options w a. now rewrite button_press_blind.
  - intros msg options w o. apply button_press_free.
  - intros msg w c Hc Hcode. cbv zeta. unfold twinguard.genAlarms_convert. rewrite Hc.
    destruct Hcode as [-> | ->]; simpl; apply await_then_ret.
  - intros msg w Hin. unfold ignoreDst.convert.
    assert (Hex : existsb (String.eqb "dstStart") (rq_attributes msg) = true).
    { apply existsb_exists. exists "dstStart". split; [exact Hin|apply String.eqb_refl]. }
    rewrite Hex. cbv zeta. unfold await, ignoreDst.Zcl_Status_SUCCESS.
    match goal with |- context [accepts w ?o] => destruct (accepts w o) end; reflexivity.
Qed.

Lemma C8_decode_side_effects_witness :
  let w := mkWorld (fun _ => false) [] [] ∅ ∅ ∅ 0%nat in
  let msg := mkMessage "0x000d6f0000000003" 1 "genAlarms" "commandAlarm"
               [("alarmcode", 0x11); ("clusterid", 0xe000)] in
  let ack := CommandResponse (Endpoint "0x000d6f0000000003" 1)
               (KName "genAlarms") (KName "alarm")
               [("alarmcode", VNum 0x11); ("clusterid", VNum 0xe000)]
               (mkOptions None None (Some 1)) in
  assoc "alarmcode" (msg_data msg) = Some 0x11
  /\ (0x11 = 0x10 \/ 0x11 = 0x11)
  /\ twinguard.genAlarms_convert msg w = (Throw (Rejected ack), with_trace w [ack]).
Proof.
  cbv zeta. split; [reflexivity|]. split; [now right|].
  destruct C8_decode_side_effects as (_ & _ & H & _).
  exact (H (mkMessage "0x000d6f0000000003" 1 "genAlarms" "commandAlarm"
              [("alarmcode", 0x11); ("clusterid", 0xe000)])
           (mkWorld (fun _ => false) [] [] ∅ ∅ ∅ 0%nat) 0x11 eq_refl (or_intror eq_refl)).
Defined.

(** ** The button-press decoder on well-formed frames *)

Lemma with_log_nil (w : World) : with_log w (log w ++ []) = w.
Proof. destruct w. unfold with_log. simpl. now rewrite app_nil_r. Qed.

Lemma confirmation_buffer_run (options : ConverterOptions) (w : World) :
  bhius_button_press.confirmation_buffer options w
  = (Ok (chosen_buffer options), with_log w (log w ++ led_response_errors options)).
Proof.
  unfold bhius_button_press.confirmation_buffer, chosen_buffer, led_response_errors.
  destruct (led_response options) as [s|].
  - destruct (Nat.eqb (length (Buffer_from_hex s)) 9); simpl.
    + unfold ret. now rewrite with_log_nil.
    + reflexivity.
  - unfold ret. now rewrite with_log_nil.
Qed.

Lemma convert_well_formed (msg : RawMessage) (options : ConverterOptions) (w : World) :
  (8 <= length (raw_data msg))%nat ->
  bhius_button_press.convert msg options w
  = after_parse msg options (with_log w (log w ++ led_response_errors options)).
Proof.
  intros Hlen. unfold bhius_button_press.convert.
  rewrite (bind_ok _ _ _ _ _ (readUInt8_inside (raw_data msg) 3 w ltac:(lia))).
  rewrite (bind_ok _ _ _ _ _ (readUInt8_inside (raw_data msg) 4 w ltac:(lia))).
  rewrite (bind_ok _ _ _ _ _ (readUInt8_inside (raw_data msg) 5 w ltac:(lia))).
  rewrite (bind_ok _ _ _ _ _ (readUInt16LE_inside (raw_data msg) 6 w ltac:(lia))).
  rewrite (bind_ok _ _ _ _ _ (confirmation_buffer_run options w)).
  reflexivity.
Qed.

Lemma already_processed (endpoint : string * Z) (n : Z) (w : World) :
  was_processed w endpoint n ->
  hasAlreadyProcessedMessage endpoint n w = (Ok true, w).
Proof.
  intros H. unfold hasAlreadyProcessedMessage.
  now rewrite (bool_decide_eq_true_2 _ H).
Qed.

Lemma not_yet_processed (endpoint : string * Z) (n : Z) (w : World) :
  ~ was_processed w endpoint n ->
  hasAlreadyProcessedMessage endpoint n w
  = (Ok false,
     with_processed w (<[endpoint := n :: default [] (processed w !! endpoint)]> (processed w))).
Proof.
  intros H. unfold hasAlreadyProcessedMessage.
  now rewrite (bool_decide_eq_false_2 _ H).
Qed.

Lemma after_dedup_duplicate (msg : RawMessage) (options : ConverterOptions) (w : World) :
  after_dedup msg options true w = (Ok None, w).
Proof. reflexivity. Qed.

Lemma after_dedup_unknown_button (msg : RawMessage) (options : ConverterOptions) (w : World) :
  frame_button msg = None ->
  fst (after_dedup msg options false w) = Ok None
  /\ store (snd (after_dedup msg options false w)) = store w
  /\ trace (snd (after_dedup msg options false w)) = trace w.
Proof. intros H. unfold after_dedup. rewrite H. repeat split. Qed.

Lemma after_dedup_long_press_new
  (msg : RawMessage) (options : ConverterOptions) (w : World) (name : string) :
  frame_button msg = Some name ->
  is_long_press msg = true ->
  store w !! (frame_endpoint msg, name) = None ->
  after_dedup msg options false w
  = (Ok (Some [("action", VStr ("button_" +:+ name +:+ "_longpress"))]),
     with_store w (<[(frame_endpoint msg, name) := frame_duration msg]> (store w))).
Proof.
  intros Hb Hl Hs. unfold after_dedup. rewrite Hb, Hl.
  unfold bind, globalStore.hasValue. rewrite Hs.
  rewrite bool_decide_eq_false_2 by (intros [x Hx]; discriminate).
  reflexivity.
Qed.

Lemma after_dedup_long_press_pending
  (msg : RawMessage) (options : ConverterOptions) (w : World) (name : string) :
  frame_button msg = Some name ->
  is_long_press msg = true ->
  is_Some (store w !! (frame_endpoint msg, name)) ->
  after_dedup msg options false w = (Ok None, w).
Proof.
  intros Hb Hl Hs. unfold after_dedup. rewrite Hb, Hl.
  unfold bind, globalStore.hasValue.
  now rewrite (bool_decide_eq_true_2 _ Hs).
Qed.

Lemma after_dedup_release
  (msg : RawMessage) (options : ConverterOptions) (w : World) (name : string) :
  frame_button msg = Some name ->
  is_long_press msg = false ->
  after_dedup msg options false w
  = (Ok (Some [("action",
                VStr ("button_" +:+ name +:+ "_"
                      +:+ (if negb (frame_longPress msg =? 0)
                           then "longpress_release" else "release")))]),
     with_trace (with_store w (delete (frame_endpoint msg, name) (store w)))
       (trace w ++ [confirmButtonPressed msg options])).
Proof.
  intros Hb Hl. unfold after_dedup. rewrite Hb, Hl. reflexivity.
Qed.

(** Whatever its answer, the continuation leaves the processed sequence
    numbers alone and never throws. *)
Lemma after_dedup_processed
  (msg : RawMessage) (options : ConverterOptions) (dup : bool) (w : World) :
  processed (snd (after_dedup msg options dup w)) = processed w
  /\ exists r, fst (after_dedup msg options dup w) = Ok r.
Proof.
  destruct dup; [split; [reflexivity|now eexists]|].
  destruct (frame_button msg) as [name|] eqn:Hb.
  - destruct (is_long_press msg) eqn:Hl.
    + destruct (store w !! (frame_endpoint msg, name)) as [d|] eqn:Hs.
      * rewrite (after_dedup_long_press_pending msg options w name Hb Hl)
          by (rewrite Hs; now eexists).
        split; [reflexivity|now eexists].
      * rewrite (after_dedup_long_press_new msg options w name Hb Hl Hs).
        split; [reflexivity|now eexists].
    + rewrite (after_dedup_release msg options w name Hb Hl).
      split; [reflexivity|now eexists].
  - unfold after_dedup. rewrite Hb. split; [reflexivity|now eexists].
Qed.

(** ** C4: a repeated sequence number *)

Lemma readUInt8_cases (buf : list Z) (offset : nat) (w : World) :
  (exists b, readUInt8 buf offset w = (Ok b, w))
  \/ readUInt8 buf offset w = (Throw (OutOfRange offset), w).
Proof.
  unfold readUInt8. destruct (nth_error buf offset) as [b|]; [left; now exists b|now right].
Qed.

Lemma readUInt16LE_short (buf : list Z) (offset : nat) (w : World) :
  (length buf <= S offset)%nat ->
  readUInt16LE buf offset w = (Throw (OutOfRange offset), w).
Proof.
  intros H. unfold readUInt16LE.
  assert (E : nth_error buf (S offset) = None) by now apply nth_error_None.
  rewrite E. now destruct (nth_error buf offset).
Qed.

Lemma convert_malformed (msg : RawMessage) (options : ConverterOptions) (w : World) :
  (length (raw_data msg) < 8)%nat ->
  snd (bhius_button_press.convert msg options w) = w.
Proof.
  intros Hlen. unfold bhius_button_press.convert.
  destruct (readUInt8_cases (raw_data msg) 3 w) as [[b3 H3]|H3];
    [rewrite (bind_ok _ _ _ _ _ H3)|now rewrite (bind_throw _ _ _ _ _ H3)].
  destruct (readUInt8_cases (raw_data msg) 4 w) as [[b4 H4]|H4];
    [rewrite (bind_ok _ _ _ _ _ H4)|now rewrite (bind_throw _ _ _ _ _ H4)].
  destruct (readUInt8_cases (raw_data msg) 5 w) as [[b5 H5]|H5];
    [rewrite (bind_ok _ _ _ _ _ H5)|now rewrite (bind_throw _ _ _ _ _ H5)].
  now rewrite (bind_throw _ _ _ _ _
                 (readUInt16LE_short (raw_data msg) 6 w ltac:(lia))).
Qed.

Lemma was_processed_recorded (w : World) (endpoint ep : string * Z) (n m : Z) :
  was_processed w ep m ->
  was_processed
    (with_processed w (<[endpoint := n :: default [] (processed w !! endpoint)]> (processed w)))
    ep m.
Proof.
  unfold was_processed. simpl. intros H.
  destruct (decide (endpoint = ep)) as [->|Hne].
  - rewrite lookup_insert_eq. simpl. now apply list_elem_of_further.
  - now rewrite lookup_insert_ne.
Qed.

Lemma was_processed_fresh (w : World) (endpoint : string * Z) (n : Z) :
  was_processed
    (with_processed w (<[endpoint := n :: default [] (processed w !! endpoint)]> (processed w)))
    endpoint n.
Proof.
  unfold was_processed. simpl. rewrite lookup_insert_eq. simpl. apply list_elem_of_here.
Qed.

Lemma was_processed_ext (w w' : World) (ep : string * Z) (n : Z) :
  processed w' = processed w -> was_processed w ep n -> was_processed w' ep n.
Proof. unfold was_processed. now intros ->. Qed.

(** What the de-duplication check and the continuation leave behind. *)
Lemma after_parse_processed
  (msg : RawMessage) (options : ConverterOptions) (w : World) :
  was_processed (snd (after_parse msg options w)) (frame_endpoint msg) (frame_sequenceNumber msg)
  /\ forall ep n, was_processed w ep n -> was_processed (snd (after_parse msg options w)) ep n.
Proof.
  unfold after_parse.
  destruct (decide (was_processed w (frame_endpoint msg) (frame_sequenceNumber msg))) as [H|H].
  - rewrite (bind_ok _ _ _ _ _ (already_processed _ _ _ H)). simpl. split; [exact H|auto].
  - rewrite (bind_ok _ _ _ _ _ (not_yet_processed _ _ _ H)).
    destruct (after_dedup_processed msg options false
                (with_processed w
                   (<[frame_endpoint msg := frame_sequenceNumber msg
                        :: default [] (processed w !! frame_endpoint msg)]> (processed w))))
      as [Hp _].
    split.
    + eapply was_processed_ext; [exact Hp|]. apply was_processed_fresh.
    + intros ep n Hn. eapply was_processed_ext; [exact Hp|].
      now apply was_processed_recorded.
Qed.

(** The processed sequence numbers only grow, whatever frame arrives. *)
Lemma convert_processed_grows
  (msg : RawMessage) (options : ConverterOptions) (w : World) (ep : string * Z) (n : Z) :
  was_processed w ep n ->
  was_processed (snd (bhius_button_press.convert msg options w)) ep n.
Proof.
  intros H. destruct (le_lt_dec 8 (length (raw_data msg))) as [Hlen|Hlen].
  - rewrite (convert_well_formed msg options w Hlen).
    apply (proj2 (after_parse_processed msg options _)). exact H.
  - now rewrite (convert_malformed msg options w Hlen).
Qed.

Lemma deliver_processed_grows
  (frames : list (RawMessage * ConverterOptions)) (w : World) (ep : string * Z) (n : Z) :
  was_processed w ep n -> was_processed (deliver frames w) ep n.
Proof.
  revert w. induction frames as [|[msg options] rest IH]; intros w H; simpl.
  - exact H.
  - apply IH. now apply convert_processed_grows.
Qed.

Lemma convert_duplicate (msg : RawMessage) (options : ConverterOptions) (w : World) :
  (8 <= length (raw_data msg))%nat ->
  was_processed w (frame_endpoint msg) (frame_sequenceNumber msg) ->
  bhius_button_press.convert msg options w
  = (Ok None, with_log w (log w ++ led_response_errors options)).
Proof.
  intros Hlen H. rewrite (convert_well_formed msg options w Hlen).
  unfold after_parse.
  assert (H' : was_processed (with_log w (log w ++ led_response_errors options))
                 (frame_endpoint msg) (frame_sequenceNumber msg)) by exact H.
  rewrite (bind_ok _ _ _ _ _ (already_processed _ _ _ H')).
  reflexivity.
Qed.

(** A release frame delivered twice, with a [led_response] option of one
    byte: the second invocation returns no patch, but it writes the error
    about the length of the option to the log once more, so the world is
    not left as it was. *)
Lemma C4_duplicate_frame_logs_again : ~ C4_as_stated.
Proof.
  intros H.
  pose proof (H (mkRaw "0x000d6f0000000002" 1 [0x19; 0x2a; 0x10; 0x2a; 0x01; 0x00; 0x00; 0x00])
                (mkRaw "0x000d6f0000000002" 1 [0x19; 0x2a; 0x10; 0x2a; 0x01; 0x00; 0x00; 0x00])
                (mkConverterOptions (Some "ff")) (mkConverterOptions (Some "ff"))
                (mkWorld (fun _ => true) [] [] ∅ ∅ ∅ 0%nat)
                ltac:(simpl; lia) ltac:(simpl; lia) eq_refl eq_refl) as Hsecond.
  cbv zeta in Hsecond.
  apply (f_equal (fun outcome => length (log (snd outcome)))) in Hsecond.
  vm_compute in Hsecond. discriminate.
Qed.

(** C4 (amended). For every pair of well-formed inbound raw button-press
    frames that carry the same sequence number for the same endpoint,
    whatever frames are decoded in between, the second invocation of the
    decoder returns no patch, hands no operation to the transport and
    leaves the long-press registry and the processed sequence numbers
    unchanged.  The log is the only part of the world that can differ: it
    receives the error about a [led_response] option of the wrong length,
    which the decoder reports before the check; with the option absent or
    of nine bytes the world is unchanged altogether. *)
Theorem C4_repeated_sequence_number_at_most_logs
  (first second : RawMessage) (options1 options2 : ConverterOptions)
  (between : list (RawMessage * ConverterOptions)) (w : World) :
  (8 <= length (raw_data first))%nat ->
  (8 <= length (raw_data second))%nat ->
  frame_endpoint first = frame_endpoint second ->
  frame_sequenceNumber first = frame_sequenceNumber second ->
  let before := deliver between (snd (bhius_button_press.convert first options1 w)) in
  let outcome := bhius_button_press.convert second options2 before in
  fst outcome = Ok None
  /\ trace (snd outcome) = trace before
  /\ store (snd outcome) = store before
  /\ processed (snd outcome) = processed before
  /\ deviceMode (snd outcome) = deviceMode before
  /\ log (snd outcome) = (log before ++ led_response_errors options2)%list
  /\ (led_response_errors options2 = [] -> snd outcome = before).
Proof.
  intros Hlen1 Hlen2 Hep Hseq. cbv zeta.
  assert (Hdup : was_processed
                   (deliver between (snd (bhius_button_press.convert first options1 w)))
                   (frame_endpoint second) (frame_sequenceNumber second)).
  { apply deliver_processed_grows. rewrite <- Hep, <- Hseq.
    rewrite (convert_well_formed first options1 w Hlen1).
    apply (proj1 (after_parse_processed first options1 _)). }
  rewrite (convert_duplicate second options2 _ Hlen2 Hdup). simpl.
  do 6 (split; [reflexivity|]).
  intros ->. apply with_log_nil.
Qed.

Lemma C4_repeated_sequence_number_at_most_logs_witness :
  let press := mkRaw "0x000d6f0000000002" 1 [0x19; 0x2a; 0x10; 0x2a; 0x01; 0x00; 0x00; 0x00] in
  let other := mkRaw "0x000d6f0000000002" 1 [0x19; 0x2b; 0x10; 0x2b; 0x02; 0x01; 0x05; 0x00] in
  let options := mkConverterOptions None in
  let w := mkWorld (fun _ => true) [] [] ∅ ∅ ∅ 0%nat in
  let before := deliver [(other, options)] (snd (bhius_button_press.convert press options w)) in
  ((8 <= length (raw_data press))%nat
   /\ frame_endpoint press = frame_endpoint press
   /\ frame_sequenceNumber press = frame_sequenceNumber press)
  /\ fst (bhius_button_press.convert press options before) = Ok None
  /\ snd (bhius_button_press.convert press options before) = before.
Proof.
  cbv zeta. split; [split; [simpl; lia|split; reflexivity]|].
  pose proof (C4_repeated_sequence_number_at_most_logs
                (mkRaw "0x000d6f0000000002" 1 [0x19; 0x2a; 0x10; 0x2a; 0x01; 0x00; 0x00; 0x00])
                (mkRaw "0x000d6f0000000002" 1 [0x19; 0x2a; 0x10; 0x2a; 0x01; 0x00; 0x00; 0x00])
                (mkConverterOptions None) (mkConverterOptions None)
                [(mkRaw "0x000d6f0000000002" 1 [0x19; 0x2b; 0x10; 0x2b; 0x02; 0x01; 0x05; 0x00],
                  mkConverterOptions None)]
                (mkWorld (fun _ => true) [] [] ∅ ∅ ∅ 0%nat)
                ltac:(simpl; lia) ltac:(simpl; lia) eq_refl eq_refl) as H.
  cbv zeta in H. destruct H as (Hr & _ & _ & _ & _ & _ & Hw).
  split; [exact Hr|exact (Hw eq_refl)].
Defined.

(** ** C5: the lifecycle of the pending long-press registry *)

Lemma convert_fresh (msg : RawMessage) (options : ConverterOptions) (w : World) :
  (8 <= length (raw_data msg))%nat ->
  ~ was_processed w (frame_endpoint msg) (frame_sequenceNumber msg) ->
  bhius_button_press.convert msg options w
  = after_dedup msg options false (admitted msg options w).
Proof.
  intros Hlen Hfresh. rewrite (convert_well_formed msg options w Hlen).
  unfold after_parse.
  assert (H' : ~ was_processed (with_log w (log w ++ led_response_errors options))
                   (frame_endpoint msg) (frame_sequenceNumber msg)) by exact Hfresh.
  now rewrite (bind_ok _ _ _ _ _ (not_yet_processed _ _ _ H')).
Qed.

(** Frames that do not pass the check, and frames of an unknown button,
    leave the registry alone. *)
Lemma registry_untouched (msg : RawMessage) (options : ConverterOptions) (w : World) :
  (8 <= length (raw_data msg))%nat ->
  was_processed w (frame_endpoint msg) (frame_sequenceNumber msg) \/ frame_button msg = None ->
  fst (bhius_button_press.convert msg options w) = Ok None
  /\ store (snd (bhius_button_press.convert msg options w)) = store w.
Proof.
  intros Hlen H.
  destruct (decide (was_processed w (frame_endpoint msg) (frame_sequenceNumber msg)))
    as [Hdup|Hfresh].
  - rewrite (convert_duplicate msg options w Hlen Hdup). split; reflexivity.
  - destruct H as [H|H]; [contradiction|].
    rewrite (convert_fresh msg options w Hlen Hfresh).
    destruct (after_dedup_unknown_button msg options (admitted msg options w) H)
      as (Hr & Hs & _).
    split; [exact Hr|exact Hs].
Qed.



(** ** C3: siren volume on the BSIR-EZ profile *)

Lemma siren_volume_medium_encoded (entity : Entity) (meta : Meta) (w : World) :
  rbshoszbeu.convertSet entity "siren_volume" (VStr "medium") meta w
  = (if accepts w (siren_volume_write entity)
     then Ok (Some [("siren_volume", VStr "medium")])
     else Throw (Rejected (siren_volume_write entity)),
     with_trace w (trace w ++ [siren_volume_write entity])).
Proof.
  unfold rbshoszbeu.convertSet. eval_keys.
  erewrite bind_ok by (apply getFromLookup_inside; reflexivity).
  apply await_then_ret.
Qed.

(** C3. Encoding a set of [siren_volume = "medium"] on the BSIR-EZ profile
    produces exactly one write, carrying the value 0x02 (type 0x20) for
    attribute 0xa002 of cluster 0x0502, and returns the patch
    [{siren_volume: "medium"}] when the write is accepted; a get of
    [siren_volume] issues the read of that same attribute.  The response to
    that read finds no decoder: the decode list of the profile names the
    three generic converters [fz.ias_alarm_only_alarm_1], [fz.battery] and
    [fz.power_source] only, and neither source file defines a decode
    converter for cluster 0x0502. *)
Theorem C3_siren_volume_medium (entity : Entity) (meta : Meta) (w : World) :
  rbshoszbeu.convertSet entity "siren_volume" (VStr "medium") meta w
  = (if accepts w (siren_volume_write entity)
     then Ok (Some [("siren_volume", VStr "medium")])
     else Throw (Rejected (siren_volume_write entity)),
     with_trace w (trace w ++ [siren_volume_write entity]))
  /\ rbshoszbeu.convertGet entity "siren_volume" meta w
     = (if accepts w (siren_volume_read entity) then Ok tt
        else Throw (Rejected (siren_volume_read entity)),
        with_trace w (trace w ++ [siren_volume_read entity])).
Proof.
  split.
  - apply siren_volume_medium_encoded.
  - unfold rbshoszbeu.convertGet. eval_keys.
    unfold await, siren_volume_read.
    now destruct (accepts w (Read entity (KId 0x0502) [KId 0xa002] manufacturerOptions)).
Qed.

(** * Further properties of the converters *)

(** ** Hexadecimal strings and buffers *)

Lemma hex_char_digit (n : Z) :
  0 <= n < 16 ->
  exists c : ascii, hex_char n = String c EmptyString /\ hex_digit c = Some n.
Proof.
  intros H.
  assert (Hm : (Z.to_nat n < 16)%nat) by lia.
  rewrite <- (Z2Nat.id n) by lia.
  clear H. revert Hm. generalize (Z.to_nat n) as m. clear n.
  intros m Hm.
  do 16 (destruct m as [|m]; [eexists; split; reflexivity|]).
  lia.
Qed.

Lemma toString_hex_cons (b : Z) (rest : list Z) :
  is_byte b ->
  exists c1 c2 : ascii,
    toString_hex (b :: rest) = String c1 (String c2 (toString_hex rest))
    /\ hex_digit c1 = Some (b / 16) /\ hex_digit c2 = Some (b mod 16).
Proof.
  intros Hb. unfold is_byte in Hb.
  destruct (hex_char_digit (b / 16)) as (c1 & E1 & D1).
  { split; [apply Z.div_pos; lia|apply Z.div_lt_upper_bound; lia]. }
  destruct (hex_char_digit (b mod 16)) as (c2 & E2 & D2).
  { apply Z.mod_pos_bound. lia. }
  exists c1, c2. simpl. rewrite E1, E2. simpl. auto.
Qed.

(** Decoding the hexadecimal rendering of a buffer gives the buffer back. *)
Lemma Buffer_from_hex_toString (buf : list Z) :
  Forall is_byte buf -> Buffer_from_hex (toString_hex buf) = buf.
Proof.
  induction 1 as [|b rest Hb _ IH]; [reflexivity|].
  destruct (toString_hex_cons b rest Hb) as (c1 & c2 & E & D1 & D2).
  rewrite E. simpl. rewrite D1, D2, IH. f_equal.
  unfold is_byte in Hb. rewrite (Z.div_mod b 16) at 3 by lia. reflexivity.
Qed.

(** ** The LED configuration of the Universal Switch II *)

Lemma buttonMap_distinct :
  NoDup (Object_keys buttonMap) /\ NoDup (Object_values buttonMap)
  /\ NoDup (map fz_bhius_config.property_of (Object_values buttonMap)).
Proof.
  repeat split; apply (bool_decide_unpack _); vm_compute; exact I.
Qed.

Lemma property_of_declared (key : string) (id : Z) :
  assoc key buttonMap = Some id -> fz_bhius_config.property_of id = key.
Proof.
  intros H. unfold fz_bhius_config.property_of.
  destruct buttonMap_distinct as (Hk & Hv & _).
  now rewrite (find_key_encode buttonMap Hv key id H).
Qed.

Lemma declared_of_value (id : Z) :
  In id (Object_values buttonMap) ->
  assoc (fz_bhius_config.property_of id) buttonMap = Some id.
Proof.
  intros Hin. unfold Object_values in Hin. apply in_map_iff in Hin as ([k i] & E & Hin).
  simpl in E. subst i.
  destruct buttonMap_distinct as (Hk & _ & _).
  pose proof (In_assoc buttonMap Hk k id Hin) as Ha.
  now rewrite (property_of_declared k id Ha).
Qed.

Lemma led_fold_keeps (data : list (Z * list Z)) (ids : list Z) (acc : KeyValue) (k : string) :
  ~ In k (map fz_bhius_config.property_of ids) ->
  assoc k (fold_left (led_step data) ids acc) = assoc k acc.
Proof.
  revert acc. induction ids as [|id ids IH]; intros acc Hnot; [reflexivity|].
  simpl in *. rewrite IH by tauto. unfold led_step.
  destruct (data_buffer id data); [|reflexivity].
  apply assoc_assign_other. intros ->. tauto.
Qed.

Lemma led_fold_complete (data : list (Z * list Z)) (ids : list Z) (acc : KeyValue)
  (id : Z) (buf : list Z) :
  NoDup (map fz_bhius_config.property_of ids) ->
  In id ids ->
  data_buffer id data = Some buf ->
  assoc (fz_bhius_config.property_of id) (fold_left (led_step data) ids acc)
  = Some (VStr (toString_hex buf)).
Proof.
  revert acc. induction ids as [|id0 ids IH]; intros acc Hnd Hin Hbuf; [destruct Hin|].
  simpl in Hnd. pose proof (NoDup_cons_1_1 _ _ Hnd) as Hfresh.
  apply NoDup_cons_1_2 in Hnd. simpl.
  destruct Hin as [->|Hin].
  - rewrite led_fold_keeps by (rewrite <- list_elem_of_In; exact Hfresh).
    unfold led_step. rewrite Hbuf. apply assoc_assign_same.
  - now apply IH.
Qed.

Lemma led_fold_sound (data : list (Z * list Z)) (ids : list Z) (acc : KeyValue)
  (k : string) (v : value) :
  assoc k (fold_left (led_step data) ids acc) = Some v ->
  assoc k acc = Some v
  \/ exists id buf, In id ids /\ fz_bhius_config.property_of id = k
                    /\ data_buffer id data = Some buf /\ v = VStr (toString_hex buf).
Proof.
  revert acc. induction ids as [|id ids IH]; intros acc H; [now left|].
  simpl in H. destruct (IH _ H) as [Hacc|(id' & buf & Hin & Hp & Hb & Hv)].
  - unfold led_step in Hacc. destruct (data_buffer id data) as [buf|] eqn:Hb; [|now left].
    destruct (String.eqb_spec k (fz_bhius_config.property_of id)) as [->|Hne].
    + rewrite assoc_assign_same in Hacc. injection Hacc as <-.
      right. exists id, buf. simpl. auto.
    + rewrite assoc_assign_other in Hacc by exact Hne. now left.
  - right. exists id', buf. simpl. auto.
Qed.

(** X1. The decoder of the LED configuration reports a property exactly
    for the declared keys whose attribute the message carries, with the
    lower-case hexadecimal rendering of the buffer as value; attributes
    that are not in the button map are ignored. *)
Theorem led_config_decoded (msg : BufferMessage) (key : string) (v : value) :
  assoc key (fz_bhius_config.convert msg) = Some v
  <-> exists id buf, assoc key buttonMap = Some id
                     /\ data_buffer id (bm_data msg) = Some buf
                     /\ v = VStr (toString_hex buf).
Proof.
  unfold fz_bhius_config.convert.
  change (fold_left _ (Object_values buttonMap) [])
    with (fold_left (led_step (bm_data msg)) (Object_values buttonMap) []).
  split.
  - intros H. destruct (led_fold_sound _ _ _ _ _ H) as [Hacc|(id & buf & Hin & Hp & Hb & Hv)].
    + discriminate.
    + exists id, buf. subst key. split; [now apply declared_of_value|auto].
  - intros (id & buf & Hk & Hb & ->).
    rewrite <- (property_of_declared key id Hk).
    apply led_fold_complete; [apply buttonMap_distinct| |exact Hb].
    apply assoc_In in Hk. apply (in_map snd) in Hk. exact Hk.
Qed.

Lemma led_config_wrong_length
  (entity : Entity) (key : string) (id : Z) (s : string) (meta : Meta) (w : World) :
  assoc key buttonMap = Some id ->
  length (Buffer_from_hex s) <> 9%nat ->
  bhius_config.convertSet entity key (VStr s) meta w
  = (Throw (Thrown ("Invalid configuration length: "
                    +:+ pretty (length (Buffer_from_hex s)) +:+ " (should be 9)")),
     w).
Proof.
  intros Hkey Hlen. unfold bhius_config.convertSet. rewrite Hkey.
  unfold bind at 1. unfold ret at 1.
  apply Nat.eqb_neq in Hlen. rewrite Hlen. reflexivity.
Qed.

(** X2. Setting a declared LED key to the hexadecimal string that the
    decoder reported for a nine-byte buffer writes exactly that buffer, as
    an octet string, to the attribute of the key; a string that decodes to
    any other number of bytes throws before anything is written. *)
Theorem led_config_set (entity : Entity) (key : string) (id : Z) (meta : Meta) (w : World) :
  assoc key buttonMap = Some id ->
  (forall buf : list Z,
      Forall is_byte buf -> length buf = 9%nat ->
      let written := Write entity (KName "boschSpecific")
                       [(KId id, Typed (VBuffer buf) 65)] manufacturerOptions in
      bhius_config.convertSet entity key (VStr (toString_hex buf)) meta w
      = (if accepts w written then Ok (Some [(key, VStr (toString_hex buf))])
         else Throw (Rejected written),
         with_trace w (trace w ++ [written])))
  /\ (forall s : string,
         length (Buffer_from_hex s) <> 9%nat ->
         bhius_config.convertSet entity key (VStr s) meta w
         = (Throw (Thrown ("Invalid configuration length: "
                           +:+ pretty (length (Buffer_from_hex s)) +:+ " (should be 9)")),
            w)).
Proof.
  intros Hkey. split.
  - intros buf Hbytes Hlen. cbv zeta. unfold bhius_config.convertSet. rewrite Hkey.
    unfold bind at 1. unfold ret at 1.
    rewrite (Buffer_from_hex_toString buf Hbytes), Hlen. simpl negb. cbv iota.
    apply await_then_ret.
  - intros s Hlen. now apply (led_config_wrong_length entity key id s meta w Hkey).
Qed.

Lemma led_config_set_witness :
  let entity := Endpoint "0x000d6f0000000002" 1 in
  let meta := mkMeta "0x000d6f0000000002" [] in
  let w := mkWorld (fun _ => true) [] [] ∅ ∅ ∅ 0%nat in
  assoc "config_led_top_left_press" buttonMap = Some 0x10
  /\ bhius_config.convertSet entity "config_led_top_left_press"
       (VStr "ff1493000104010001") meta w
     = (Ok (Some [("config_led_top_left_press", VStr "ff1493000104010001")]),
        with_trace w [Write entity (KName "boschSpecific")
                        [(KId 0x10, Typed (VBuffer [255; 20; 147; 0; 1; 4; 1; 0; 1]) 65)]
                        manufacturerOptions])
  /\ bhius_config.convertSet entity "config_led_top_left_press" (VStr "ff14") meta w
     = (Throw (Thrown "Invalid configuration length: 2 (should be 9)"), w).
Proof.
  cbv zeta. split; [reflexivity|].
  destruct (led_config_set (Endpoint "0x000d6f0000000002" 1) "config_led_top_left_press" 0x10
              (mkMeta "0x000d6f0000000002" [])
              (mkWorld (fun _ => true) [] [] ∅ ∅ ∅ 0%nat) eq_refl) as [Hok Hbad].
  split.
  - apply (Hok [255; 20; 147; 0; 1; 4; 1; 0; 1]); [|reflexivity].
    repeat constructor; unfold is_byte; lia.
  - apply (Hbad "ff14"). simpl. lia.
Defined.

(** ** The outdoor siren: set and get *)

Lemma await_run (o : Op) (w : World) : await o w = one_operation o tt w.
Proof. unfold await, one_operation. now destruct (accepts w o). Qed.

Lemma in_lookup_inside (v : value) (t : Lookup) :
  in_lookup v t = true -> exists s code, v = VStr s /\ assoc s t = Some code.
Proof.
  destruct v as [| | | |s|]; simpl; try discriminate.
  unfold hasOwnProperty. destruct (assoc s t) as [code|] eqn:E; [|discriminate].
  intros _. now exists s, code.
Qed.

(** X3. For each of the six siren settings that live on cluster 0x0502
    and every admissible value, [convertSet] issues one write to the
    attribute of the setting and echoes the requested value as the patch
    when the write is accepted, and [convertGet] reads that same attribute
    of that same cluster. *)
Theorem siren_set_and_get_same_attribute
  (entity : Entity) (key : string) (attr : Z) (v : value) (meta : Meta) (w : World) :
  assoc key siren_settings = Some attr ->
  siren_admissible key v = true ->
  (exists payload : AttrPayload,
      rbshoszbeu.convertSet entity key v meta w
      = one_operation (Write entity (KId 0x0502) [(KId attr, payload)] manufacturerOptions)
          (Some [(key, v)]) w)
  /\ rbshoszbeu.convertGet entity key meta w
     = one_operation (Read entity (KId 0x0502) [KId attr] manufacturerOptions) tt w.
Proof.
  intros Hkey Hadm. unfold siren_settings, assoc in Hkey.
  unfold siren_admissible in Hadm.
  revert Hkey Hadm. key_cases key; intros Hkey Hadm; try discriminate;
    injection Hkey as <-;
    (split; [|unfold rbshoszbeu.convertGet; eval_keys; apply await_run]);
    unfold rbshoszbeu.convertSet; eval_keys.
  - eexists. apply await_then_ret.
  - eexists. apply await_then_ret.
  - eexists. apply await_then_ret.
  - eexists. apply await_then_ret.
  - destruct (in_lookup_inside _ _ Hadm) as (s & code & -> & Hs).
    rewrite (bind_ok _ _ _ _ _ (getFromLookup_inside s sirenLight code w Hs)).
    eexists. apply await_then_ret.
  - destruct (in_lookup_inside _ _ Hadm) as (s & code & -> & Hs).
    rewrite (bind_ok _ _ _ _ _ (getFromLookup_inside s sirenVolume code w Hs)).
    eexists. apply await_then_ret.
Qed.

Lemma siren_set_and_get_same_attribute_witness :
  let entity := Endpoint "0x000d6f0000000001" 1 in
  let meta := mkMeta "0x000d6f0000000001" [] in
  let w := mkWorld (fun _ => true) [] [] ∅ ∅ ∅ 0%nat in
  (assoc "siren_and_light" siren_settings = Some 0xa001
   /\ siren_admissible "siren_and_light" (VStr "only_siren") = true)
  /\ (exists payload : AttrPayload,
         rbshoszbeu.convertSet entity "siren_and_light" (VStr "only_siren") meta w
         = one_operation (Write entity (KId 0x0502) [(KId 0xa001, payload)] manufacturerOptions)
             (Some [("siren_and_light", VStr "only_siren")]) w)
  /\ rbshoszbeu.convertGet entity "siren_and_light" meta w
     = one_operation (Read entity (KId 0x0502) [KId 0xa001] manufacturerOptions) tt w.
Proof.
  cbv zeta. split; [split; reflexivity|].
  exact (siren_set_and_get_same_attribute (Endpoint "0x000d6f0000000001" 1) "siren_and_light"
           0xa001 (VStr "only_siren") (mkMeta "0x000d6f0000000001" [])
           (mkWorld (fun _ => true) [] [] ∅ ∅ ∅ 0%nat) eq_refl eq_refl).
Defined.

(** X4. The [convertGet] of the outdoor siren serves every key of its
    declared key list with exactly one read, except [power_source]: that
    key is declared, and set by a write to cluster 0x0001, but a get of it
    throws the unhandled-key error and issues nothing. *)
Theorem siren_get_declared_keys (key : string) :
  In key rbshoszbeu.key ->
  (key <> "power_source" -> serves rbshoszbeu.convertGet key)
  /\ (key = "power_source" ->
      forall (entity : Entity) (meta : Meta) (w : World),
        rbshoszbeu.convertGet entity key meta w
        = (Throw (Thrown "Unhandled key toZigbee.rbshoszbeu.convertGet power_source"), w)).
Proof.
  intros Hin. unfold rbshoszbeu.key in Hin. simpl in Hin.
  split.
  - intros Hne entity meta w. unfold rbshoszbeu.convertGet.
    repeat (destruct Hin as [<-|Hin];
            [first [now (exfalso; apply Hne)
                   |eval_keys; eexists; split; [|apply await_run]; reflexivity]|]).
    destruct Hin.
  - intros -> entity meta w. reflexivity.
Qed.

Lemma siren_get_declared_keys_witness :
  In "power_source" rbshoszbeu.key
  /\ rbshoszbeu.convertGet (Endpoint "0x000d6f0000000001" 1) "power_source"
       (mkMeta "0x000d6f0000000001" []) (mkWorld (fun _ => true) [] [] ∅ ∅ ∅ 0%nat)
     = (Throw (Thrown "Unhandled key toZigbee.rbshoszbeu.convertGet power_source"),
        mkWorld (fun _ => true) [] [] ∅ ∅ ∅ 0%nat).
Proof.
  assert (Hin : In "power_source" rbshoszbeu.key).
  { rewrite <- list_elem_of_In. apply (bool_decide_unpack _). vm_compute. exact I. }
  split; [exact Hin|].
  exact (proj2 (siren_get_declared_keys "power_source" Hin) eq_refl
           (Endpoint "0x000d6f0000000001" 1) (mkMeta "0x000d6f0000000001" [])
           (mkWorld (fun _ => true) [] [] ∅ ∅ ∅ 0%nat)).
Defined.

(** X5. The [convertGet] of the Twinguard, of the smoke alarm and of the
    Universal Switch II LED configuration serve every key of their declared
    key lists with exactly one read. *)
Theorem get_serves_declared_keys (key : string) :
  (In key twinguard.key -> serves twinguard.convertGet key)
  /\ (In key smokeAlarm.key -> serves smokeAlarm.convertGet key)
  /\ (In key bhius_config.key -> serves bhius_config.convertGet key).
Proof.
  split; [|split]; intros Hin entity meta w.
  - unfold twinguard.key in Hin. simpl in Hin. unfold twinguard.convertGet.
    repeat (destruct Hin as [<-|Hin]; [eval_keys; simpl orb; cbv iota; eexists;
                                       split; [|apply await_run]; reflexivity|]).
    destruct Hin.
  - unfold smokeAlarm.key in Hin. simpl in Hin. unfold smokeAlarm.convertGet.
    repeat (destruct Hin as [<-|Hin]; [eval_keys; simpl orb; cbv iota; eexists;
                                       split; [|apply await_run]; reflexivity|]).
    destruct Hin.
  - unfold bhius_config.key, buttonMap, Object_keys in Hin. simpl in Hin.
    unfold bhius_config.convertGet.
    repeat (destruct Hin as [<-|Hin]; [eexists; split; [|apply await_run]; reflexivity|]).
    destruct Hin.
Qed.

Lemma get_serves_declared_keys_witness :
  In "heartbeat" twinguard.key /\ serves twinguard.convertGet "heartbeat".
Proof.
  assert (Hin : In "heartbeat" twinguard.key).
  { rewrite <- list_elem_of_In. apply (bool_decide_unpack _). vm_compute. exact I. }
  split; [exact Hin|].
  exact (proj1 (get_serves_declared_keys "heartbeat") Hin).
Defined.

(** ** Lookup tables: distinct symbols, distinct codes *)

Lemma encode_tables_distinct :
  Forall (fun t : Lookup => NoDup (Object_keys t) /\ NoDup (Object_values t)) encode_tables.
Proof.
  unfold encode_tables.
  repeat (apply List.Forall_cons;
          [split; apply (bool_decide_unpack _); vm_compute; exact I|]).
  apply List.Forall_nil.
Qed.

(** X6. In every lookup table used for encoding, two symbols that encode
    to the same wire code are the same symbol, so the search for the symbol
    of a code, where a decoder uses it, inverts the encoding in both
    directions. *)
Theorem encoding_is_injective (t : Lookup) (s1 s2 : string) (code : Z) :
  In t encode_tables ->
  assoc s1 t = Some code ->
  (assoc s2 t = Some code -> s1 = s2)
  /\ find_key t code = VStr s1
  /\ (forall s, find_key t code = VStr s -> assoc s t = Some code).
Proof.
  intros Hin H1.
  pose proof encode_tables_distinct as Hd. rewrite List.Forall_forall in Hd.
  destruct (Hd t Hin) as [Hk Hv].
  split; [|split].
  - intros H2. apply (code_determines_key t Hv s1 s2 code); now apply assoc_In.
  - now apply find_key_encode.
  - intros s. apply find_key_decode.
Qed.

Lemma encoding_is_injective_witness :
  In bmct.stateDeviceMode encode_tables
  /\ assoc "shutter" bmct.stateDeviceMode = Some 0x01
  /\ find_key bmct.stateDeviceMode 0x01 = VStr "shutter".
Proof.
  assert (Hin : In bmct.stateDeviceMode encode_tables).
  { unfold encode_tables. simpl. tauto. }
  split; [exact Hin|]. split; [reflexivity|].
  exact (proj1 (proj2 (encoding_is_injective bmct.stateDeviceMode "shutter" "shutter" 0x01
                         Hin eq_refl))).
Defined.

(** ** Round trips through the wire *)

(** X7. The on/off settings of the Twinguard make the round trip: setting
    [pre_alarm] or [heartbeat] to a symbol of [stateOffOn] writes its code
    ([heartbeat] always to endpoint 12 of the device), and a report that
    carries this code is decoded to the symbol that was set. *)
Theorem twinguard_on_off_round_trip
  (entity : Entity) (meta : Meta) (w : World) (s : string) (code : Z) (report : Message) :
  assoc s twinguard.stateOffOn = Some code ->
  twinguard.convertSet entity "pre_alarm" (VStr s) meta w
  = one_operation (Write entity (KName "twinguardOptions")
                     [(KName "pre_alarm", Plain (VNum code))] noOptions)
      (Some [("pre_alarm", VStr s)]) w
  /\ twinguard.convertSet entity "heartbeat" (VStr s) meta w
     = one_operation (Write (Endpoint (meta_device meta) 12) (KName "twinguardSetup")
                        [(KName "heartbeat", Plain (VNum code))] noOptions)
         (Some [("heartbeat", VStr s)]) w
  /\ (assoc "pre_alarm" (msg_data report) = Some code ->
      twinguard.options_convert report = [("pre_alarm", VStr s)])
  /\ (assoc "heartbeat" (msg_data report) = Some code ->
      twinguard.setup_convert report = [("heartbeat", VStr s)]).
Proof.
  intros Hs. split; [|split; [|split]].
  - unfold twinguard.convertSet. eval_keys.
    rewrite (bind_ok _ _ _ _ _ (getFromLookup_inside s _ code w Hs)).
    apply await_then_ret.
  - unfold twinguard.convertSet. eval_keys.
    rewrite (bind_ok _ _ _ _ _ (getFromLookup_inside s _ code w Hs)).
    apply await_then_ret.
  - intros Hr. unfold twinguard.options_convert. rewrite Hr.
    now rewrite (stateOffOn_index_inverse s code Hs).
  - intros Hr. unfold twinguard.setup_convert. rewrite Hr.
    now rewrite (stateOffOn_index_inverse s code Hs).
Qed.

Lemma twinguard_on_off_round_trip_witness :
  let entity := Endpoint "0x000d6f0000000003" 1 in
  let meta := mkMeta "0x000d6f0000000003" [] in
  let w := mkWorld (fun _ => true) [] [] ∅ ∅ ∅ 0%nat in
  assoc "ON" twinguard.stateOffOn = Some 0x01
  /\ twinguard.convertSet entity "heartbeat" (VStr "ON") meta w
     = (Ok (Some [("heartbeat", VStr "ON")]),
        with_trace w [Write (Endpoint "0x000d6f0000000003" 12) (KName "twinguardSetup")
                        [(KName "heartbeat", Plain (VNum 1))] noOptions]).
Proof.
  cbv zeta. split; [reflexivity|].
  exact (proj1 (proj2 (twinguard_on_off_round_trip (Endpoint "0x000d6f0000000003" 1)
                         (mkMeta "0x000d6f0000000003" [])
                         (mkWorld (fun _ => true) [] [] ∅ ∅ ∅ 0%nat) "ON" 0x01
                         (mkMessage "0x000d6f0000000003" 12 "twinguardSetup" "readResponse"
                            [("heartbeat", 1)]) eq_refl))).
Defined.

(** X8. The mode and the switch type of the BMCT make the round trip:
    setting [device_mode] to a symbol writes its code and then reads the
    attribute back, setting [switch_type] writes its code, and the read
    response that carries the written code is decoded to the symbol that
    was set. *)
Theorem bmct_mode_round_trip
  (postfixWithEndpointName : string -> Message -> string)
  (cover_state on_off : Entity -> string -> value -> Meta -> M unit)
  (entity : Entity) (meta : Meta) (w : World) (device : string) (ep : Z)
  (s : string) (code : Z) :
  (assoc s bmct.stateDeviceMode = Some code ->
   let write := Write entity (KName "boschSpecific")
                  [(KName "deviceMode", Plain (VNum code))] noOptions in
   let read := Read entity (KName "boschSpecific") [KName "deviceMode"] noOptions in
   bmct.convertSet cover_state on_off entity "device_mode" (VStr s) meta w
   = (if accepts w write
      then if accepts w read then Ok (Some [("device_mode", VStr s)])
           else Throw (Rejected read)
      else Throw (Rejected write),
      with_trace w (trace w ++ write :: (if accepts w write then [read] else [])))
   /\ fst (bmct.fromZigbee_convert postfixWithEndpointName
             (bmct_report device ep "deviceMode" code) w)
      = Ok [("device_mode", VStr s)])
  /\ (assoc s bmct.stateSwitchType = Some code ->
      bmct.convertSet cover_state on_off entity "switch_type" (VStr s) meta w
      = one_operation (Write entity (KName "boschSpecific")
                         [(KName "switchType", Plain (VNum code))] noOptions)
          (Some [("switch_type", VStr s)]) w
      /\ fst (bmct.fromZigbee_convert postfixWithEndpointName
                (bmct_report device ep "switchType" code) w)
         = Ok [("switch_type", VStr s)]).
Proof.
  pose proof bmct_tables_distinct as Hd. rewrite List.Forall_forall in Hd.
  split; intros Hs.
  - destruct (Hd bmct.stateDeviceMode ltac:(simpl; tauto)) as [_ Hv].
    cbv zeta. split.
    + unfold bmct.convertSet. eval_keys. simpl orb. cbv iota.
      unfold bind at 1. unfold ret at 1. unfold bind at 1. unfold ret at 1.
      rewrite (bind_ok _ _ _ _ _ (getFromLookup_inside s _ code w Hs)).
      unfold bind, await, ret. simpl.
      destruct (accepts w (Write _ _ _ _)); simpl; [|reflexivity].
      destruct (accepts w (Read _ _ _ _)); simpl;
        unfold with_trace; simpl; now rewrite <- app_assoc.
    + unfold bmct.fromZigbee_convert, bmct_report. simpl.
      unfold bind, ret, bmct.remember_deviceMode. simpl.
      rewrite (find_key_encode _ Hv s code Hs).
      now destruct (bool_decide _).
  - destruct (Hd bmct.stateSwitchType ltac:(simpl; tauto)) as [_ Hv].
    split.
    + unfold bmct.convertSet. eval_keys. simpl orb. cbv iota.
      unfold bind at 1. unfold ret at 1. unfold bind at 1. unfold ret at 1.
      rewrite (bind_ok _ _ _ _ _ (getFromLookup_inside s _ code w Hs)).
      apply await_then_ret.
    + unfold bmct.fromZigbee_convert, bmct_report. simpl.
      unfold bind, ret. simpl.
      now rewrite (find_key_encode _ Hv s code Hs).
Qed.

Lemma bmct_mode_round_trip_witness :
  let entity := Endpoint "0x000d6f0000000004" 1 in
  let w := mkWorld (fun _ => true) [] [] ∅ ∅ ∅ 0%nat in
  assoc "shutter" bmct.stateDeviceMode = Some 0x01
  /\ fst (bmct.fromZigbee_convert (fun name _ => name)
            (bmct_report "0x000d6f0000000004" 1 "deviceMode" 0x01) w)
     = Ok [("device_mode", VStr "shutter")].
Proof.
  cbv zeta. split; [reflexivity|].
  exact (proj2 (proj1 (bmct_mode_round_trip (fun name _ => name)
                         (fun _ _ _ _ => ret tt) (fun _ _ _ _ => ret tt)
                         (Endpoint "0x000d6f0000000004" 1) (mkMeta "0x000d6f0000000004" [])
                         (mkWorld (fun _ => true) [] [] ∅ ∅ ∅ 0%nat)
                         "0x000d6f0000000004" 1 "shutter" 0x01) eq_refl)).
Defined.

(** ** The exposes-changed signal and the exposed set of the BMCT-SLZ *)




(** X10. Whatever mode is stored, the BMCT-SLZ profile exposes
    [linkquality]; it exposes [device_mode] exactly when the stored mode
    selects neither the light nor the cover descriptors (no device, no
    stored mode, [disabled] or an unknown code), and [switch_type] exactly
    when it selects one of them. *)
Theorem bmct_slz_mode_descriptor (device : option Device) :
  In (e e_linkquality) (BMCT_SLZ.exposes device)
  /\ exposes_name "device_mode" (BMCT_SLZ.exposes device) = negb (mode_selected device)
  /\ exposes_name "switch_type" (BMCT_SLZ.exposes device) = mode_selected device.
Proof.
  destruct device as [[[code|]]|]; try solve [repeat split; simpl; auto].
  destruct (Z.eqb_spec 4 code) as [<-|H4]; [repeat split; simpl; auto|].
  destruct (Z.eqb_spec 1 code) as [<-|H1]; [repeat split; simpl; auto|].
  assert (E4 : (code =? 4) = false) by (apply Z.eqb_neq; congruence).
  assert (E1 : (code =? 1) = false) by (apply Z.eqb_neq; congruence).
  assert (E4' : (4 =? code) = false) by (apply Z.eqb_neq; congruence).
  assert (E1' : (1 =? code) = false) by (apply Z.eqb_neq; congruence).
  unfold mode_selected. cbn [stored_deviceMode]. rewrite E4, E1.
  unfold BMCT_SLZ.exposes, find_key. cbn [stored_deviceMode].
  cbn [BMCT_SLZ.stateDeviceMode Object_keys map fst List.find assoc String.eqb Ascii.eqb
       Bool.eqb].
  rewrite E4', E1'.
  destruct (0 =? code); repeat split; simpl; auto.
Qed.

(** ** The daylight-saving read request *)

(** X11. The daylight-saving decoder answers a read request only when it
    lists [dstStart]: a request for any other attributes, [dstEnd] and
    [dstShift] among them, gets no response and changes nothing. *)
Theorem ignoreDst_needs_dstStart (msg : ReadRequest) (w : World) :
  ~ In "dstStart" (rq_attributes msg) ->
  ignoreDst.convert msg w = (Ok tt, w).
Proof.
  intros Hnot. unfold ignoreDst.convert.
  destruct (existsb (String.eqb "dstStart") (rq_attributes msg)) eqn:E; [|reflexivity].
  apply existsb_exists in E as (x & Hin & Hx). apply String.eqb_eq in Hx. subst x.
  contradiction.
Qed.

Lemma ignoreDst_needs_dstStart_witness :
  let msg := mkReadRequest "0x18fc260000000001" 1 "genTime" ["dstEnd"; "dstShift"] 7 in
  let w := mkWorld (fun _ => true) [] [] ∅ ∅ ∅ 0%nat in
  ~ In "dstStart" (rq_attributes msg) /\ ignoreDst.convert msg w = (Ok tt, w).
Proof.
  cbv zeta.
  assert (Hnot : ~ In "dstStart" ["dstEnd"; "dstShift"]).
  { rewrite <- list_elem_of_In. apply (bool_decide_unpack _). vm_compute. exact I. }
  split; [exact Hnot|].
  exact (ignoreDst_needs_dstStart
           (mkReadRequest "0x18fc260000000001" 1 "genTime" ["dstEnd"; "dstShift"] 7)
           (mkWorld (fun _ => true) [] [] ∅ ∅ ∅ 0%nat) Hnot).
Defined.

(** ** Bit fields of the zone status and of the alarm status *)

Lemma ToInt32_small (z : Z) : - 2 ^ 31 <= z < 2 ^ 31 -> ToInt32 z = z.
Proof.
  intros H. unfold ToInt32.
  rewrite Z.mod_small by lia. lia.
Qed.

Lemma land_pow2 (z i : Z) :
  0 <= i -> Z.land z (2 ^ i) = if Z.testbit z i then 2 ^ i else 0.
Proof.
  intros Hi. apply Z.bits_inj'. intros n Hn.
  rewrite Z.land_spec, Z.pow2_bits_eqb by exact Hi.
  destruct (Z.eqb_spec i n) as [->|Hne].
  - destruct (Z.testbit z n) eqn:E; simpl.
    + rewrite Z.pow2_bits_true by exact Hn. reflexivity.
    + now rewrite Z.bits_0.
  - rewrite andb_false_r. destruct (Z.testbit z i).
    + rewrite Z.pow2_bits_false by congruence. reflexivity.
    + now rewrite Z.bits_0.
Qed.

(** The test [(z & 1 << i) > 0] reads bit [i] of a non-negative 31-bit
    number. *)
Lemma bit_test (z i : Z) :
  0 <= z < 2 ^ 31 -> 0 <= i < 31 ->
  (0 <? Z.land (ToInt32 z) (2 ^ i)) = Z.testbit z i.
Proof.
  intros Hz Hi. rewrite ToInt32_small by lia.
  rewrite land_pow2 by lia.
  destruct (Z.testbit z i).
  - apply Z.ltb_lt. apply Z.pow_pos_nonneg; lia.
  - reflexivity.
Qed.

Ltac bit_tests Hz :=
  repeat match goal with
         | |- context [0 <? js_and ?z ?m] =>
             let i := eval vm_compute in (Z.log2 m) in
             change (0 <? js_and z m) with (0 <? Z.land (ToInt32 z) (2 ^ i));
             rewrite (bit_test z i Hz ltac:(lia))
         end.

(** X12. The door/window contact decoder reads a 16-bit zone status bit
    by bit: [contact] is the negation of bit 0, [vibration], [tamper] and
    [battery_low] are bits 1, 2 and 3.  The action is the two-bit field at
    bits 11 and 12: code 0 gives no [action] key at all, codes 1 and 2 give
    [single] and [long], and code 3 leaves the key with [undefined]. *)
Theorem doorWindowContact_bits (msg : Message) :
  hasOwnProperty (msg_data msg) "zoneStatus" || hasOwnProperty (msg_data msg) "zonestatus"
    = true ->
  0 <= zoneStatus_of msg < 2 ^ 16 ->
  exists patch : KeyValue,
    doorWindowContact.convert msg = Some patch
    /\ assoc "contact" patch = Some (VBool (negb (Z.testbit (zoneStatus_of msg) 0)))
    /\ assoc "vibration" patch = Some (VBool (Z.testbit (zoneStatus_of msg) 1))
    /\ assoc "tamper" patch = Some (VBool (Z.testbit (zoneStatus_of msg) 2))
    /\ assoc "battery_low" patch = Some (VBool (Z.testbit (zoneStatus_of msg) 3))
    /\ assoc "action" patch
       = match (zoneStatus_of msg / 2 ^ 11) mod 4 with
         | 0 => None
         | 1 => Some (VStr "single")
         | 2 => Some (VStr "long")
         | _ => Some VUndefined
         end.
Proof.
  intros Hhas Hz. unfold doorWindowContact.convert. rewrite Hhas.
  set (z := zoneStatus_of msg) in *.
  assert (Hz' : 0 <= z < 2 ^ 31) by lia.
  assert (Hfield : js_and (js_shr z 11) 3 = (z / 2 ^ 11) mod 4).
  { unfold js_and, js_shr. rewrite (ToInt32_small z) by lia.
    rewrite Z.shiftr_div_pow2 by lia.
    assert (0 <= z / 2 ^ 11 < 2 ^ 5).
    { split; [apply Z.div_pos; lia|apply Z.div_lt_upper_bound; lia]. }
    rewrite ToInt32_small by lia.
    change (ToInt32 3) with (Z.ones 2). rewrite Z.land_ones by lia. reflexivity. }
  cbv zeta. unfold prop. cbn [assoc String.eqb Ascii.eqb Bool.eqb].
  rewrite Hfield.
  assert (Hm : 0 <= (z / 2 ^ 11) mod 4 < 4) by (apply Z.mod_pos_bound; lia).
  bit_tests Hz'.
  assert (Hc : (z / 2 ^ 11) mod 4 = 0 \/ (z / 2 ^ 11) mod 4 = 1
               \/ (z / 2 ^ 11) mod 4 = 2 \/ (z / 2 ^ 11) mod 4 = 3) by lia.
  destruct Hc as [-> | [-> | [-> | ->]]]; eexists; (split; [reflexivity|]);
    repeat split.
Qed.

Lemma doorWindowContact_bits_witness :
  let msg := mkMessage "0x000d6f0000000005" 1 "ssIasZone" "commandStatusChangeNotification"
               [("zonestatus", 0x0805)] in
  (hasOwnProperty (msg_data msg) "zoneStatus" || hasOwnProperty (msg_data msg) "zonestatus"
     = true
   /\ 0 <= zoneStatus_of msg < 2 ^ 16)
  /\ exists patch : KeyValue,
       doorWindowContact.convert msg = Some patch
       /\ assoc "contact" patch = Some (VBool false)
       /\ assoc "tamper" patch = Some (VBool true)
       /\ assoc "action" patch = Some (VStr "single").
Proof.
  cbv zeta. split; [split; [reflexivity|vm_compute; split; [discriminate|reflexivity]]|].
  destruct (doorWindowContact_bits
              (mkMessage "0x000d6f0000000005" 1 "ssIasZone" "commandStatusChangeNotification"
                 [("zonestatus", 0x0805)]) eq_refl
              ltac:(vm_compute; split; [discriminate|reflexivity]))
    as (patch & Hp & Hc & _ & Ht & _ & Ha).
  exists patch. split; [exact Hp|]. split; [exact Hc|]. split; [exact Ht|exact Ha].
Defined.

(** X13. The smoke alarm decoder reads a 16-bit zone status bit by bit:
    [smoke] is bit 0, [alarm_smoke] bit 1, [battery_low] bit 3,
    [alarm_burglar] bit 7, [test] bit 8 and [alarm_silenced] bit 11; a
    message without a zone status yields nothing. *)
Theorem smokeAlarm_bits (msg : Message) :
  (hasOwnProperty (msg_data msg) "zoneStatus" || hasOwnProperty (msg_data msg) "zonestatus"
     = false ->
   smokeAlarm_fromZigbee.convert msg = None)
  /\ (hasOwnProperty (msg_data msg) "zoneStatus" || hasOwnProperty (msg_data msg) "zonestatus"
        = true ->
      0 <= zoneStatus_of msg < 2 ^ 16 ->
      smokeAlarm_fromZigbee.convert msg
      = Some [("smoke", VBool (Z.testbit (zoneStatus_of msg) 0));
              ("alarm_smoke", VBool (Z.testbit (zoneStatus_of msg) 1));
              ("battery_low", VBool (Z.testbit (zoneStatus_of msg) 3));
              ("supervision_reports", VBool (Z.testbit (zoneStatus_of msg) 4));
              ("restore_reports", VBool (Z.testbit (zoneStatus_of msg) 5));
              ("alarm_burglar", VBool (Z.testbit (zoneStatus_of msg) 7));
              ("test", VBool (Z.testbit (zoneStatus_of msg) 8));
              ("alarm_silenced", VBool (Z.testbit (zoneStatus_of msg) 11))]).
Proof.
  unfold smokeAlarm_fromZigbee.convert. split.
  - now intros ->.
  - intros -> Hz. set (z := zoneStatus_of msg) in *.
    assert (Hz' : 0 <= z < 2 ^ 31) by lia.
    cbv zeta. bit_tests Hz'. reflexivity.
Qed.

Lemma smokeAlarm_bits_witness :
  let msg := mkMessage "0x000d6f0000000006" 1 "ssIasZone" "attributeReport"
               [("zoneStatus", 0x0082)] in
  (hasOwnProperty (msg_data msg) "zoneStatus" || hasOwnProperty (msg_data msg) "zonestatus"
     = true
   /\ 0 <= zoneStatus_of msg < 2 ^ 16)
  /\ smokeAlarm_fromZigbee.convert msg
     = Some [("smoke", VBool false); ("alarm_smoke", VBool true);
             ("battery_low", VBool false); ("supervision_reports", VBool false);
             ("restore_reports", VBool false); ("alarm_burglar", VBool true);
             ("test", VBool false); ("alarm_silenced", VBool false)].
Proof.
  cbv zeta. split; [split; [reflexivity|vm_compute; split; [discriminate|reflexivity]]|].
  exact (proj2 (smokeAlarm_bits
                  (mkMessage "0x000d6f0000000006" 1 "ssIasZone" "attributeReport"
                     [("zoneStatus", 0x0082)])) eq_refl
           ltac:(vm_compute; split; [discriminate|reflexivity])).
Defined.

(** X14. The Twinguard alarm decoder reports [self_test] as bit 24 and
    [smoke] as bit 7 of the 32-bit alarm status, and names the siren state
    only for the six known status words.  The flags agree with the name:
    status [self_test] has the self-test flag, [fire] and [pre_alarm] have
    the smoke flag, and [clear], [burglar] and [silenced] have neither
    flag.  Every other status word leaves the siren state [undefined]. *)
Theorem twinguard_alarm_status (msg : Message) (status : Z) :
  assoc "alarm_status" (msg_data msg) = Some status ->
  0 <= status < 2 ^ 32 ->
  exists state : value,
    twinguard.alarm_convert msg
    = [("self_test", VBool (Z.testbit status 24)); ("smoke", VBool (Z.testbit status 7));
       ("siren_state", state)]
    /\ (state = VStr "self_test" -> Z.testbit status 24 = true /\ Z.testbit status 7 = false)
    /\ (state = VStr "fire" \/ state = VStr "pre_alarm" ->
        Z.testbit status 7 = true /\ Z.testbit status 24 = false)
    /\ (state = VStr "clear" \/ state = VStr "burglar" \/ state = VStr "silenced" ->
        Z.testbit status 7 = false /\ Z.testbit status 24 = false)
    /\ (state = VUndefined
        <-> ~ In status [0x00200020; 0x01200020; 0x02200020; 0x00200082; 0x00200081;
                         0x00200040]).
Proof.
  intros Hs Hrange. unfold twinguard.alarm_convert. rewrite Hs. cbv zeta.
  change (Z.shiftl 1 24) with (2 ^ 24). change (Z.shiftl 1 7) with (2 ^ 7).
  rewrite !land_pow2 by lia.
  assert (H24 : (0 <? (if Z.testbit status 24 then 2 ^ 24 else 0)) = Z.testbit status 24)
    by now destruct (Z.testbit status 24).
  assert (H7 : (0 <? (if Z.testbit status 7 then 2 ^ 7 else 0)) = Z.testbit status 7)
    by now destruct (Z.testbit status 7).
  rewrite H24, H7.
  eexists. split; [reflexivity|].
  cbn [lookup_num].
  repeat match goal with
         | |- context [?c =? status] => destruct (Z.eqb_spec c status) as [<-|?]
         end;
    cbv iota;
    (split; [|split; [|split]]);
    try (intros E; repeat (destruct E as [E|E]);
         first [discriminate E|split; vm_compute; reflexivity]);
    try (split; [intros E; discriminate E|intros H; exfalso; apply H; simpl; auto 10]).
  split; [intros _ Hin; simpl in Hin; intuition congruence|reflexivity].
Qed.

Lemma twinguard_alarm_status_witness :
  let msg := mkMessage "0x000d6f0000000003" 12 "twinguardAlarm" "attributeReport"
               [("alarm_status", 0x00200081)] in
  (assoc "alarm_status" (msg_data msg) = Some 0x00200081 /\ 0 <= 0x00200081 < 2 ^ 32)
  /\ exists state : value,
       twinguard.alarm_convert msg
       = [("self_test", VBool false); ("smoke", VBool true); ("siren_state", state)].
Proof.
  cbv zeta. split; [split; [reflexivity|vm_compute; split; [discriminate|reflexivity]]|].
  destruct (twinguard_alarm_status
              (mkMessage "0x000d6f0000000003" 12 "twinguardAlarm" "attributeReport"
                 [("alarm_status", 0x00200081)]) 0x00200081 eq_refl
              ltac:(vm_compute; split; [discriminate|reflexivity])) as (state & Hp & _).
  exists state. exact Hp.
Defined.

(** ** Air purity: declared bounds and monotonicity *)

Lemma airpurity_values (msg : Message) (iaq : Z) :
  assoc "airpurity" (msg_data msg) = Some iaq ->
  assoc "aqi" (twinguard.measurements_convert msg) = Some (VNum iaq)
  /\ assoc "voc" (twinguard.measurements_convert msg)
     = Some (VNum (iaq * fst (twinguard.factors iaq)))
  /\ assoc "co2" (twinguard.measurements_convert msg)
     = Some (VNum (iaq * snd (twinguard.factors iaq) + 400)).
Proof.
  intros Hair. unfold twinguard.measurements_convert, toNumber. rewrite Hair.
  destruct (twinguard.factors iaq) as [fv fc].
  destruct (assoc "humidity" (msg_data msg)) as [h|];
    [destruct (isInRange_quot 0 100 h 100)|];
    destruct (assoc "temperature" (msg_data msg));
    destruct (assoc "illuminance_lux" (msg_data msg));
    destruct (assoc "battery" (msg_data msg));
    repeat split; reflexivity.
Qed.

Lemma factors_cases (iaq : Z) :
  (iaq <= 50 /\ twinguard.factors iaq = (6, 2))
  \/ (51 <= iaq <= 100 /\ twinguard.factors iaq = (10, 4))
  \/ (101 <= iaq <= 150 /\ twinguard.factors iaq = (20, 4))
  \/ (151 <= iaq <= 200 /\ twinguard.factors iaq = (50, 4))
  \/ (201 <= iaq /\ twinguard.factors iaq = (100, 4)).
Proof.
  rewrite factors_by_range_eq. unfold factors_by_range.
  repeat match goal with
         | |- context [?a <=? ?b] => destruct (Z.leb_spec a b); simpl
         end; intuition lia.
Qed.

(** X15. For an air-purity value within the bounds declared for [aqi]
    (0 to 500), the decoded [voc] and [co2] stay within the bounds declared
    for them: [voc] between 0 and 50000 and [co2] between 400 and 2400. *)
Theorem airpurity_within_declared_bounds (msg : Message) (iaq : Z) :
  assoc "airpurity" (msg_data msg) = Some iaq ->
  0 <= iaq <= 500 ->
  exists voc co2 : Z,
    assoc "voc" (twinguard.measurements_convert msg) = Some (VNum voc)
    /\ assoc "co2" (twinguard.measurements_convert msg) = Some (VNum co2)
    /\ 0 <= voc <= 50000
    /\ 400 <= co2 <= 2400.
Proof.
  intros Hair Hrange.
  destruct (airpurity_values msg iaq Hair) as (_ & Hvoc & Hco2).
  exists (iaq * fst (twinguard.factors iaq)), (iaq * snd (twinguard.factors iaq) + 400).
  split; [exact Hvoc|]. split; [exact Hco2|].
  destruct (factors_cases iaq) as [[H ->]|[[H ->]|[[H ->]|[[H ->]|[H ->]]]]]; simpl; lia.
Qed.

Lemma airpurity_within_declared_bounds_witness :
  let msg := mkMessage "0x000d6f0000000003" 3 "twinguardMeasurements" "attributeReport"
               [("airpurity", 500)] in
  (assoc "airpurity" (msg_data msg) = Some 500 /\ 0 <= 500 <= 500)
  /\ exists voc co2 : Z,
       assoc "voc" (twinguard.measurements_convert msg) = Some (VNum voc)
       /\ assoc "co2" (twinguard.measurements_convert msg) = Some (VNum co2)
       /\ 0 <= voc <= 50000
       /\ 400 <= co2 <= 2400.
Proof.
  cbv zeta. split; [split; [reflexivity|lia]|].
  apply (airpurity_within_declared_bounds
           (mkMessage "0x000d6f0000000003" 3 "twinguardMeasurements" "attributeReport"
              [("airpurity", 500)]) 500); [reflexivity|lia].
Defined.

(** X16. The decoded [voc] and [co2] never decrease when the air-purity
    value grows: the factor steps at 51, 101, 151 and 201 only go up. *)
Theorem airpurity_monotone (a b : Z) :
  0 <= a <= b ->
  a * fst (twinguard.factors a) <= b * fst (twinguard.factors b)
  /\ a * snd (twinguard.factors a) + 400 <= b * snd (twinguard.factors b) + 400.
Proof.
  intros H.
  destruct (factors_cases a) as [[Ha ->]|[[Ha ->]|[[Ha ->]|[[Ha ->]|[Ha ->]]]]];
    destruct (factors_cases b) as [[Hb ->]|[[Hb ->]|[[Hb ->]|[[Hb ->]|[Hb ->]]]]];
    simpl; lia.
Qed.

Lemma airpurity_monotone_witness :
  0 <= 50 <= 51
  /\ 50 * fst (twinguard.factors 50) <= 51 * fst (twinguard.factors 51)
  /\ 50 * snd (twinguard.factors 50) + 400 <= 51 * snd (twinguard.factors 51) + 400.
Proof.
  split; [lia|]. apply (airpurity_monotone 50 51). lia.
Defined.

(** ** More on the button-press decoder *)

Lemma chosen_buffer_length (options : ConverterOptions) :
  length (chosen_buffer options) = 9%nat.
Proof.
  unfold chosen_buffer. destruct (led_response options) as [s|]; [|reflexivity].
  destruct (Nat.eqb (length (Buffer_from_hex s)) 9) eqn:E; [|reflexivity].
  now apply Nat.eqb_eq in E.
Qed.

Lemma convert_outcome_cases (msg : RawMessage) (options : ConverterOptions) (w : World) :
  (8 <= length (raw_data msg))%nat ->
  bhius_button_press.convert msg options w
  = (Ok None, with_log w (log w ++ led_response_errors options))
  \/ bhius_button_press.convert msg options w
     = after_dedup msg options false (admitted msg options w).
Proof.
  intros Hlen.
  destruct (decide (was_processed w (frame_endpoint msg) (frame_sequenceNumber msg)))
    as [Hdup|Hfresh].
  - left. now apply convert_duplicate.
  - right. now apply convert_fresh.
Qed.

(** X17. A frame shorter than eight bytes makes the decoder throw an
    out-of-range read and leaves the world as it was: nothing is logged,
    no sequence number is recorded and nothing is sent. *)
Theorem button_frame_too_short (msg : RawMessage) (options : ConverterOptions) (w : World) :
  (length (raw_data msg) < 8)%nat ->
  exists offset : nat, bhius_button_press.convert msg options w = (Throw (OutOfRange offset), w).
Proof.
  intros Hlen. unfold bhius_button_press.convert.
  destruct (readUInt8_cases (raw_data msg) 3 w) as [[b3 H3]|H3];
    [rewrite (bind_ok _ _ _ _ _ H3)|rewrite (bind_throw _ _ _ _ _ H3); now eexists].
  destruct (readUInt8_cases (raw_data msg) 4 w) as [[b4 H4]|H4];
    [rewrite (bind_ok _ _ _ _ _ H4)|rewrite (bind_throw _ _ _ _ _ H4); now eexists].
  destruct (readUInt8_cases (raw_data msg) 5 w) as [[b5 H5]|H5];
    [rewrite (bind_ok _ _ _ _ _ H5)|rewrite (bind_throw _ _ _ _ _ H5); now eexists].
  rewrite (bind_throw _ _ _ _ _ (readUInt16LE_short (raw_data msg) 6 w ltac:(lia))).
  now eexists.
Qed.

Lemma button_frame_too_short_witness :
  let msg := mkRaw "0x000d6f0000000002" 1 [0x19; 0x2a; 0x10; 0x2a; 0x01] in
  let w := mkWorld (fun _ => true) [] [] ∅ ∅ ∅ 0%nat in
  (length (raw_data msg) < 8)%nat
  /\ exists offset : nat,
       bhius_button_press.convert msg (mkConverterOptions None) w = (Throw (OutOfRange offset), w).
Proof.
  cbv zeta. split; [simpl; lia|].
  apply (button_frame_too_short
           (mkRaw "0x000d6f0000000002" 1 [0x19; 0x2a; 0x10; 0x2a; 0x01])
           (mkConverterOptions None) (mkWorld (fun _ => true) [] [] ∅ ∅ ∅ 0%nat)).
  simpl. lia.
Defined.

(** X18. Whatever frame arrives and whatever the [led_response] option
    holds, the decoder sends at most one operation, and that operation is
    the [confirmButtonPressed] command to the endpoint of the frame with a
    buffer of exactly nine bytes. *)
Theorem button_ack_is_nine_bytes (msg : RawMessage) (options : ConverterOptions) (w : World) :
  let outcome := bhius_button_press.convert msg options w in
  trace (snd outcome) = trace w
  \/ exists buf : list Z,
       length buf = 9%nat
       /\ trace (snd outcome)
          = (trace w ++ [Command (Endpoint (raw_device msg) (raw_endpoint msg))
                           (KName "boschSpecific") (KName "confirmButtonPressed")
                           [("data", VBuffer buf)] (mkOptions None (Some "immediate") None)])%list.
Proof.
  cbv zeta.
  destruct (le_lt_dec 8 (length (raw_data msg))) as [Hlen|Hlen].
  - destruct (convert_outcome_cases msg options w Hlen) as [-> | ->]; [now left|].
    destruct (frame_button msg) as [name|] eqn:Hb.
    + destruct (is_long_press msg) eqn:Hl.
      * destruct (store (admitted msg options w) !! (frame_endpoint msg, name)) as [d|] eqn:Hs.
        -- rewrite (after_dedup_long_press_pending msg options _ name Hb Hl)
             by (rewrite Hs; now eexists).
           now left.
        -- rewrite (after_dedup_long_press_new msg options _ name Hb Hl Hs). now left.
      * rewrite (after_dedup_release msg options _ name Hb Hl).
        right. exists (chosen_buffer options). split; [apply chosen_buffer_length|reflexivity].
    + destruct (after_dedup_unknown_button msg options (admitted msg options w) Hb)
        as (_ & _ & Ht).
      left. exact Ht.
  - left. now rewrite (convert_malformed msg options w Hlen).
Qed.

(** X19. A frame touches no entry of the long-press registry but the one
    of its own endpoint and button: every entry under another endpoint or
    another button is after the decoding what it was before. *)
Theorem button_registry_is_per_button
  (msg : RawMessage) (options : ConverterOptions) (w : World) (k : string * Z * string) :
  (forall name, frame_button msg = Some name -> k <> (frame_endpoint msg, name)) ->
  store (snd (bhius_button_press.convert msg options w)) !! k = store w !! k.
Proof.
  intros Hk.
  destruct (le_lt_dec 8 (length (raw_data msg))) as [Hlen|Hlen].
  - destruct (convert_outcome_cases msg options w Hlen) as [-> | ->]; [reflexivity|].
    destruct (frame_button msg) as [name|] eqn:Hb.
    + specialize (Hk name eq_refl).
      destruct (is_long_press msg) eqn:Hl.
      * destruct (store (admitted msg options w) !! (frame_endpoint msg, name)) as [d|] eqn:Hs.
        -- rewrite (after_dedup_long_press_pending msg options _ name Hb Hl)
             by (rewrite Hs; now eexists).
           reflexivity.
        -- rewrite (after_dedup_long_press_new msg options _ name Hb Hl Hs). simpl.
           now rewrite lookup_insert_ne by congruence.
      * rewrite (after_dedup_release msg options _ name Hb Hl). simpl.
        now rewrite lookup_delete_ne by congruence.
    + destruct (after_dedup_unknown_button msg options (admitted msg options w) Hb)
        as (_ & Hs & _).
      now rewrite Hs.
  - now rewrite (convert_malformed msg options w Hlen).
Qed.

Lemma button_registry_is_per_button_witness :
  let press := mkRaw "0x000d6f0000000002" 1 [0x19; 0x2b; 0x10; 0x2b; 0x02; 0x01; 0x05; 0x00] in
  let other := ("0x000d6f0000000002", 1, "top_left") in
  let w := mkWorld (fun _ => true) [] [] {[other := 7]} ∅ ∅ 0%nat in
  (forall name, frame_button press = Some name -> other <> (frame_endpoint press, name))
  /\ store (snd (bhius_button_press.convert press (mkConverterOptions None) w)) !! other
     = Some 7.
Proof.
  cbv zeta.
  assert (H : forall name,
             frame_button
               (mkRaw "0x000d6f0000000002" 1 [0x19; 0x2b; 0x10; 0x2b; 0x02; 0x01; 0x05; 0x00])
             = Some name ->
             ("0x000d6f0000000002", 1, "top_left")
             <> (frame_endpoint
                   (mkRaw "0x000d6f0000000002" 1
                      [0x19; 0x2b; 0x10; 0x2b; 0x02; 0x01; 0x05; 0x00]), name)).
  { intros name Hn. vm_compute in Hn. injection Hn as <-. discriminate. }
  split; [exact H|].
  rewrite (button_registry_is_per_button _ (mkConverterOptions None)
             (mkWorld (fun _ => true) [] [] {[("0x000d6f0000000002", 1, "top_left") := 7]}
                ∅ ∅ 0%nat) _ H).
  apply lookup_singleton_eq.
Defined.

(** X20. A long press followed by the release of the same button, each
    with a sequence number not seen before, returns the registry to what
    it was: the press creates the entry and reports [longpress], the
    release removes it, reports the release action and sends the one
    acknowledgment. *)
Theorem button_press_then_release
  (press release : RawMessage) (options1 options2 : ConverterOptions) (w : World)
  (name : string) :
  (8 <= length (raw_data press))%nat ->
  (8 <= length (raw_data release))%nat ->
  frame_endpoint press = frame_endpoint release ->
  frame_button press = Some name ->
  frame_button release = Some name ->
  is_long_press press = true ->
  is_long_press release = false ->
  frame_sequenceNumber press <> frame_sequenceNumber release ->
  ~ was_processed w (frame_endpoint press) (frame_sequenceNumber press) ->
  ~ was_processed w (frame_endpoint press) (frame_sequenceNumber release) ->
  store w !! (frame_endpoint press, name) = None ->
  let first := bhius_button_press.convert press options1 w in
  let second := bhius_button_press.convert release options2 (snd first) in
  fst first = Ok (Some [("action", VStr ("button_" +:+ name +:+ "_longpress"))])
  /\ (exists patch, fst second = Ok (Some patch))
  /\ store (snd second) = store w
  /\ trace (snd second) = (trace w ++ [confirmButtonPressed release options2])%list.
Proof.
  intros Hlen1 Hlen2 Hep Hb1 Hb2 Hl1 Hl2 Hseq Hf1 Hf2 Hnone. cbv zeta.
  rewrite (convert_fresh press options1 w Hlen1 Hf1).
  assert (Hs : store (admitted press options1 w) !! (frame_endpoint press, name) = None)
    by exact Hnone.
  rewrite (after_dedup_long_press_new press options1 _ name Hb1 Hl1 Hs).
  cbn [fst snd].
  set (w1 := with_store (admitted press options1 w)
               (<[(frame_endpoint press, name) := frame_duration press]>
                  (store (admitted press options1 w)))).
  assert (Hfresh : ~ was_processed w1 (frame_endpoint release) (frame_sequenceNumber release)).
  { unfold was_processed, w1. simpl. rewrite <- Hep. rewrite lookup_insert_eq. simpl.
    intros Hin. apply elem_of_cons in Hin as [Heq|Hin]; [congruence|].
    apply Hf2. exact Hin. }
  rewrite (convert_fresh release options2 w1 Hlen2 Hfresh).
  rewrite (after_dedup_release release options2 _ name Hb2 Hl2).
  cbn [fst snd]. split; [reflexivity|]. split; [now eexists|].
  split.
  - simpl. rewrite <- Hep. now apply delete_insert_id.
  - reflexivity.
Qed.

Lemma button_press_then_release_witness :
  let press := mkRaw "0x000d6f0000000002" 1 [0x19; 0x2b; 0x10; 0x2b; 0x02; 0x01; 0x05; 0x00] in
  let release := mkRaw "0x000d6f0000000002" 1 [0x19; 0x2c; 0x10; 0x2c; 0x02; 0x01; 0x00; 0x00] in
  let options := mkConverterOptions None in
  let w := mkWorld (fun _ => true) [] [] ∅ ∅ ∅ 0%nat in
  let first := bhius_button_press.convert press options w in
  let second := bhius_button_press.convert release options (snd first) in
  (frame_button press = Some "bottom_left" /\ frame_button release = Some "bottom_left"
   /\ is_long_press press = true /\ is_long_press release = false)
  /\ fst first = Ok (Some [("action", VStr "button_bottom_left_longpress")])
  /\ (exists patch, fst second = Ok (Some patch))
  /\ store (snd second) = ∅
  /\ trace (snd second) = [confirmButtonPressed release options].
Proof.
  cbv zeta. split; [repeat split; reflexivity|].
  apply (button_press_then_release
           (mkRaw "0x000d6f0000000002" 1 [0x19; 0x2b; 0x10; 0x2b; 0x02; 0x01; 0x05; 0x00])
           (mkRaw "0x000d6f0000000002" 1 [0x19; 0x2c; 0x10; 0x2c; 0x02; 0x01; 0x00; 0x00])
           (mkConverterOptions None) (mkConverterOptions None)
           (mkWorld (fun _ => true) [] [] ∅ ∅ ∅ 0%nat) "bottom_left");
    try reflexivity; try (simpl; lia); try (vm_compute; discriminate);
    apply (bool_decide_unpack _); vm_compute; exact I.
Defined.



(** ** Sequences of awaited operations *)

Lemma sequence_ret {A : Type} (x : A) (w : World) : ret x w = sequence_outcome [] x w.
Proof.
  unfold ret, sequence_outcome. simpl. rewrite app_nil_r. now destruct w.
Qed.

Lemma sequence_cons {A : Type} (o : Op) (m : M A) (ops : list Op) (x : A) :
  (forall w, m w = sequence_outcome ops x w) ->
  forall w, bind (await o) (fun _ => m) w = sequence_outcome (o :: ops) x w.
Proof.
  intros Hm w. unfold bind, await, sequence_outcome. simpl.
  destruct (accepts w o) eqn:E; [|reflexivity].
  rewrite Hm. unfold sequence_outcome. simpl. unfold with_trace. simpl.
  now rewrite <- app_assoc.
Qed.

Lemma sequence_last (o : Op) (w : World) : await o w = sequence_outcome [o] tt w.
Proof.
  unfold await, sequence_outcome. simpl. now destruct (accepts w o).
Qed.

Lemma bind_await {A : Type} (o : Op) (k : unit -> M A) (w : World) :
  bind (await o) k w
  = if accepts w o then k tt (with_trace w (trace w ++ [o]))
    else (Throw (Rejected o), with_trace w (trace w ++ [o])).
Proof. unfold bind, await. now destruct (accepts w o). Qed.

Lemma bind_await_catch {A : Type} (o : Op) (k : unit -> M A) (w : World) :
  bind (await_catch o) k w = k tt (with_trace w (trace w ++ [o])).
Proof. reflexivity. Qed.

(** X22. The configure sequences of the water alarm, of the smoke alarm
    and of the door/window contacts read their attributes in the order of
    the source, stop at the first read the transport rejects and throw
    that rejection; the reads after it are never issued. *)
Theorem configure_reads_in_order (device : string) (w : World) :
  let endpoint := Endpoint device 1 in
  let battery := Read endpoint (KName "genPowerCfg") [KName "batteryPercentageRemaining"]
                   noOptions in
  let zone := Read endpoint (KName "ssIasZone") [KName "zoneStatus"] noOptions in
  configure.BWA_1 device w
  = sequence_outcome
      [battery; zone;
       Read endpoint (KName "boschSpecific") [KName "alarmOnMotion"] manufacturerOptions] tt w
  /\ configure.BSD_2 device w
     = sequence_outcome
         [battery; zone;
          Read endpoint (KName "ssIasZone") [KName "currentZoneSensitivityLevel"] noOptions]
         tt w
  /\ configure.BSEN device w = sequence_outcome [battery; zone] tt w.
Proof.
  cbv zeta. unfold configure.BWA_1, configure.BSD_2, configure.BSEN.
  repeat split;
    repeat (apply sequence_cons; intros ?); apply sequence_last.
Qed.

(** X23. In the configure sequence of the Universal Switch II the two
    reads of the default LED configuration are best-effort: whatever the
    transport answers to them, the third read is issued.  The third read
    and the pairing command are mandatory: a rejection of either is thrown
    and nothing after it runs, neither the pairing command nor the binding
    and reporting set-up. *)
Theorem configure_BHI_US_best_effort
  (reporting_bind : Entity -> list string -> M unit)
  (reporting_batteryPercentageRemaining reporting_batteryVoltage : Entity -> M unit)
  (device : string) (w : World) :
  let endpoint := Endpoint device 1 in
  let immediate := mkOptions (Some ROBERT_BOSCH_GMBH) (Some "immediate") None in
  let short := Read endpoint (KName "boschSpecific")
                 [KId 0x0010; KId 0x0011; KId 0x0012; KId 0x0013] immediate in
  let long := Read endpoint (KName "boschSpecific")
                [KId 0x0020; KId 0x0021; KId 0x0022; KId 0x0023] immediate in
  let bitmap := Read endpoint (KName "boschSpecific") [KId 0x0024] immediate in
  let paired := Command endpoint (KName "boschSpecific") (KName "pairingCompleted")
                  [("data", VBuffer [0x00])] (mkOptions None (Some "immediate") None) in
  let run := configure.BHI_US reporting_bind reporting_batteryPercentageRemaining
               reporting_batteryVoltage device w in
  (accepts w bitmap = false ->
   run = (Throw (Rejected bitmap), with_trace w (trace w ++ [short; long; bitmap])))
  /\ (accepts w bitmap = true -> accepts w paired = false ->
      run = (Throw (Rejected paired),
             with_trace w (trace w ++ [short; long; bitmap; paired])))
  /\ (accepts w bitmap = true -> accepts w paired = true ->
      run = bind (reporting_bind endpoint ["genPowerCfg"; "genBasic"; "boschSpecific"])
              (fun _ => bind (reporting_batteryPercentageRemaining endpoint)
                          (fun _ => reporting_batteryVoltage endpoint))
              (with_trace w (trace w ++ [short; long; bitmap; paired]))).
Proof.
  cbv zeta. unfold configure.BHI_US.
  rewrite !bind_await_catch, bind_await. unfold with_trace. simpl.
  rewrite <- !app_assoc. simpl.
  split; [|split].
  - now intros ->.
  - intros -> Hp. rewrite bind_await. simpl. rewrite Hp.
    unfold with_trace. simpl. now rewrite <- !app_assoc.
  - intros -> Hp. rewrite bind_await. simpl. rewrite Hp.
    unfold with_trace. simpl. now rewrite <- !app_assoc.
Qed.

Lemma configure_BHI_US_best_effort_witness :
  let device := "0x000d6f0000000002" in
  let endpoint := Endpoint device 1 in
  let immediate := mkOptions (Some ROBERT_BOSCH_GMBH) (Some "immediate") None in
  let short := Read endpoint (KName "boschSpecific")
                 [KId 0x0010; KId 0x0011; KId 0x0012; KId 0x0013] immediate in
  let long := Read endpoint (KName "boschSpecific")
                [KId 0x0020; KId 0x0021; KId 0x0022; KId 0x0023] immediate in
  let bitmap := Read endpoint (KName "boschSpecific") [KId 0x0024] immediate in
  let w := mkWorld (fun _ => false) [] [] ∅ ∅ ∅ 0%nat in
  accepts w bitmap = false
  /\ configure.BHI_US (fun _ _ => ret tt) (fun _ => ret tt) (fun _ => ret tt) device w
     = (Throw (Rejected bitmap), with_trace w [short; long; bitmap]).
Proof.
  cbv zeta. split; [reflexivity|].
  exact (proj1 (configure_BHI_US_best_effort (fun _ _ => ret tt) (fun _ => ret tt)
                  (fun _ => ret tt) "0x000d6f0000000002"
                  (mkWorld (fun _ => false) [] [] ∅ ∅ ∅ 0%nat)) eq_refl).
Defined.

(** ** Alarms: what is sent, to whom, and what is never returned *)

(** X24. Setting the Twinguard [alarm] on a group fails for every symbol
    before anything is sent.  On an endpoint, [stop] sends the two alarm
    responses 0x16 and 0x14 and then the burglar-alarm command with 0 to
    endpoint 12, stopping at the first rejection, and [burglar] sends that
    command with 1; neither returns a state patch.  [pre_alarm] and [fire]
    send one alarm response, 0x11 or 0x10, and return the siren state. *)
Theorem twinguard_alarm_set (meta : Meta) (w : World) :
  (forall (g : Z) (v : value),
      in_lookup v twinguard.sirenState = true ->
      twinguard.convertSet (Group g) "alarm" v meta w = (Throw NotAnEndpoint, w))
  /\ (forall (ieee : string) (ep : Z),
         let entity := Endpoint ieee ep in
         let burglar data :=
           Command (Endpoint (meta_device meta) 12) (KName "twinguardAlarm")
             (KName "burglarAlarm") [("data", VNum data)] noOptions in
         twinguard.convertSet entity "alarm" (VStr "stop") meta w
         = sequence_outcome
             [twinguard.alarm_response entity 0x16; twinguard.alarm_response entity 0x14;
              burglar 0x00] None w
         /\ twinguard.convertSet entity "alarm" (VStr "burglar") meta w
            = one_operation (burglar 0x01) None w
         /\ twinguard.convertSet entity "alarm" (VStr "pre_alarm") meta w
            = one_operation (twinguard.alarm_response entity 0x11)
                (Some [("siren_state", VStr "pre_alarm")]) w
         /\ twinguard.convertSet entity "alarm" (VStr "fire") meta w
            = one_operation (twinguard.alarm_response entity 0x10)
                (Some [("siren_state", VStr "fire")]) w).
Proof.
  split.
  - intros g v Hv. destruct (in_lookup_inside _ _ Hv) as (s & code & -> & Hs).
    unfold twinguard.convertSet. eval_keys.
    unfold bind at 1. unfold ret at 1.
    rewrite (bind_ok _ _ _ _ _ (getFromLookup_inside s _ code w Hs)).
    reflexivity.
  - intros ieee ep. cbv zeta. unfold twinguard.convertSet. eval_keys.
    repeat split; unfold bind at 1; unfold ret at 1;
      (erewrite bind_ok by (apply getFromLookup_inside; reflexivity));
      unfold bind at 1; unfold assertEndpoint, ret at 1; simpl Z.eqb; cbv iota.
    + repeat (apply sequence_cons; intros ?). apply sequence_ret.
    + apply await_then_ret.
    + apply await_then_ret.
    + apply await_then_ret.
Qed.

Lemma twinguard_alarm_set_witness :
  let meta := mkMeta "0x000d6f0000000003" [] in
  let w := mkWorld (fun _ => true) [] [] ∅ ∅ ∅ 0%nat in
  in_lookup (VStr "fire") twinguard.sirenState = true
  /\ twinguard.convertSet (Group 5) "alarm" (VStr "fire") meta w = (Throw NotAnEndpoint, w).
Proof.
  cbv zeta. split; [reflexivity|].
  exact (proj1 (twinguard_alarm_set (mkMeta "0x000d6f0000000003" [])
                  (mkWorld (fun _ => true) [] [] ∅ ∅ ∅ 0%nat)) 5 (VStr "fire") eq_refl).
Defined.

(** X25. The broadcast alarm never returns a state patch: for a symbol of
    its table it fails on a group before anything is sent, and on an
    endpoint it sends exactly one broadcast of the smoke-alarm siren
    command carrying the code of the symbol. *)
Theorem broadcast_alarm_set (key : string) (s : string) (code : Z) (meta : Meta) (w : World) :
  assoc s broadcastAlarm.sirenState = Some code ->
  (forall g : Z,
      broadcastAlarm.convertSet (Group g) "broadcast_alarm" (VStr s) meta w
      = (Throw NotAnEndpoint, w))
  /\ (forall (ieee : string) (ep : Z),
         broadcastAlarm.convertSet (Endpoint ieee ep) "broadcast_alarm" (VStr s) meta w
         = one_operation
             (ZclCommandBroadcast (Endpoint ieee ep) 255 "SLEEPY" (KName "ssIasZone")
                (KName "boschSmokeAlarmSiren") [("data", VNum code)] manufacturerOpts)
             None w)
  /\ (forall (entity : Entity) (v : value) (patch : KeyValue),
         fst (broadcastAlarm.convertSet entity key v meta w) <> Ok (Some patch)).
Proof.
  intros Hs. split; [|split].
  - intros g. unfold broadcastAlarm.convertSet. eval_keys.
    rewrite (bind_ok _ _ _ _ _ (getFromLookup_inside s _ code w Hs)). reflexivity.
  - intros ieee ep. unfold broadcastAlarm.convertSet. eval_keys.
    rewrite (bind_ok _ _ _ _ _ (getFromLookup_inside s _ code w Hs)).
    unfold bind at 1. unfold assertEndpoint, ret at 1. apply await_then_ret.
  - intros entity v patch. unfold broadcastAlarm.convertSet.
    destruct (String.eqb key "broadcast_alarm"); [|discriminate].
    unfold bind, getFromLookup, assertEndpoint, await, ret, throw.
    destruct v as [| | | |s'|]; try discriminate.
    destruct (assoc s' broadcastAlarm.sirenState); [|discriminate].
    destruct entity; [|discriminate].
    destruct (accepts w _); discriminate.
Qed.

Lemma broadcast_alarm_set_witness :
  let meta := mkMeta "0x000d6f0000000006" [] in
  let w := mkWorld (fun _ => true) [] [] ∅ ∅ ∅ 0%nat in
  assoc "burglar_on" broadcastAlarm.sirenState = Some 0xb401
  /\ broadcastAlarm.convertSet (Endpoint "0x000d6f0000000006" 1) "broadcast_alarm"
       (VStr "burglar_on") meta w
     = one_operation
         (ZclCommandBroadcast (Endpoint "0x000d6f0000000006" 1) 255 "SLEEPY"
            (KName "ssIasZone") (KName "boschSmokeAlarmSiren") [("data", VNum 0xb401)]
            manufacturerOpts)
         None w.
Proof.
  cbv zeta. split; [reflexivity|].
  exact (proj1 (proj2 (broadcast_alarm_set "broadcast_alarm" "burglar_on" 0xb401
                         (mkMeta "0x000d6f0000000006" [])
                         (mkWorld (fun _ => true) [] [] ∅ ∅ ∅ 0%nat) eq_refl))
           "0x000d6f0000000006" 1).
Defined.

(** X26. The alarm state of the outdoor siren is always commanded on
    endpoint 1 of the device, whatever entity the set was addressed to, a
    group included: [ON] sends command 0xf0 of cluster 0x0502 with 7 and
    [OFF] sends it with 0, and the requested symbol is echoed as the
    patch. *)
Theorem siren_alarm_state_set (entity : Entity) (s : string) (code : Z) (meta : Meta)
  (w : World) :
  assoc s outdoorSirenState = Some code ->
  rbshoszbeu.convertSet entity "alarm_state" (VStr s) meta w
  = one_operation
      (Command (Endpoint (meta_device meta) 1) (KId 0x0502) (KId 0xf0)
         [("data", VNum code)] manufacturerOptions)
      (Some [("alarm_state", VStr s)]) w.
Proof.
  intros Hs. unfold rbshoszbeu.convertSet. eval_keys.
  rewrite (bind_ok _ _ _ _ _ (getFromLookup_inside s _ code w Hs)).
  unfold outdoorSirenState, assoc in Hs. revert Hs.
  key_cases s; intros Hs; try discriminate; injection Hs as <-; simpl Z.eqb; cbv iota;
    apply await_then_ret.
Qed.

Lemma siren_alarm_state_set_witness :
  let meta := mkMeta "0x000d6f0000000001" [] in
  let w := mkWorld (fun _ => true) [] [] ∅ ∅ ∅ 0%nat in
  assoc "ON" outdoorSirenState = Some 0x07
  /\ rbshoszbeu.convertSet (Group 3) "alarm_state" (VStr "ON") meta w
     = one_operation
         (Command (Endpoint "0x000d6f0000000001" 1) (KId 0x0502) (KId 0xf0)
            [("data", VNum 7)] manufacturerOptions)
         (Some [("alarm_state", VStr "ON")]) w.
Proof.
  cbv zeta. split; [reflexivity|].
  exact (siren_alarm_state_set (Group 3) "ON" 0x07 (mkMeta "0x000d6f0000000001" [])
           (mkWorld (fun _ => true) [] [] ∅ ∅ ∅ 0%nat) eq_refl).
Defined.

(** ** The BMCT: the keys shared by the cover and the switch endpoints *)

(** X27. On the BMCT a get of [state], [on_time] or [off_wait_time] reads
    the on/off state of the addressed endpoint unless it is endpoint 1,
    the cover endpoint: on endpoint 1 and on a group it reads nothing and
    returns without an error.  A set of [state] is forwarded to the cover
    converter on endpoint 1 and to the on/off converter everywhere else,
    and returns no patch of its own. *)
Theorem bmct_state_routing
  (cover_state on_off : Entity -> string -> value -> Meta -> M unit)
  (key : string) (meta : Meta) (w : World) :
  In key ["state"; "on_time"; "off_wait_time"] ->
  (forall (ieee : string) (ep : Z),
      bmct.convertGet (Endpoint ieee ep) key meta w
      = if ep =? 1 then (Ok tt, w)
        else one_operation (Read (Endpoint ieee ep) (KName "genOnOff") [KName "onOff"]
                              noOptions) tt w)
  /\ (forall g : Z, bmct.convertGet (Group g) key meta w = (Ok tt, w))
  /\ (forall (entity : Entity) (v : value),
         bmct.convertSet cover_state on_off entity "state" v meta w
         = bind (if bmct.has_ID_1 entity then cover_state entity "state" v meta
                 else on_off entity "state" v meta)
             (fun _ => ret None) w).
Proof.
  intros Hin. simpl in Hin. split; [|split].
  - intros ieee ep. unfold bmct.convertGet.
    destruct Hin as [<-|[<-|[<-|[]]]]; eval_keys; simpl orb; cbv iota;
      unfold bmct.has_ID_not_1; destruct (ep =? 1); simpl; try reflexivity; apply await_run.
  - intros g. unfold bmct.convertGet.
    destruct Hin as [<-|[<-|[<-|[]]]]; reflexivity.
  - intros entity v. unfold bmct.convertSet. eval_keys. simpl orb. cbv iota.
    unfold bind, ret.
    destruct (bmct.has_ID_1 entity);
      match goal with |- context [?f entity "state" v meta w] =>
        destruct (f entity "state" v meta w) as [[[]|err] w'] end; reflexivity.
Qed.

Lemma bmct_state_routing_witness :
  let meta := mkMeta "0x000d6f0000000004" [] in
  let w := mkWorld (fun _ => true) [] [] ∅ ∅ ∅ 0%nat in
  In "on_time" ["state"; "on_time"; "off_wait_time"]
  /\ bmct.convertGet (Endpoint "0x000d6f0000000004" 1) "on_time" meta w = (Ok tt, w)
  /\ bmct.convertGet (Endpoint "0x000d6f0000000004" 2) "on_time" meta w
     = one_operation (Read (Endpoint "0x000d6f0000000004" 2) (KName "genOnOff")
                        [KName "onOff"] noOptions) tt w.
Proof.
  cbv zeta.
  assert (Hin : In "on_time" ["state"; "on_time"; "off_wait_time"]) by (simpl; auto).
  split; [exact Hin|].
  destruct (bmct_state_routing (fun _ _ _ _ => ret tt) (fun _ _ _ _ => ret tt) "on_time"
              (mkMeta "0x000d6f0000000004" [])
              (mkWorld (fun _ => true) [] [] ∅ ∅ ∅ 0%nat) Hin) as [H _].
  split; [exact (H "0x000d6f0000000004" 1)|exact (H "0x000d6f0000000004" 2)].
Defined.

(** ** Short configuration strings *)

Lemma Buffer_from_hex_length_bound (n : nat) (s : string) :
  (String.length s <= n)%nat ->
  (2 * length (Buffer_from_hex s) <= String.length s)%nat.
Proof.
  revert s. induction n as [|n IH]; intros s Hn.
  - destruct s; simpl in *; lia.
  - destruct s as [|a [|b rest]]; simpl in *; try lia.
    destruct (hex_digit a), (hex_digit b); simpl; try lia.
    specialize (IH rest ltac:(lia)). lia.
Qed.

(** X28. A LED configuration string of fewer than 18 characters is
    rejected for every declared key, whatever its characters: the decoder
    of hexadecimal strings yields at most one byte for two characters, so
    the buffer cannot hold nine bytes, and nothing is written. *)
Theorem led_config_short_string
  (entity : Entity) (key : string) (s : string) (meta : Meta) (w : World) :
  In key bhius_config.key ->
  (String.length s < 18)%nat ->
  exists message : string,
    bhius_config.convertSet entity key (VStr s) meta w = (Throw (Thrown message), w).
Proof.
  intros Hin Hs.
  assert (Hk : exists id, assoc key buttonMap = Some id).
  { unfold bhius_config.key, Object_keys in Hin. apply in_map_iff in Hin as ([k id] & E & Hin).
    simpl in E. subst k. exists id.
    apply In_assoc; [apply buttonMap_distinct|exact Hin]. }
  destruct Hk as [id Hk].
  pose proof (Buffer_from_hex_length_bound (String.length s) s (le_n _)) as Hb.
  eexists. apply (led_config_wrong_length entity key id s meta w Hk). lia.
Qed.

Lemma led_config_short_string_witness :
  let entity := Endpoint "0x000d6f0000000002" 1 in
  let meta := mkMeta "0x000d6f0000000002" [] in
  let w := mkWorld (fun _ => true) [] [] ∅ ∅ ∅ 0%nat in
  (In "config_led_top_right_longpress" bhius_config.key
   /\ (String.length "ff42000005020500" < 18)%nat)
  /\ exists message : string,
       bhius_config.convertSet entity "config_led_top_right_longpress"
         (VStr "ff42000005020500") meta w
       = (Throw (Thrown message), w).
Proof.
  cbv zeta.
  assert (Hin : In "config_led_top_right_longpress" bhius_config.key).
  { rewrite <- list_elem_of_In. apply (bool_decide_unpack _). vm_compute. exact I. }
  split; [split; [exact Hin|simpl; lia]|].
  apply (led_config_short_string (Endpoint "0x000d6f0000000002" 1)
           "config_led_top_right_longpress" "ff42000005020500"
           (mkMeta "0x000d6f0000000002" []) (mkWorld (fun _ => true) [] [] ∅ ∅ ∅ 0%nat) Hin).
  simpl. lia.
Defined.
